(** * fit-pc: anchor store, compatibility resolver and placement composer

    A shallow embedding of the anchor-based core of the fit-pc builder:

    - [useAnchorStore] (the zustand store with the anchor type catalogue),
    - the anchor (de)serialisation of [ProductForm],
    - the placement code of [BuilderCanvas] ([componentTransforms],
      [getRamTransforms]),
    - [checkCompatibility] of the component selector,
    - the Go handler [FilterBySocketCompatibility],
    - the panel of removable case parts, the step and RAM quantity
      handlers of the build session, and [getProxiedModelUrl].

    Conventions.  Coordinates and angles (JS [number], Go [float64]) are
    read as real numbers, so rounding is not modelled; the statements
    about placements therefore give the expressions that the code
    evaluates, in its order of evaluation, rather than consequences that
    hold only without rounding.  Counts and the whole-millimetre attributes
    of [technical_specs] are integers.
    String-literal unions of the TypeScript sources are inductive types.
    [uuidv4()] and [Date.now()] are read from an explicit argument, and
    [localeCompare] is a parameter of the code that sorts with it. *)

From Stdlib Require Import Reals Lra Psatz ZArith String Ascii List Permutation.
From Stdlib Require Import DecimalString DecimalPos DecimalZ.
From stdpp Require Import base option list strings gmap.

(* ===================================================================== *)
(** ** three.js: the vector operations used by the canvas *)
(* ===================================================================== *)

Module THREE.
Local Open Scope R_scope.

(** [THREE.Vector3] *)
Record Vector3 : Type := mkVector3 { x : R; y : R; z : R }.

(** [THREE.Euler]; the canvas never passes an order, so it is 'XYZ'. *)
Record Euler : Type := mkEuler { ex : R; ey : R; ez : R }.

(** [THREE.Quaternion] *)
Record Quaternion : Type := mkQuaternion { qx : R; qy : R; qz : R; qw : R }.

(** [new THREE.Vector3()] and [new THREE.Euler()] *)
Definition Vector3_zero : Vector3 := mkVector3 0 0 0.
Definition Euler_zero : Euler := mkEuler 0 0 0.

(** [Quaternion.setFromEuler], case 'XYZ' *)
Definition setFromEuler (e : Euler) : Quaternion :=
  let c1 := cos (ex e / 2) in
  let c2 := cos (ey e / 2) in
  let c3 := cos (ez e / 2) in
  let s1 := sin (ex e / 2) in
  let s2 := sin (ey e / 2) in
  let s3 := sin (ez e / 2) in
  mkQuaternion (s1 * c2 * c3 + c1 * s2 * s3)
               (c1 * s2 * c3 - s1 * c2 * s3)
               (c1 * c2 * s3 + s1 * s2 * c3)
               (c1 * c2 * c3 - s1 * s2 * s3).

(** [Vector3.applyQuaternion] *)
Definition applyQuaternion (v : Vector3) (q : Quaternion) : Vector3 :=
  let tx := 2 * (qy q * z v - qz q * y v) in
  let ty := 2 * (qz q * x v - qx q * z v) in
  let tz := 2 * (qx q * y v - qy q * x v) in
  mkVector3 (x v + qw q * tx + qy q * tz - qz q * ty)
            (y v + qw q * ty + qz q * tx - qx q * tz)
            (z v + qw q * tz + qx q * ty - qy q * tx).

(** [Vector3.applyEuler] *)
Definition applyEuler (v : Vector3) (e : Euler) : Vector3 :=
  applyQuaternion v (setFromEuler e).

(** [Vector3.add], [Vector3.sub] *)
Definition add (a b : Vector3) : Vector3 :=
  mkVector3 (x a + x b) (y a + y b) (z a + z b).

Definition sub (a b : Vector3) : Vector3 :=
  mkVector3 (x a - x b) (y a - y b) (z a - z b).

End THREE.

(* ===================================================================== *)
(** ** Number formatting *)
(* ===================================================================== *)

(** [Number.prototype.toString] on an integer, as template literals apply
    it: decimal digits, with a leading minus sign below zero.  This is what
    the host prints for the integers a number holds exactly (counts, array
    indices, timestamps); beyond them the host rounds, and from 1e21 on it
    prints an exponent, which is not modelled. *)
Definition Number_toString (n : Z) : string :=
  NilZero.string_of_int (Z.to_int n).

(** [Number.isSafeInteger]: the integers that a number holds exactly. *)
Definition isSafeInteger (n : Z) : Prop := (Z.abs n <= 2 ^ 53 - 1)%Z.

(** [String.prototype.includes] *)
Fixpoint includes (s sub : string) : bool :=
  String.prefix sub s
  || match s with
     | EmptyString => false
     | String _ s' => includes s' sub
     end.

(* ===================================================================== *)
(** ** The anchor type catalogue and the anchor store (useAnchorStore) *)
(* ===================================================================== *)

Module AnchorStore.

(** [SlotAnchorType | ConnectorAnchorType] *)
Inductive AnchorType : Type :=
  (* slots *)
  | cpu_socket | ram_slot | pcie_x16 | pcie_x4 | pcie_x1 | m2_slot
  | sata_port | cooler_plate | mobo_mount_area | psu_bay
  | fan_mount_120 | fan_mount_140 | drive_bay_25 | drive_bay_35
  (* connectors *)
  | cpu_bottom | cooler_base | ram_edge | pcie_edge | m2_edge | sata_plug
  | mobo_backplate | psu_mount | fan_mount | drive_mount.

Inductive ConnectionAxis : Type :=
  | Y_NEG | Y_POS | Z_NEG | Z_POS | X_NEG | X_POS.

Inductive AnchorDirection : Type := input | output.

Inductive InfoCategory : Type :=
  | cat_motherboard | cat_cpu | cat_case | cat_component.

#[global] Instance AnchorType_eq_dec : EqDecision AnchorType.
Proof. solve_decision. Defined.
#[global] Instance ConnectionAxis_eq_dec : EqDecision ConnectionAxis.
Proof. solve_decision. Defined.
#[global] Instance AnchorDirection_eq_dec : EqDecision AnchorDirection.
Proof. solve_decision. Defined.

(** [[number, number, number]] *)
Definition Triple : Type := (R * R * R)%type.
Definition at0 (t : Triple) : R := fst (fst t).
Definition at1 (t : Triple) : R := snd (fst t).
Definition at2 (t : Triple) : R := snd t.

Record Anchor : Type := mkAnchor {
  id : string;
  type : AnchorType;
  label : string;
  position : Triple;
  rotation : Triple;
  direction : AnchorDirection;
  connectionAxis : ConnectionAxis;
  compatibleWith : list AnchorType
}.

Record AnchorState : Type := mkState {
  anchors : list Anchor;
  selectedAnchorId : option string
}.

Record AnchorTypeInfo : Type := mkInfo {
  info_label : string;
  info_direction : AnchorDirection;
  defaultAxis : ConnectionAxis;
  defaultCompatible : list AnchorType;
  category : InfoCategory
}.

Definition ANCHOR_TYPE_INFO (t : AnchorType) : AnchorTypeInfo :=
  match t with
  | cpu_socket => mkInfo "CPU Socket" output Y_NEG [cpu_bottom] cat_motherboard
  | ram_slot => mkInfo "RAM Slot" output Y_NEG [ram_edge] cat_motherboard
  | pcie_x16 => mkInfo "PCIe x16 Slot" output Z_NEG [pcie_edge] cat_motherboard
  | pcie_x4 => mkInfo "PCIe x4 Slot" output Z_NEG [pcie_edge] cat_motherboard
  | pcie_x1 => mkInfo "PCIe x1 Slot" output Z_NEG [pcie_edge] cat_motherboard
  | m2_slot => mkInfo "M.2 Slot" output Z_NEG [m2_edge] cat_motherboard
  | sata_port => mkInfo "SATA Port" output Z_NEG [sata_plug] cat_motherboard
  | cooler_plate => mkInfo "Cooler Plate" output Y_POS [cooler_base] cat_cpu
  | mobo_mount_area =>
      mkInfo "Motherboard Mount Area" output Y_POS [mobo_backplate] cat_case
  | psu_bay => mkInfo "PSU Bay" output Z_NEG [psu_mount] cat_case
  | fan_mount_120 => mkInfo "Fan Mount 120mm" output Z_NEG [fan_mount] cat_case
  | fan_mount_140 => mkInfo "Fan Mount 140mm" output Z_NEG [fan_mount] cat_case
  | drive_bay_25 =>
      mkInfo (String.append "2.5" (String (ascii_of_nat 34) " Drive Bay"))
             output Z_NEG [drive_mount] cat_case
  | drive_bay_35 =>
      mkInfo (String.append "3.5" (String (ascii_of_nat 34) " Drive Bay"))
             output Z_NEG [drive_mount] cat_case
  | cpu_bottom => mkInfo "CPU Contact" input Y_NEG [cpu_socket] cat_component
  | cooler_base => mkInfo "Cooler Base" input Y_POS [cooler_plate] cat_component
  | ram_edge => mkInfo "RAM Edge" input Y_NEG [ram_slot] cat_component
  | pcie_edge =>
      mkInfo "PCIe Edge" input Z_NEG [pcie_x16; pcie_x4; pcie_x1] cat_component
  | m2_edge => mkInfo "M.2 Edge" input Z_NEG [m2_slot] cat_component
  | sata_plug => mkInfo "SATA Plug" input Z_NEG [sata_port] cat_component
  | mobo_backplate =>
      mkInfo "Motherboard Backplate" input Y_NEG [mobo_mount_area] cat_component
  | psu_mount => mkInfo "PSU Mount" input Z_NEG [psu_bay] cat_component
  | fan_mount =>
      mkInfo "Fan Mount" input Z_NEG [fan_mount_120; fan_mount_140] cat_component
  | drive_mount =>
      mkInfo "Drive Mount" input Z_NEG [drive_bay_25; drive_bay_35] cat_component
  end.

(** [a.type === type] *)
Definition sameType (t : AnchorType) (a : Anchor) : bool :=
  bool_decide (type a = t).

(** [a.id === id] *)
Definition hasId (i : string) (a : Anchor) : bool := String.eqb (id a) i.

(** [getDefaultLabel] *)
Definition getDefaultLabel (t : AnchorType) (existingAnchors : list Anchor)
  : string :=
  let info := ANCHOR_TYPE_INFO t in
  let sameTypeCount :=
    (length (List.filter (sameType t) existingAnchors) + 1)%nat in
  String.append (info_label info)
    (String.append " " (Number_toString (Z.of_nat sameTypeCount))).

(** [label || getDefaultLabel(type, state.anchors)]: an omitted label and
    the empty string are both falsy. *)
Definition labelOr (l : option string) (dflt : string) : string :=
  match l with
  | Some s => if String.eqb s "" then dflt else s
  | None => dflt
  end.

(** [addAnchor]; [uuid] is the value [uuidv4()] returns. *)
Definition addAnchor (uuid : string) (t : AnchorType) (l : option string)
    (state : AnchorState) : AnchorState :=
  let info := ANCHOR_TYPE_INFO t in
  {| anchors :=
       anchors state ++
       [ {| id := uuid;
            type := t;
            label := labelOr l (getDefaultLabel t (anchors state));
            position := (0, 0, 0)%R;
            rotation := (0, 0, 0)%R;
            direction := info_direction info;
            connectionAxis := defaultAxis info;
            compatibleWith := defaultCompatible info |} ];
     selectedAnchorId := None |}.

(** [duplicateAnchor]; [uuid] is the value [uuidv4()] returns. *)
Definition duplicateAnchor (uuid : string) (i : string) (state : AnchorState)
  : AnchorState :=
  match List.find (hasId i) (anchors state) with
  | None => state
  | Some anchor =>
      let newAnchor :=
        {| id := uuid;
           type := type anchor;
           label := getDefaultLabel (type anchor) (anchors state);
           position := (at0 (position anchor) + 1,
                        at1 (position anchor),
                        at2 (position anchor))%R;
           rotation := rotation anchor;
           direction := direction anchor;
           connectionAxis := connectionAxis anchor;
           compatibleWith := compatibleWith anchor |} in
      {| anchors := anchors state ++ [newAnchor];
         selectedAnchorId := Some (id newAnchor) |}
  end.

(** [Partial<Pick<Anchor, 'position' | 'rotation' | 'direction' | 'label'
    | 'connectionAxis' | 'compatibleWith'>>] *)
Record AnchorUpdates : Type := mkUpdates {
  u_position : option Triple;
  u_rotation : option Triple;
  u_direction : option AnchorDirection;
  u_label : option string;
  u_connectionAxis : option ConnectionAxis;
  u_compatibleWith : option (list AnchorType)
}.

(** [{ ...anchor, ...updates }] *)
Definition spread (anchor : Anchor) (updates : AnchorUpdates) : Anchor :=
  {| id := id anchor;
     type := type anchor;
     label := default (label anchor) (u_label updates);
     position := default (position anchor) (u_position updates);
     rotation := default (rotation anchor) (u_rotation updates);
     direction := default (direction anchor) (u_direction updates);
     connectionAxis := default (connectionAxis anchor) (u_connectionAxis updates);
     compatibleWith := default (compatibleWith anchor) (u_compatibleWith updates) |}.

(** [updateAnchor] *)
Definition updateAnchor (i : string) (updates : AnchorUpdates)
    (state : AnchorState) : AnchorState :=
  {| anchors :=
       List.map (fun anchor => if hasId i anchor then spread anchor updates
                               else anchor)
                (anchors state);
     selectedAnchorId := selectedAnchorId state |}.

(** [selectAnchor] *)
Definition selectAnchor (i : option string) (state : AnchorState)
  : AnchorState :=
  {| anchors := anchors state; selectedAnchorId := i |}.

(** [removeAnchor] *)
Definition removeAnchor (i : string) (state : AnchorState) : AnchorState :=
  {| anchors := List.filter (fun a => negb (hasId i a)) (anchors state);
     selectedAnchorId :=
       match selectedAnchorId state with
       | Some s => if String.eqb s i then None else Some s
       | None => None
       end |}.

(** [setAnchors] *)
Definition setAnchors (l : list Anchor) (state : AnchorState) : AnchorState :=
  {| anchors := l; selectedAnchorId := None |}.

(** [clearAnchors] *)
Definition clearAnchors (state : AnchorState) : AnchorState :=
  {| anchors := []; selectedAnchorId := None |}.

(** The initial store. *)
Definition initialState : AnchorState :=
  {| anchors := []; selectedAnchorId := None |}.

End AnchorStore.

(* ===================================================================== *)
(** ** The persisted anchor representation *)
(* ===================================================================== *)

Module Wire.

(** [{ x: number; y: number; z: number }] *)
Record XYZ : Type := mkXYZ { x : R; y : R; z : R }.

End Wire.

(* ===================================================================== *)
(** ** ProductForm: anchors to and from the backend format *)
(* ===================================================================== *)

Module ProductForm.
Import AnchorStore.

(** [BackendAnchorPoint].  The form casts [name], [direction],
    [connection_axis] and [compatible_types] to the unions of the store
    without a run-time check, so the tags are taken in those unions; [None]
    stands for a missing (or otherwise falsy) value of a field the form
    guards with [||]. *)
Record BackendAnchorPoint : Type := mkBackendAnchorPoint {
  name : AnchorType;
  label : string;
  position : Wire.XYZ;
  rotation : Wire.XYZ;
  direction : option AnchorDirection;
  connection_axis : option ConnectionAxis;
  compatible_types : option (list AnchorType)
}.

(** The [anchor_points] entry of [productData] in [onSubmit]. *)
Definition toBackend (a : Anchor) : BackendAnchorPoint :=
  {| name := AnchorStore.type a;
     label := AnchorStore.label a;
     position := Wire.mkXYZ (at0 (AnchorStore.position a))
                            (at1 (AnchorStore.position a))
                            (at2 (AnchorStore.position a));
     rotation := Wire.mkXYZ (at0 (AnchorStore.rotation a))
                            (at1 (AnchorStore.rotation a))
                            (at2 (AnchorStore.rotation a));
     direction := Some (AnchorStore.direction a);
     connection_axis := Some (connectionAxis a);
     compatible_types := Some (compatibleWith a) |}.

Definition serializeAnchors (anchors : list Anchor) : list BackendAnchorPoint :=
  List.map toBackend anchors.

(** [`anchor-${index}-${Date.now()}`] *)
Definition anchorId (index : nat) (now : Z) : string :=
  String.append "anchor-"
    (String.append (Number_toString (Z.of_nat index))
       (String.append "-" (Number_toString now))).

(** One element of the initial [anchors] state; [now] is what [Date.now()]
    returns when the element is built. *)
Definition fromBackend (now : nat -> Z) (index : nat) (ap : BackendAnchorPoint)
  : Anchor :=
  {| id := anchorId index (now index);
     type := name ap;
     AnchorStore.label :=
       if String.eqb (label ap) ""
       then String.append "Anchor " (Number_toString (Z.of_nat (index + 1)))
       else label ap;
     AnchorStore.position :=
       (Wire.x (position ap), Wire.y (position ap), Wire.z (position ap));
     AnchorStore.rotation :=
       (Wire.x (rotation ap), Wire.y (rotation ap), Wire.z (rotation ap));
     AnchorStore.direction := default output (direction ap);
     connectionAxis := default Y_NEG (connection_axis ap);
     compatibleWith := default [] (compatible_types ap) |}.

(** The initialiser of the [anchors] state: [initialData?.anchor_points]
    mapped element by element, or the empty list. *)
Definition parseAnchors (now : nat -> Z)
    (anchor_points : option (list BackendAnchorPoint)) : list Anchor :=
  match anchor_points with
  | Some (ap :: aps) => imap (fromBackend now) (ap :: aps)
  | _ => []
  end.

End ProductForm.

(* ===================================================================== *)
(** ** BuilderView: the build steps and the selection *)
(* ===================================================================== *)

Module BuilderView.
Import AnchorStore.

(** [ApiAnchor] (BuilderCanvas): the anchor as the API returns it.  The
    canvas casts the tag fields with [as any]; they are taken in the store's
    unions. *)
Record ApiAnchor : Type := mkApiAnchor {
  name : AnchorType;
  label : string;
  position : Wire.XYZ;
  rotation : Wire.XYZ;
  direction : AnchorDirection;
  connection_axis : ConnectionAxis;
  compatible_types : list AnchorType
}.

(** The attributes of [technical_specs] that the selector reads; [None] is
    an absent key.  The validators make the four sizes positive numbers;
    they are modelled in whole millimetres, so a size with a fraction is
    outside the model. *)
Record TechnicalSpecs : Type := mkSpecs {
  socket : option string;
  form_factor : option string;
  ram_type : option string;
  type : option string;
  supported_motherboards : option (list string);
  max_gpu_length_mm : option Z;
  max_cpu_cooler_height_mm : option Z;
  length_mm : option Z;
  height_mm : option Z
}.

Definition noSpecs : TechnicalSpecs :=
  mkSpecs None None None None None None None None None.

(** [SelectedComponent] *)
Record SelectedComponent : Type := mkSelected {
  id : string;
  cname : string;
  category : string;
  price : R;
  model_url : option string;
  anchor_points : option (list ApiAnchor);
  technical_specs : option TechnicalSpecs;
  quantity : option nat
}.

(** [SelectedComponent & { stepId: string }] *)
Record StepComponent : Type := mkStepComponent {
  stepId : string;
  component : SelectedComponent
}.

(** [BuildState]: a key bound to [null] reads like an absent key. *)
Definition BuildState : Type := gmap string SelectedComponent.

(** An element of [BUILD_STEPS]. *)
Record BuildStep : Type := mkStep {
  step_id : string;
  step_label : string;
  step_category : string;
  required : bool
}.

Definition BUILD_STEPS : list BuildStep :=
  [ mkStep "case" "Case" "CASE" true;
    mkStep "motherboard" "Motherboard" "MOTHERBOARD" true;
    mkStep "cpu" "CPU" "CPU" true;
    mkStep "cpu_cooler" "CPU Cooler" "CPU_COOLER" true;
    mkStep "ram" "RAM" "RAM" true;
    mkStep "gpu" "GPU" "GPU" false;
    mkStep "storage" "Storage" "STORAGE" true;
    mkStep "psu" "PSU" "PSU" true ].

End BuilderView.

(* ===================================================================== *)
(** ** BuilderCanvas: the placement composer *)
(* ===================================================================== *)

Module BuilderCanvas.
Import AnchorStore BuilderView.
Local Open Scope R_scope.

(** Models are in cm, the scene shows 10 cm as one unit. *)
Definition SCALE_FACTOR : R := 0.1.

(** [convertApiAnchor] *)
Definition convertApiAnchor (apiAnchor : ApiAnchor) : Anchor :=
  {| AnchorStore.id := BuilderView.label apiAnchor;
     AnchorStore.type := name apiAnchor;
     AnchorStore.label := BuilderView.label apiAnchor;
     AnchorStore.position :=
       (Wire.x (BuilderView.position apiAnchor),
        Wire.y (BuilderView.position apiAnchor),
        Wire.z (BuilderView.position apiAnchor));
     AnchorStore.rotation :=
       (Wire.x (BuilderView.rotation apiAnchor),
        Wire.y (BuilderView.rotation apiAnchor),
        Wire.z (BuilderView.rotation apiAnchor));
     AnchorStore.direction := BuilderView.direction apiAnchor;
     connectionAxis := connection_axis apiAnchor;
     compatibleWith := compatible_types apiAnchor |}.

(** [convertApiAnchors(component.anchor_points || [])] *)
Definition convertApiAnchors (apiAnchors : option (list ApiAnchor))
  : list Anchor :=
  match apiAnchors with
  | Some l => List.map convertApiAnchor l
  | None => []
  end.

(** [ComponentTransform] *)
Record ComponentTransform : Type := mkTransform {
  position : THREE.Vector3;
  rotation : THREE.Euler
}.

(** [{ position: new THREE.Vector3(), rotation: new THREE.Euler() }] *)
Definition identityTransform : ComponentTransform :=
  mkTransform THREE.Vector3_zero THREE.Euler_zero.

(** [new THREE.Vector3(p[0] * SCALE_FACTOR, p[1] * SCALE_FACTOR,
    p[2] * SCALE_FACTOR)] *)
Definition scaled (p : Triple) : THREE.Vector3 :=
  THREE.mkVector3 (at0 p * SCALE_FACTOR) (at1 p * SCALE_FACTOR)
                  (at2 p * SCALE_FACTOR).

(** [new THREE.Euler(r[0], r[1], r[2])] *)
Definition eulerOf (r : Triple) : THREE.Euler :=
  THREE.mkEuler (at0 r) (at1 r) (at2 r).

(** [new THREE.Euler(e.x + r[0], e.y + r[1], e.z + r[2])] *)
Definition eulerPlus (e : THREE.Euler) (r : Triple) : THREE.Euler :=
  THREE.mkEuler (THREE.ex e + at0 r) (THREE.ey e + at1 r) (THREE.ez e + at2 r).

(** [anchors.find(a => a.type === t)] *)
Definition findType (t : AnchorType) (l : list Anchor) : option Anchor :=
  List.find (sameType t) l.

(** [selectedComponents.find(c => c.stepId === step)] *)
Definition findStep (step : string) (selectedComponents : list StepComponent)
  : option SelectedComponent :=
  component <$> List.find (fun c => String.eqb (stepId c) step)
                          selectedComponents.

(** [transforms[key] || { position: new THREE.Vector3(), rotation: new
    THREE.Euler() }] *)
Definition transformOr (transforms : gmap string ComponentTransform) (key : string)
  : ComponentTransform :=
  default identityTransform (transforms !! key).

(** Motherboard, from the case's [mobo_mount_area]. *)
Definition placeMotherboard (caseComponent moboComponent : option SelectedComponent)
    (transforms : gmap string ComponentTransform) : gmap string ComponentTransform :=
  match caseComponent, moboComponent with
  | Some caseC, Some moboC =>
      let caseAnchors := convertApiAnchors (anchor_points caseC) in
      let moboAnchors := convertApiAnchors (anchor_points moboC) in
      let mountArea := findType mobo_mount_area caseAnchors in
      let moboBackplate := findType mobo_backplate moboAnchors in
      match mountArea with
      | Some mountArea =>
          let mountPos := scaled (AnchorStore.position mountArea) in
          let mountPos :=
            match moboBackplate with
            | Some moboBackplate =>
                THREE.sub mountPos (scaled (AnchorStore.position moboBackplate))
            | None => mountPos
            end in
          let mountRotation :=
            THREE.mkEuler (at0 (AnchorStore.rotation mountArea) + PI / 2)
                          (at1 (AnchorStore.rotation mountArea))
                          (at2 (AnchorStore.rotation mountArea)) in
          <["motherboard" := mkTransform mountPos mountRotation]> transforms
      | None =>
          <["motherboard" :=
              mkTransform (THREE.mkVector3 0 1 0) (THREE.mkEuler 0 0 0)]>
            transforms
      end
  | _, _ => transforms
  end.

(** CPU, from the motherboard's [cpu_socket]. *)
Definition placeCpu (moboComponent cpuComponent : option SelectedComponent)
    (transforms : gmap string ComponentTransform) : gmap string ComponentTransform :=
  match moboComponent, cpuComponent with
  | Some moboC, Some cpuC =>
      let moboAnchors := convertApiAnchors (anchor_points moboC) in
      let cpuAnchors := convertApiAnchors (anchor_points cpuC) in
      let socket := findType cpu_socket moboAnchors in
      let cpuBottom := findType cpu_bottom cpuAnchors in
      match socket with
      | Some socket =>
          let moboTransform := transformOr transforms "motherboard" in
          let socketOffset :=
            THREE.applyEuler (scaled (AnchorStore.position socket))
                             (rotation moboTransform) in
          let cpuPos := THREE.add (position moboTransform) socketOffset in
          let cpuPos :=
            match cpuBottom with
            | Some cpuBottom =>
                let cpuOffset :=
                  THREE.applyEuler (scaled (AnchorStore.position cpuBottom))
                                   (rotation moboTransform) in
                THREE.sub cpuPos cpuOffset
            | None => cpuPos
            end in
          <["cpu" := mkTransform cpuPos (rotation moboTransform)]> transforms
      | None =>
          <["cpu" :=
              mkTransform (THREE.mkVector3 0 1.5 0) (THREE.mkEuler 0 0 0)]>
            transforms
      end
  | _, _ => transforms
  end.

(** CPU cooler, from the CPU's [cooler_plate]. *)
Definition placeCooler (cpuComponent coolerComponent : option SelectedComponent)
    (transforms : gmap string ComponentTransform) : gmap string ComponentTransform :=
  match cpuComponent, coolerComponent with
  | Some cpuC, Some coolerC =>
      let cpuAnchors := convertApiAnchors (anchor_points cpuC) in
      let coolerAnchors := convertApiAnchors (anchor_points coolerC) in
      let coolerPlate := findType cooler_plate cpuAnchors in
      let coolerBase := findType cooler_base coolerAnchors in
      match coolerPlate with
      | Some coolerPlate =>
          let cpuTransform := transformOr transforms "cpu" in
          let coolerRotation :=
            eulerPlus (rotation cpuTransform) (AnchorStore.rotation coolerPlate) in
          let plateOffset :=
            THREE.applyEuler (scaled (AnchorStore.position coolerPlate))
                             (rotation cpuTransform) in
          let coolerPos := THREE.add (position cpuTransform) plateOffset in
          let coolerPos :=
            match coolerBase with
            | Some coolerBase =>
                let baseOffset :=
                  THREE.applyEuler (scaled (AnchorStore.position coolerBase))
                                   coolerRotation in
                THREE.sub coolerPos baseOffset
            | None => coolerPos
            end in
          <["cpu_cooler" := mkTransform coolerPos coolerRotation]> transforms
      | None =>
          let cpuTransform := transformOr transforms "cpu" in
          <["cpu_cooler" :=
              mkTransform
                (THREE.mkVector3 (THREE.x (position cpuTransform))
                                 (THREE.y (position cpuTransform) + 0.5)
                                 (THREE.z (position cpuTransform)))
                (rotation cpuTransform)]>
            transforms
      end
  | _, _ => transforms
  end.

(** GPU, from the motherboard's [pcie_x16]. *)
Definition placeGpu (moboComponent gpuComponent : option SelectedComponent)
    (transforms : gmap string ComponentTransform) : gmap string ComponentTransform :=
  match moboComponent, gpuComponent with
  | Some moboC, Some gpuC =>
      let moboAnchors := convertApiAnchors (anchor_points moboC) in
      let gpuAnchors := convertApiAnchors (anchor_points gpuC) in
      let pcie := findType pcie_x16 moboAnchors in
      let pcieEdge := findType pcie_edge gpuAnchors in
      match pcie with
      | Some pcie =>
          let moboTransform := transformOr transforms "motherboard" in
          let pcieOffset :=
            THREE.applyEuler (scaled (AnchorStore.position pcie))
                             (rotation moboTransform) in
          let gpuPos := THREE.add (position moboTransform) pcieOffset in
          let gpuPos :=
            match pcieEdge with
            | Some pcieEdge =>
                let edgeOffset :=
                  THREE.applyEuler (scaled (AnchorStore.position pcieEdge))
                                   (rotation moboTransform) in
                THREE.sub gpuPos edgeOffset
            | None => gpuPos
            end in
          let gpuRotation :=
            eulerPlus (rotation moboTransform) (AnchorStore.rotation pcie) in
          <["gpu" := mkTransform gpuPos gpuRotation]> transforms
      | None =>
          <["gpu" :=
              mkTransform (THREE.mkVector3 0 0 2) (THREE.mkEuler 0 0 0)]>
            transforms
      end
  | _, _ => transforms
  end.

(** PSU, from the case's [psu_bay]. *)
Definition placePsu (caseComponent psuComponent : option SelectedComponent)
    (transforms : gmap string ComponentTransform) : gmap string ComponentTransform :=
  match caseComponent, psuComponent with
  | Some caseC, Some psuC =>
      let caseAnchors := convertApiAnchors (anchor_points caseC) in
      let psuAnchors := convertApiAnchors (anchor_points psuC) in
      let psuBay := findType psu_bay caseAnchors in
      let psuMount := findType psu_mount psuAnchors in
      match psuBay with
      | Some psuBay =>
          let psuPos := scaled (AnchorStore.position psuBay) in
          let psuPos :=
            match psuMount with
            | Some psuMount =>
                THREE.sub psuPos (scaled (AnchorStore.position psuMount))
            | None => psuPos
            end in
          let psuRotation := eulerOf (AnchorStore.rotation psuBay) in
          <["psu" := mkTransform psuPos psuRotation]> transforms
      | None =>
          <["psu" :=
              mkTransform (THREE.mkVector3 0 (-2) 0) (THREE.mkEuler 0 0 0)]>
            transforms
      end
  | _, _ => transforms
  end.

(** Storage, from the motherboard's [m2_slot] or a drive bay of the case. *)
Definition placeStorage
    (caseComponent moboComponent storageComponent : option SelectedComponent)
    (transforms : gmap string ComponentTransform) : gmap string ComponentTransform :=
  match storageComponent with
  | Some storageC =>
      let moboAnchors :=
        match moboComponent with
        | Some moboC => convertApiAnchors (anchor_points moboC)
        | None => []
        end in
      let caseAnchors :=
        match caseComponent with
        | Some caseC => convertApiAnchors (anchor_points caseC)
        | None => []
        end in
      let storageAnchors := convertApiAnchors (anchor_points storageC) in
      let m2Slot := findType m2_slot moboAnchors in
      let m2Edge := findType m2_edge storageAnchors in
      match m2Slot, moboComponent with
      | Some m2Slot, Some _ =>
          let moboTransform := transformOr transforms "motherboard" in
          let slotOffset :=
            THREE.applyEuler (scaled (AnchorStore.position m2Slot))
                             (rotation moboTransform) in
          let storagePos := THREE.add (position moboTransform) slotOffset in
          let storagePos :=
            match m2Edge with
            | Some m2Edge =>
                let edgeOffset :=
                  THREE.applyEuler (scaled (AnchorStore.position m2Edge))
                                   (rotation moboTransform) in
                THREE.sub storagePos edgeOffset
            | None => storagePos
            end in
          <["storage" := mkTransform storagePos (rotation moboTransform)]>
            transforms
      | _, _ =>
          let driveBay :=
            List.find (fun a => sameType drive_bay_25 a || sameType drive_bay_35 a)
                      caseAnchors in
          match driveBay with
          | Some driveBay =>
              <["storage" :=
                  mkTransform (scaled (AnchorStore.position driveBay))
                              (eulerOf (AnchorStore.rotation driveBay))]>
                transforms
          | None =>
              <["storage" :=
                  mkTransform (THREE.mkVector3 (-2) 0 0) (THREE.mkEuler 0 0 0)]>
                transforms
          end
      end
  | None => transforms
  end.

(** [componentTransforms]: the body of the [useMemo] in [Scene]. *)
Definition componentTransforms (selectedComponents : list StepComponent)
  : gmap string ComponentTransform :=
  let caseComponent := findStep "case" selectedComponents in
  let transforms : gmap string ComponentTransform :=
    <["case" := mkTransform (THREE.mkVector3 0 0 0) (THREE.mkEuler 0 0 0)]> ∅ in
  let moboComponent := findStep "motherboard" selectedComponents in
  let transforms := placeMotherboard caseComponent moboComponent transforms in
  let cpuComponent := findStep "cpu" selectedComponents in
  let transforms := placeCpu moboComponent cpuComponent transforms in
  let coolerComponent := findStep "cpu_cooler" selectedComponents in
  let transforms := placeCooler cpuComponent coolerComponent transforms in
  let gpuComponent := findStep "gpu" selectedComponents in
  let transforms := placeGpu moboComponent gpuComponent transforms in
  let psuComponent := findStep "psu" selectedComponents in
  let transforms := placePsu caseComponent psuComponent transforms in
  let storageComponent := findStep "storage" selectedComponents in
  placeStorage caseComponent moboComponent storageComponent transforms.

Section RamTransforms.

(** [String.prototype.localeCompare] of the host: negative, zero or
    positive. *)
Variable localeCompare : string -> string -> Z.

(** [Array.prototype.sort((a, b) => a.label.localeCompare(b.label))]: the
    sort is stable, so it is the insertion of each element, from the last
    to the first, before the first element it does not follow. *)
Fixpoint insertByLabel (a : Anchor) (l : list Anchor) : list Anchor :=
  match l with
  | [] => [a]
  | b :: l' =>
      if (localeCompare (AnchorStore.label a) (AnchorStore.label b) <=? 0)%Z
      then a :: b :: l'
      else b :: insertByLabel a l'
  end.

Definition sortByLabel (l : list Anchor) : list Anchor :=
  List.fold_right insertByLabel [] l.

(** The transform pushed for one RAM slot. *)
Definition slotTransform (moboTransform : ComponentTransform) (slot : Anchor)
  : ComponentTransform :=
  let slotOffset :=
    THREE.applyEuler (scaled (AnchorStore.position slot))
                     (rotation moboTransform) in
  mkTransform (THREE.add (position moboTransform) slotOffset)
              (rotation moboTransform).

(** The transform pushed by the fallback loop when [ramTransforms] already
    has [n] elements. *)
Definition fallbackTransform (moboTransform : ComponentTransform) (n : nat)
  : ComponentTransform :=
  let fallbackOffset :=
    THREE.applyEuler (THREE.mkVector3 (1.5 + INR n * 0.3) 0.1 0)
                     (rotation moboTransform) in
  mkTransform (THREE.add (position moboTransform) fallbackOffset)
              (rotation moboTransform).

(** [while (ramTransforms.length < quantity) ramTransforms.push(...)]; the
    loop runs [quantity - ramTransforms.length] times. *)
Fixpoint fallbackLoop (iterations : nat) (moboTransform : ComponentTransform)
    (ramTransforms : list ComponentTransform) : list ComponentTransform :=
  match iterations with
  | O => ramTransforms
  | S iterations' =>
      fallbackLoop iterations' moboTransform
        (ramTransforms
           ++ [fallbackTransform moboTransform (length ramTransforms)])
  end.

(** [getRamTransforms] *)
Definition getRamTransforms
    (componentTransforms : gmap string ComponentTransform)
    (moboComponent : option SelectedComponent) (quantity : nat)
  : list ComponentTransform :=
  let moboTransform := transformOr componentTransforms "motherboard" in
  let ramTransforms :=
    match moboComponent with
    | Some moboC =>
        match anchor_points moboC with
        | Some points =>
            let ramSlots :=
              sortByLabel
                (List.filter (sameType ram_slot)
                             (convertApiAnchors (Some points))) in
            List.map (slotTransform moboTransform)
                     (firstn (Nat.min quantity (length ramSlots)) ramSlots)
        | None => []
        end
    | None => []
    end in
  fallbackLoop (quantity - length ramTransforms) moboTransform ramTransforms.

(** [renderRamModules]: the transforms of the RAM sticks that are drawn. *)
Definition renderRamModules (selectedComponents : list StepComponent)
    (ram : SelectedComponent) : list ComponentTransform :=
  let quantity :=
    match quantity ram with
    | Some (S n) => S n
    | _ => 1%nat
    end in
  let moboComponent := findStep "motherboard" selectedComponents in
  getRamTransforms (componentTransforms selectedComponents)
                   moboComponent quantity.

End RamTransforms.

End BuilderCanvas.

(* ===================================================================== *)
(** ** ComponentSelector: the attribute gate (stage B) *)
(* ===================================================================== *)

Module ComponentSelector.
Import BuilderView.

(** [Product] *)
Record Product : Type := mkProduct {
  id : string;
  name : string;
  category : string;
  price : R;
  sku : string;
  model_url : option string;
  anchor_points : option (list ApiAnchor);
  technical_specs : option TechnicalSpecs
}.

(** [{ compatible: boolean; reason?: string }] *)
Record Verdict : Type := mkVerdict {
  compatible : bool;
  reason : option string
}.

(** [specs?.attr] *)
Definition attr {A : Type} (f : TechnicalSpecs -> option A)
    (specs : option TechnicalSpecs) : option A :=
  specs ≫= f.

(** Truthiness of an optional string, number or array. *)
Definition truthyStr (v : option string) : bool :=
  match v with Some s => negb (String.eqb s "") | None => false end.

Definition truthyNum (v : option Z) : bool :=
  match v with Some n => negb (n =? 0)%Z | None => false end.

Definition truthyArr {A : Type} (v : option (list A)) : bool :=
  match v with Some _ => true | None => false end.

(** Motherboard against case: the form factor. *)
Definition checkFormFactor (currentStep : BuildStep) (buildState : BuildState)
    (product : Product) : option Verdict :=
  match buildState !! "case" with
  | Some caseC =>
      if String.eqb (step_category currentStep) "MOTHERBOARD" then
        let caseSpecs := BuilderView.technical_specs caseC in
        let moboFormFactor := attr form_factor (technical_specs product) in
        match attr supported_motherboards caseSpecs, moboFormFactor with
        | Some supported, Some ff =>
            if truthyStr (Some ff)
               && negb (existsb (String.eqb ff) supported)
            then Some (mkVerdict false
                         (Some (String.append "Case doesn't support " ff)))
            else None
        | _, _ => None
        end
      else None
  | None => None
  end.

(** CPU against motherboard: the socket. *)
Definition checkSocket (currentStep : BuildStep) (buildState : BuildState)
    (product : Product) : option Verdict :=
  match buildState !! "motherboard" with
  | Some moboC =>
      if String.eqb (step_category currentStep) "CPU" then
        let moboSocket := attr socket (BuilderView.technical_specs moboC) in
        let cpuSocket := attr socket (technical_specs product) in
        match moboSocket, cpuSocket with
        | Some ms, Some cs =>
            if truthyStr (Some ms) && truthyStr (Some cs)
               && negb (String.eqb ms cs)
            then Some (mkVerdict false
                         (Some (String.append "Socket mismatch (needs "
                                  (String.append ms ")"))))
            else None
        | _, _ => None
        end
      else None
  | None => None
  end.

(** RAM against motherboard: the memory type. *)
Definition checkRamType (currentStep : BuildStep) (buildState : BuildState)
    (product : Product) : option Verdict :=
  match buildState !! "motherboard" with
  | Some moboC =>
      if String.eqb (step_category currentStep) "RAM" then
        let moboRamType := attr ram_type (BuilderView.technical_specs moboC) in
        let ramType := attr type (technical_specs product) in
        match moboRamType, ramType with
        | Some mt, Some rt =>
            if truthyStr (Some mt) && truthyStr (Some rt)
               && negb (String.eqb mt rt)
            then Some (mkVerdict false
                         (Some (String.append "RAM type mismatch (needs "
                                  (String.append mt ")"))))
            else None
        | _, _ => None
        end
      else None
  | None => None
  end.

(** GPU against case: the length. *)
Definition checkGpuLength (currentStep : BuildStep) (buildState : BuildState)
    (product : Product) : option Verdict :=
  match buildState !! "case" with
  | Some caseC =>
      if String.eqb (step_category currentStep) "GPU" then
        let maxGpuLength :=
          attr max_gpu_length_mm (BuilderView.technical_specs caseC) in
        let gpuLength := attr length_mm (technical_specs product) in
        match maxGpuLength, gpuLength with
        | Some mx, Some len =>
            if truthyNum (Some mx) && truthyNum (Some len) && (len >? mx)%Z
            then Some (mkVerdict false
                         (Some (String.append "GPU too long (max "
                                  (String.append (Number_toString mx) "mm)"))))
            else None
        | _, _ => None
        end
      else None
  | None => None
  end.

(** CPU cooler against case: the height. *)
Definition checkCoolerHeight (currentStep : BuildStep) (buildState : BuildState)
    (product : Product) : option Verdict :=
  match buildState !! "case" with
  | Some caseC =>
      if String.eqb (step_category currentStep) "CPU_COOLER" then
        let maxCoolerHeight :=
          attr max_cpu_cooler_height_mm (BuilderView.technical_specs caseC) in
        let coolerHeight := attr height_mm (technical_specs product) in
        match maxCoolerHeight, coolerHeight with
        | Some mx, Some h =>
            if truthyNum (Some mx) && truthyNum (Some h) && (h >? mx)%Z
            then Some (mkVerdict false
                         (Some (String.append "Cooler too tall (max "
                                  (String.append (Number_toString mx) "mm)"))))
            else None
        | _, _ => None
        end
      else None
  | None => None
  end.

(** The early returns in sequence: the first check that returns decides. *)
Definition orElse (a : option Verdict) (b : Verdict) : Verdict :=
  match a with Some v => v | None => b end.

(** [checkCompatibility] *)
Definition checkCompatibility (currentStep : BuildStep)
    (buildState : BuildState) (product : Product) : Verdict :=
  orElse (checkFormFactor currentStep buildState product)
    (orElse (checkSocket currentStep buildState product)
       (orElse (checkRamType currentStep buildState product)
          (orElse (checkGpuLength currentStep buildState product)
             (orElse (checkCoolerHeight currentStep buildState product)
                (mkVerdict true None))))).

End ComponentSelector.

(* ===================================================================== *)
(** ** handlers (Go): the anchor-type gate (stage A) *)
(* ===================================================================== *)

Module Handlers.

(** A value of [interface{}] as [encoding/json] decodes it. *)
#[local] Unset Elimination Schemes.
Inductive GoValue : Type :=
  | GoNil
  | GoBool (b : bool)
  | GoFloat64 (n : Z)
  | GoString (s : string)
  | GoSlice (l : list GoValue)
  | GoMap (m : list (string * GoValue)).
#[local] Set Elimination Schemes.

(** [models.Vector3] *)
Record Vector3 : Type := mkVector3 { X : R; Y : R; Z_ : R }.

(** [models.AnchorPoint] *)
Record AnchorPoint : Type := mkAnchorPoint {
  Name : string;
  Label : string;
  Position : Vector3;
  Rotation : Vector3;
  Direction : string;
  ConnectionAxis : string;
  CompatibleTypes : list string
}.

(** [models.Product], without the time stamps. *)
Record Product : Type := mkProduct {
  ID : N;
  ProductName : string;
  SKU : string;
  Category : string;
  Price : R;
  ModelURL : string;
  ThumbnailURL : string;
  TechnicalSpecs : gmap string GoValue;
  AnchorPoints : list AnchorPoint
}.

(** The two nested [for] loops with the [goto]: is some compatible type of
    some anchor of the parent the socket string or the category? *)
Definition anyCompatible (parent : Product) (socketStr category : string)
  : bool :=
  existsb (fun anchor =>
             existsb (fun compatType =>
                        String.eqb compatType socketStr
                        || String.eqb compatType category)
                     (CompatibleTypes anchor))
          (AnchorPoints parent).

(** Whether the loop body appends [candidate] to [result]. *)
Definition keeps (parent candidate : Product) : bool :=
  match TechnicalSpecs candidate !! "socket" with
  | None => true
  | Some candidateSocket =>
      match candidateSocket with
      | GoString socketStr =>
          anyCompatible parent socketStr (Category candidate)
      | _ => true
      end
  end.

(** [FilterBySocketCompatibility] *)
Fixpoint FilterBySocketCompatibility (parent : Product)
    (candidates : list Product) : list Product :=
  match candidates with
  | [] => []
  | candidate :: rest =>
      if keeps parent candidate
      then candidate :: FilterBySocketCompatibility parent rest
      else FilterBySocketCompatibility parent rest
  end.

End Handlers.

(* ===================================================================== *)
(** ** model-proxy: the URL the canvas loads a model from *)
(* ===================================================================== *)

Module ModelProxy.

Section Proxy.

(** [encodeURIComponent] of the host. *)
Variable encodeURIComponent : string -> string.

(** [getProxiedModelUrl]; [None] is [undefined] or [null]. *)
Definition getProxiedModelUrl (url : option string) : string :=
  match url with
  | None => ""
  | Some url =>
      if String.eqb url "" then ""
      else if String.prefix "/api/" url
              || String.prefix "http://localhost" url
              || String.prefix "http://127.0.0.1" url
      then url
      else if includes url "blob.core.windows.net"
      then String.append "/api/proxy-model?url=" (encodeURIComponent url)
      else url
  end.

End Proxy.

End ModelProxy.

(* ===================================================================== *)
(** ** BuilderCanvas: the panel of removable case parts *)
(* ===================================================================== *)

Module CasePanels.

(** [RemovablePart] *)
Record RemovablePart : Type := mkRemovablePart {
  name : string;
  displayName : string;
  visible : bool
}.

(** The visibility map is a plain object, [Record<string, boolean>] made
    by an object literal: beside its own keys it inherits the properties of
    [Object.prototype]. *)
Definition Object_prototype_names : list string :=
  ["constructor"; "__defineGetter__"; "__defineSetter__"; "hasOwnProperty";
   "__lookupGetter__"; "__lookupSetter__"; "isPrototypeOf";
   "propertyIsEnumerable"; "toString"; "valueOf"; "__proto__";
   "toLocaleString"].

(** [obj[key]] read as a condition: the value of an own key; without an own
    key an inherited property (a function, or the prototype itself for
    [__proto__]) is truthy, and [undefined] is falsy. *)
Definition truthyAt (key : string) (obj : gmap string bool) : bool :=
  match obj !! key with
  | Some b => b
  | None => bool_decide (key ∈ Object_prototype_names)
  end.

(** [obj[key] = v] for a boolean [v]: the assignment writes an own key,
    except that without an own key [__proto__] it runs the inherited setter
    of that name, which ignores a boolean and defines nothing. *)
Definition assign (key : string) (v : bool) (obj : gmap string bool)
  : gmap string bool :=
  match obj !! key with
  | Some _ => <[key := v]> obj
  | None => if String.eqb key "__proto__" then obj else <[key := v]> obj
  end.

(** [handleRemovablePartsFound]: the visibility map it installs,
    [parts.forEach(part => { visibility[part.name] = true })]. *)
Definition handleRemovablePartsFound (parts : list RemovablePart)
  : gmap string bool :=
  List.fold_left (fun visibility part => assign (name part) true visibility)
                 parts ∅.

(** [togglePart]: [{ ...prev, [partName]: !prev[partName] }]; the spread
    copies the own keys and the computed key defines an own key, whatever
    its name. *)
Definition togglePart (partName : string) (prev : gmap string bool)
  : gmap string bool :=
  <[partName := negb (truthyAt partName prev)]> prev.

(** [Object.keys(prev).forEach(key => { updated[key] = v })] *)
Definition setAll (v : bool) (prev : gmap string bool) : gmap string bool :=
  List.fold_left (fun updated key => assign key v updated)
                 (map_to_list prev).*1 ∅.

(** [showAll], [hideAll] *)
Definition showAll (prev : gmap string bool) : gmap string bool :=
  setAll true prev.

Definition hideAll (prev : gmap string bool) : gmap string bool :=
  setAll false prev.

End CasePanels.

(* ===================================================================== *)
(** ** BuilderView: the state of a build session *)
(* ===================================================================== *)

Module BuilderSession.
Import BuilderView.

(** [handleNext] on [currentStepIndex] *)
Definition handleNext (currentStepIndex : nat) : nat :=
  if (currentStepIndex <? length BUILD_STEPS - 1)%nat
  then (currentStepIndex + 1)%nat
  else currentStepIndex.

(** [handlePrevious] on [currentStepIndex] *)
Definition handlePrevious (currentStepIndex : nat) : nat :=
  if (0 <? currentStepIndex)%nat
  then (currentStepIndex - 1)%nat
  else currentStepIndex.

(** The events that set [currentStepIndex]: the two buttons, a click on the
    step at an index of [BUILD_STEPS.map], and loading or starting a build
    (both set 0). *)
Inductive StepEvent : Type :=
  | Next
  | Previous
  | GoTo (index : nat)
  | Restart.

Definition stepTo (currentStepIndex : nat) (e : StepEvent) : nat :=
  match e with
  | Next => handleNext currentStepIndex
  | Previous => handlePrevious currentStepIndex
  | GoTo index => index
  | Restart => 0%nat
  end.








End BuilderSession.

(* ===================================================================== *)
(** * Properties *)
(* ===================================================================== *)

(** ** Rotations *)

Module THREE_facts.
Import THREE.
Local Open Scope R_scope.

Lemma Vector3_eq (a b : Vector3) :
  x a = x b -> y a = y b -> z a = z b -> a = b.
Proof. destruct a, b; simpl; intros; subst; reflexivity. Qed.

Lemma Euler_eq (a b : Euler) :
  ex a = ex b -> ey a = ey b -> ez a = ez b -> a = b.
Proof. destruct a, b; simpl; intros; subst; reflexivity. Qed.

(** The identity rotation leaves every vector in place. *)
Lemma applyEuler_zero (v : Vector3) : applyEuler v Euler_zero = v.
Proof.
  unfold applyEuler, setFromEuler, applyQuaternion, Euler_zero; simpl.
  replace (0 / 2) with 0 by lra. rewrite cos_0, sin_0.
  destruct v; apply Vector3_eq; simpl; ring.
Qed.

(** A rotation about the X axis alone fixes the points of the X axis. *)
Lemma applyEuler_x_axis (a vx : R) :
  applyEuler (mkVector3 vx 0 0) (mkEuler a 0 0) = mkVector3 vx 0 0.
Proof.
  unfold applyEuler, setFromEuler, applyQuaternion; simpl.
  replace (0 / 2) with 0 by lra. rewrite cos_0, sin_0.
  apply Vector3_eq; simpl; ring.
Qed.

(** A rotation about the X axis alone fixes every point of the X axis. *)
Lemma applyEuler_about_x (v : Vector3) (e : Euler) :
  y v = 0 -> z v = 0 -> ey e = 0 -> ez e = 0 -> applyEuler v e = v.
Proof.
  destruct v as [vx vy vz], e as [a b c]; simpl. intros -> -> -> ->.
  apply applyEuler_x_axis.
Qed.

(** The origin is fixed by every rotation. *)
Lemma applyEuler_origin (e : Euler) :
  applyEuler (mkVector3 0 0 0) e = mkVector3 0 0 0.
Proof.
  unfold applyEuler, applyQuaternion; simpl. apply Vector3_eq; simpl; ring.
Qed.

End THREE_facts.

(** ** The anchor store *)

Module AnchorStoreFacts.
Import AnchorStore.

Lemma find_hasId_Some (l : list Anchor) (i : string) :
  In i (List.map id l) ->
  exists a, List.find (hasId i) l = Some a /\ In a l /\ id a = i.
Proof.
  induction l as [|b l IH]; simpl; [tauto|].
  unfold hasId at 1. destruct (String.eqb_spec (id b) i) as [E|E].
  - intros _. exists b. auto.
  - intros [H|H]; [contradiction|].
    destruct (IH H) as (a & Hf & Hin & Hid). exists a. auto.
Qed.

Lemma find_hasId_None (l : list Anchor) (i : string) :
  ~ In i (List.map id l) -> List.find (hasId i) l = None.
Proof.
  induction l as [|b l IH]; simpl; [reflexivity|].
  intros H. unfold hasId at 1. destruct (String.eqb_spec (id b) i) as [E|E].
  - exfalso. apply H. auto.
  - apply IH. intros Hin. apply H. auto.
Qed.

Lemma hasId_false_absent (l : list Anchor) (i : string) :
  ~ In i (List.map id l) -> Forall (fun a => hasId i a = false) l.
Proof.
  induction l as [|b l IH]; simpl; intros H; constructor.
  - unfold hasId. destruct (String.eqb_spec (id b) i); [|reflexivity].
    exfalso. apply H. auto.
  - apply IH. intros Hin. apply H. auto.
Qed.

Lemma map_update_absent (l : list Anchor) (i : string) (u : AnchorUpdates) :
  ~ In i (List.map id l) ->
  List.map (fun anchor => if hasId i anchor then spread anchor u else anchor) l
  = l.
Proof.
  intros H. apply hasId_false_absent in H.
  induction H as [|b l Hb _ IH]; simpl; [reflexivity|].
  rewrite Hb, IH. reflexivity.
Qed.

Lemma filter_remove_absent (l : list Anchor) (i : string) :
  ~ In i (List.map id l) ->
  List.filter (fun a => negb (hasId i a)) l = l.
Proof.
  intros H. apply hasId_false_absent in H.
  induction H as [|b l Hb _ IH]; simpl; [reflexivity|].
  rewrite Hb, IH. reflexivity.
Qed.

Lemma filter_sublist {A : Type} (f : A -> bool) (l : list A) :
  sublist (List.filter f l) l.
Proof.
  induction l as [|a l IH]; simpl; [constructor|].
  destruct (f a); [apply sublist_skip | apply sublist_cons]; exact IH.
Qed.

Lemma map_update_ids (l : list Anchor) (i : string) (u : AnchorUpdates) :
  List.map id
    (List.map (fun anchor => if hasId i anchor then spread anchor u else anchor)
              l)
  = List.map id l.
Proof.
  induction l as [|b l IH]; simpl; [reflexivity|].
  rewrite IH. destruct (hasId i b); reflexivity.
Qed.

(** The P3 fixture: one [ram_slot] anchor labelled "RAM Slot 1" at (1,0,0). *)
Definition p3_anchor : Anchor :=
  {| id := "a-1"; type := ram_slot; label := "RAM Slot 1";
     position := (1, 0, 0)%R; rotation := (0, 0, 0)%R;
     direction := output; connectionAxis := Y_NEG;
     compatibleWith := [ram_edge] |}.

Definition p3_state : AnchorState :=
  {| anchors := [p3_anchor]; selectedAnchorId := None |}.





(** The literal values of P3. *)
Example duplicateAnchor_p3 :
  exists clone,
    anchors (duplicateAnchor "a-2" "a-1" p3_state) = [p3_anchor; clone]
    /\ id clone = "a-2" /\ label clone = "RAM Slot 2"
    /\ position clone = (2, 0, 0)%R.
Proof.
  eexists. unfold duplicateAnchor. simpl. repeat split.
Qed.

(** A store whose selection dangles: it names an id no anchor has. *)
Definition dangling_state : AnchorState :=
  {| anchors := []; selectedAnchorId := Some "gone" |}.

(** C9, as stated, fails: [removeAnchor] of an id that no anchor has still
    resets a selection equal to that id. *)
Lemma removeAnchor_absent_changes_selection :
  ~ (forall (state : AnchorState) (i : string),
       ~ In i (List.map id (anchors state)) -> removeAnchor i state = state).
Proof.
  intros H. specialize (H dangling_state "gone").
  assert (Habs : ~ In "gone" (List.map id (anchors dangling_state)))
    by (simpl; tauto).
  apply H in Habs. discriminate Habs.
Qed.

(** C9 (amended). For an id that no anchor of the store has, [updateAnchor]
    and [duplicateAnchor] return the store unchanged; [removeAnchor] leaves
    the anchor list unchanged and leaves the selection unchanged unless the
    selection is that very id, in which case the selection becomes none. *)
Theorem absent_id_noop (state : AnchorState) (i : string) :
  ~ In i (List.map id (anchors state)) ->
  (forall updates, updateAnchor i updates state = state)
  /\ (forall uuid, duplicateAnchor uuid i state = state)
  /\ anchors (removeAnchor i state) = anchors state
  /\ (selectedAnchorId state <> Some i -> removeAnchor i state = state)
  /\ (selectedAnchorId state = Some i ->
      selectedAnchorId (removeAnchor i state) = None).
Proof.
  intros Habs. destruct state as [l sel]. simpl in Habs.
  repeat split.
  - intros u. unfold updateAnchor. simpl.
    rewrite map_update_absent by exact Habs. reflexivity.
  - intros uuid. unfold duplicateAnchor. simpl.
    rewrite find_hasId_None by exact Habs. reflexivity.
  - simpl. apply filter_remove_absent. exact Habs.
  - simpl. intros Hsel. unfold removeAnchor. simpl.
    rewrite filter_remove_absent by exact Habs.
    destruct sel as [s|]; [|reflexivity].
    destruct (String.eqb_spec s i) as [E|E]; [|reflexivity].
    subst s. contradiction.
  - simpl. intros ->. rewrite String.eqb_refl. reflexivity.
Qed.

Lemma absent_id_noop_witness :
  (forall updates, updateAnchor "zz" updates p3_state = p3_state)
  /\ (forall uuid, duplicateAnchor uuid "zz" p3_state = p3_state)
  /\ anchors (removeAnchor "zz" p3_state) = anchors p3_state
  /\ (selectedAnchorId p3_state <> Some "zz" ->
      removeAnchor "zz" p3_state = p3_state)
  /\ (selectedAnchorId p3_state = Some "zz" ->
      selectedAnchorId (removeAnchor "zz" p3_state) = None).
Proof.
  apply (absent_id_noop p3_state "zz").
  simpl. intros [H|[]]. discriminate H.
Defined.

(** C10. The store operations keep the authored order: [addAnchor]
    appends the new anchor at the end; [duplicateAnchor] of an id that an
    anchor has appends the clone of the first such anchor at the end, and
    of an unknown id leaves the list as it is; [updateAnchor] keeps the ids position by
    position and changes an element only where the id matches;
    [removeAnchor] leaves a subsequence of the old list holding exactly the
    anchors with another id; [selectAnchor] leaves the list as it is;
    [clearAnchors] leaves no anchor and [setAnchors] installs the list it
    is given, in the order given. *)
Theorem operations_keep_order (state : AnchorState) :
  (forall uuid t l,
     exists a,
       anchors (addAnchor uuid t l state) = anchors state ++ [a]
       /\ id a = uuid /\ type a = t)
  /\ (forall uuid i,
        (In i (List.map id (anchors state)) ->
         exists a clone,
           List.find (hasId i) (anchors state) = Some a
           /\ anchors (duplicateAnchor uuid i state) = anchors state ++ [clone]
           /\ id clone = uuid /\ type clone = type a)
        /\ (~ In i (List.map id (anchors state)) ->
            anchors (duplicateAnchor uuid i state) = anchors state))
  /\ (forall i updates,
        List.map id (anchors (updateAnchor i updates state))
        = List.map id (anchors state)
        /\ forall k a,
             anchors state !! k = Some a ->
             anchors (updateAnchor i updates state) !! k
             = Some (if hasId i a then spread a updates else a))
  /\ (forall i,
        sublist (anchors (removeAnchor i state)) (anchors state)
        /\ forall a,
             In a (anchors (removeAnchor i state))
             <-> In a (anchors state) /\ id a <> i)
  /\ (forall i, anchors (selectAnchor i state) = anchors state)
  /\ anchors (clearAnchors state) = []
  /\ (forall l, anchors (setAnchors l state) = l).
Proof.
  split; [|split; [|split; [|split; [|split; [|split]]]]].
  - intros uuid t l. eexists. split; [reflexivity|]. split; reflexivity.
  - intros uuid i. split.
    + intros Hin. destruct (find_hasId_Some _ _ Hin) as (a & Hfind & _ & _).
      exists a. eexists. unfold duplicateAnchor. rewrite Hfind.
      split; [reflexivity|]. split; [reflexivity|]. split; reflexivity.
    + intros Hout. unfold duplicateAnchor.
      rewrite find_hasId_None by exact Hout. reflexivity.
  - intros i updates. split; [apply map_update_ids|].
    intros k a Hk. unfold updateAnchor. simpl.
    rewrite list_lookup_fmap, Hk. reflexivity.
  - intros i. split; [apply filter_sublist|].
    intros a. simpl. rewrite filter_In. unfold hasId.
    destruct (String.eqb_spec (id a) i) as [E|E]; simpl.
    + split; [intros [_ H]; discriminate H | intros [_ H]; contradiction].
    + tauto.
  - intros i. reflexivity.
  - reflexivity.
  - intros l. reflexivity.
Qed.

End AnchorStoreFacts.

(** ** The anchor round trip of the product form *)

Module ProductFormFacts.
Import AnchorStore ProductForm.

(** Equality on the persisted fields, [compatible_types] compared as a
    set. *)
Definition persistedEq (a b : Anchor) : Prop :=
  type a = type b
  /\ AnchorStore.label a = AnchorStore.label b
  /\ AnchorStore.position a = AnchorStore.position b
  /\ AnchorStore.rotation a = AnchorStore.rotation b
  /\ AnchorStore.direction a = AnchorStore.direction b
  /\ connectionAxis a = connectionAxis b
  /\ (forall t, In t (compatibleWith a) <-> In t (compatibleWith b)).

(** The anchor [a] under another id. *)
Definition withId (i : string) (a : Anchor) : Anchor :=
  {| id := i;
     type := type a;
     AnchorStore.label := AnchorStore.label a;
     AnchorStore.position := AnchorStore.position a;
     AnchorStore.rotation := AnchorStore.rotation a;
     AnchorStore.direction := AnchorStore.direction a;
     connectionAxis := connectionAxis a;
     compatibleWith := compatibleWith a |}.

(** An anchor whose label the editor's text field has emptied. *)
Definition unlabelled : Anchor :=
  {| id := "a-1"; type := cpu_socket; AnchorStore.label := "";
     AnchorStore.position := (0, 0, 0)%R; AnchorStore.rotation := (0, 0, 0)%R;
     AnchorStore.direction := output; connectionAxis := Y_NEG;
     compatibleWith := [cpu_bottom] |}.

Lemma triple_eta (p : Triple) : (at0 p, at1 p, at2 p) = p.
Proof. destruct p as [[a b] c]. reflexivity. Qed.

Lemma fromBackend_toBackend (now : nat -> Z) (index : nat) (a : Anchor) :
  AnchorStore.label a <> "" ->
  fromBackend now index (toBackend a) = withId (anchorId index (now index)) a.
Proof.
  intros Hl. unfold fromBackend, toBackend, withId. simpl.
  rewrite !triple_eta.
  destruct (String.eqb_spec (AnchorStore.label a) ""); [contradiction|].
  reflexivity.
Qed.

Lemma persistedEq_withId (i : string) (a : Anchor) : persistedEq a (withId i a).
Proof. unfold persistedEq, withId; simpl. repeat split; auto. Qed.

Lemma persistedEq_imap (f : nat -> string) (l : list Anchor) :
  Forall2 persistedEq l (imap (fun i a => withId (f i) a) l).
Proof.
  revert f. induction l as [|a l IH]; intros f; simpl; constructor.
  - apply persistedEq_withId.
  - apply (IH (fun i => f (S i))).
Qed.

(** C8, as stated, fails: an anchor with the empty label comes back
    labelled "Anchor 1". *)
Lemma roundtrip_loses_empty_label :
  ~ (forall (now : nat -> Z) (l : list Anchor),
       Forall2 persistedEq l (parseAnchors now (Some (serializeAnchors l)))).
Proof.
  intros H. specialize (H (fun _ => 0%Z) [unlabelled]).
  simpl in H. inversion H as [|? ? ? ? Heq _]; subst.
  destruct Heq as (_ & Hlabel & _). simpl in Hlabel. discriminate Hlabel.
Qed.

(** C8 (amended). For a list of anchors none of which has the empty label,
    serialising and parsing back returns the same anchors in the same order
    with every field but the id reproduced exactly ([compatibleWith] even in
    the same order); the id of the anchor at index [i] is rebuilt as
    "anchor-<i>-<time>". *)
Theorem roundtrip_labelled (now : nat -> Z) (l : list Anchor) :
  Forall (fun a => AnchorStore.label a <> "") l ->
  parseAnchors now (Some (serializeAnchors l))
  = imap (fun i a => withId (anchorId i (now i)) a) l
  /\ Forall2 persistedEq l (parseAnchors now (Some (serializeAnchors l))).
Proof.
  intros Hl.
  assert (E : parseAnchors now (Some (serializeAnchors l))
              = imap (fun i a => withId (anchorId i (now i)) a) l).
  { unfold parseAnchors, serializeAnchors.
    transitivity (imap (fromBackend now) (List.map toBackend l)).
    { destruct l; reflexivity. }
    change (List.map toBackend l) with (toBackend <$> l).
    rewrite imap_fmap. apply imap_ext. intros i a Hi. simpl.
    apply fromBackend_toBackend.
    rewrite Forall_forall in Hl. apply Hl.
    eapply list_elem_of_lookup_2. exact Hi. }
  split; [exact E|]. rewrite E.
  apply (persistedEq_imap (fun i => anchorId i (now i))).
Qed.

Lemma roundtrip_labelled_witness :
  parseAnchors (fun _ => 7%Z) (Some (serializeAnchors [AnchorStoreFacts.p3_anchor]))
  = imap (fun i a => withId (anchorId i 7%Z) a) [AnchorStoreFacts.p3_anchor]
  /\ Forall2 persistedEq [AnchorStoreFacts.p3_anchor]
       (parseAnchors (fun _ => 7%Z)
          (Some (serializeAnchors [AnchorStoreFacts.p3_anchor]))).
Proof.
  apply (roundtrip_labelled (fun _ => 7%Z) [AnchorStoreFacts.p3_anchor]).
  constructor; [|constructor]. simpl. discriminate.
Defined.

End ProductFormFacts.

(** ** The compatibility resolver *)

Module ResolverFacts.
Import BuilderView ComponentSelector.

(** The steps of [BUILD_STEPS] for the CPU and the GPU. *)
Definition cpuStep : BuildStep := mkStep "cpu" "CPU" "CPU" true.
Definition gpuStep : BuildStep := mkStep "gpu" "GPU" "GPU" false.

(** A selected part and a candidate that carry only [technical_specs]. *)
Definition selectedWith (category : string) (specs : option TechnicalSpecs)
  : SelectedComponent :=
  mkSelected "p-1" "part" category 0%R None None specs None.

Definition candidateWith (category : string) (specs : option TechnicalSpecs)
  : Product :=
  mkProduct "p-2" "candidate" category 0%R "sku" None None specs.

(** P4: a case that admits GPUs up to [mx] mm, a GPU of [len] mm. *)
Definition caseMaxGpu (mx : Z) : SelectedComponent :=
  selectedWith "CASE"
    (Some (mkSpecs None None None None None (Some mx) None None None)).

Definition gpuOfLength (len : Z) : Product :=
  candidateWith "GPU"
    (Some (mkSpecs None None None None None None None (Some len) None)).

Definition buildWithCase (c : SelectedComponent) : BuildState :=
  <["case" := c]> ∅.

(** P5: a motherboard with a socket, a CPU that declares none. *)
Definition moboWithSocket (s : string) : SelectedComponent :=
  selectedWith "MOTHERBOARD"
    (Some (mkSpecs (Some s) None None None None None None None None)).

Definition cpuNoSocket : Product := candidateWith "CPU" (Some noSpecs).

Lemma category_eqb (currentStep : BuildStep) (c : string) :
  step_category currentStep = c ->
  forall d, String.eqb (step_category currentStep) d = String.eqb c d.
Proof. intros ->. reflexivity. Qed.

(** The socket check returns only on two declared, different sockets. *)
Lemma checkSocket_Some (currentStep : BuildStep) (buildState : BuildState)
    (product : Product) (v : Verdict) :
  checkSocket currentStep buildState product = Some v ->
  compatible v = false
  /\ exists moboC ms cs,
       buildState !! "motherboard" = Some moboC
       /\ attr socket (BuilderView.technical_specs moboC) = Some ms
       /\ attr socket (technical_specs product) = Some cs
       /\ ms <> cs.
Proof.
  unfold checkSocket.
  destruct (buildState !! "motherboard") as [moboC|] eqn:Hm; [|discriminate].
  destruct (String.eqb (step_category currentStep) "CPU"); [|discriminate].
  destruct (attr socket (BuilderView.technical_specs moboC)) as [ms|] eqn:Hms;
    [|discriminate].
  destruct (attr socket (technical_specs product)) as [cs|] eqn:Hcs;
    [|discriminate].
  destruct (String.eqb_spec ms cs) as [E|E].
  - rewrite andb_false_r. discriminate.
  - destruct (truthyStr (Some ms) && truthyStr (Some cs)); simpl;
      [|discriminate].
    intros [= <-]. split; [reflexivity|]. exists moboC, ms, cs.
    repeat split; auto.
Qed.

Lemma checkSocket_no_socket (currentStep : BuildStep) (buildState : BuildState)
    (product : Product) :
  attr socket (technical_specs product) = None ->
  checkSocket currentStep buildState product = None.
Proof.
  intros H. unfold checkSocket. rewrite H.
  destruct (buildState !! "motherboard") as [moboC|]; [|reflexivity].
  destruct (String.eqb (step_category currentStep) "CPU"); [|reflexivity].
  destruct (attr socket (BuilderView.technical_specs moboC)); reflexivity.
Qed.

(** At the CPU step only the socket check can return. *)
Lemma checkCompatibility_cpu (currentStep : BuildStep) (buildState : BuildState)
    (product : Product) :
  step_category currentStep = "CPU" ->
  checkCompatibility currentStep buildState product
  = orElse (checkSocket currentStep buildState product) (mkVerdict true None).
Proof.
  intros Hc. unfold checkCompatibility.
  unfold checkFormFactor, checkRamType, checkGpuLength, checkCoolerHeight.
  rewrite !(category_eqb _ _ Hc). simpl.
  destruct (buildState !! "case"), (buildState !! "motherboard"); reflexivity.
Qed.

(** At the GPU step only the length check can return. *)
Lemma checkCompatibility_gpu (currentStep : BuildStep) (buildState : BuildState)
    (product : Product) :
  step_category currentStep = "GPU" ->
  checkCompatibility currentStep buildState product
  = orElse (checkGpuLength currentStep buildState product) (mkVerdict true None).
Proof.
  intros Hc. unfold checkCompatibility.
  unfold checkFormFactor, checkSocket, checkRamType, checkCoolerHeight.
  rewrite !(category_eqb _ _ Hc). simpl.
  destruct (buildState !! "case"), (buildState !! "motherboard");
    simpl; try reflexivity;
    destruct (checkGpuLength currentStep buildState product); reflexivity.
Qed.

Import Handlers.

Lemma Filter_In (parent : Handlers.Product) (candidates : list Handlers.Product)
    (c : Handlers.Product) :
  In c (FilterBySocketCompatibility parent candidates)
  <-> In c candidates /\ keeps parent c = true.
Proof.
  induction candidates as [|d rest IH]; simpl; [tauto|].
  destruct (keeps parent d) eqn:Hk; simpl; rewrite IH.
  - split.
    + intros [->|[H1 H2]]; auto.
    + intros [[->|H1] H2]; auto.
  - split.
    + intros [H1 H2]; auto.
    + intros [[->|H1] H2]; [congruence|auto].
Qed.

Lemma anyCompatible_false (parent : Handlers.Product) (s cat : string) :
  anyCompatible parent s cat = false ->
  forall anchor ct,
    In anchor (AnchorPoints parent) -> In ct (CompatibleTypes anchor) ->
    ct <> s /\ ct <> cat.
Proof.
  unfold anyCompatible. intros H anchor ct Ha Hct.
  destruct (existsb _ (AnchorPoints parent)) eqn:E; [discriminate|].
  assert (Hn : existsb (fun compatType =>
                          String.eqb compatType s || String.eqb compatType cat)
                       (CompatibleTypes anchor) = false).
  { destruct (existsb _ (CompatibleTypes anchor)) eqn:E2; [|reflexivity].
    assert (existsb (fun anchor =>
              existsb (fun compatType =>
                         String.eqb compatType s || String.eqb compatType cat)
                      (CompatibleTypes anchor)) (AnchorPoints parent) = true)
      as E3 by (apply existsb_exists; exists anchor; auto).
    congruence. }
  destruct (String.eqb_spec ct s) as [E1|E1], (String.eqb_spec ct cat) as [E2|E2];
    try (split; assumption); exfalso;
    assert (existsb (fun compatType =>
                       String.eqb compatType s || String.eqb compatType cat)
                    (CompatibleTypes anchor) = true)
      as E3
      by (apply existsb_exists; exists ct; split; [assumption|];
          subst; rewrite ?String.eqb_refl, ?orb_true_r; reflexivity);
    congruence.
Qed.

(** C5. A candidate without a [socket] attribute is excluded by neither
    stage.  Stage B: the socket check does not return for it at any step and
    in any build state, and at the CPU step the verdict is
    [{ compatible: true }]; a CPU candidate is flagged incompatible only when
    the motherboard and the candidate both declare a socket and the two
    differ.  Stage A: [FilterBySocketCompatibility] keeps every candidate
    that has no [socket] key, and drops a candidate only if it declares a
    socket string that, like its category, is no compatible type of any
    anchor of the parent. *)
Theorem missing_socket_never_excluded :
  (forall currentStep buildState product,
     attr socket (ComponentSelector.technical_specs product) = None ->
     checkSocket currentStep buildState product = None
     /\ (step_category currentStep = "CPU" ->
         checkCompatibility currentStep buildState product
         = mkVerdict true None))
  /\ (forall currentStep buildState product,
        step_category currentStep = "CPU" ->
        compatible (checkCompatibility currentStep buildState product) = false ->
        exists moboC ms cs,
          buildState !! "motherboard" = Some moboC
          /\ attr socket (BuilderView.technical_specs moboC) = Some ms
          /\ attr socket (ComponentSelector.technical_specs product) = Some cs
          /\ ms <> cs)
  /\ (forall parent candidates c,
        In c candidates ->
        TechnicalSpecs c !! "socket" = None ->
        In c (FilterBySocketCompatibility parent candidates))
  /\ (forall parent candidates c,
        In c candidates ->
        ~ In c (FilterBySocketCompatibility parent candidates) ->
        exists s,
          TechnicalSpecs c !! "socket" = Some (GoString s)
          /\ forall anchor ct,
               In anchor (AnchorPoints parent) ->
               In ct (CompatibleTypes anchor) ->
               ct <> s /\ ct <> Category c).
Proof.
  split; [|split; [|split]].
  - intros currentStep buildState product H.
    split; [apply checkSocket_no_socket; exact H|].
    intros Hc. rewrite checkCompatibility_cpu by exact Hc.
    rewrite checkSocket_no_socket by exact H. reflexivity.
  - intros currentStep buildState product Hc Hv.
    rewrite checkCompatibility_cpu in Hv by exact Hc.
    destruct (checkSocket currentStep buildState product) as [v|] eqn:E;
      [|discriminate Hv].
    apply checkSocket_Some in E. tauto.
  - intros parent candidates c Hin Hs. apply Filter_In. split; [exact Hin|].
    unfold keeps. rewrite Hs. reflexivity.
  - intros parent candidates c Hin Hout.
    destruct (keeps parent c) eqn:Hk.
    + exfalso. apply Hout, Filter_In. auto.
    + unfold keeps in Hk.
      destruct (TechnicalSpecs c !! "socket") as [v|]; [|discriminate].
      destruct v as [ | | |s| | ]; try discriminate.
      exists s. split; [reflexivity|]. apply anyCompatible_false. exact Hk.
Qed.

(** P5 at a fixture: the CPU without a socket against an AM5 board. *)
Lemma missing_socket_never_excluded_witness :
  checkCompatibility cpuStep (<["motherboard" := moboWithSocket "AM5"]> ∅)
                     cpuNoSocket
  = mkVerdict true None.
Proof.
  apply (proj1 missing_socket_never_excluded); reflexivity.
Defined.

(** P4, the literal values: 350 mm against 300 mm is refused with a reason
    that holds "300" (and not "350"), 350 mm against 400 mm is accepted. *)
Example gpu_length_p4 :
  checkCompatibility gpuStep (buildWithCase (caseMaxGpu 300)) (gpuOfLength 350)
  = mkVerdict false (Some "GPU too long (max 300mm)")
  /\ includes "GPU too long (max 300mm)" "300" = true
  /\ includes "GPU too long (max 300mm)" "350" = false
  /\ checkCompatibility gpuStep (buildWithCase (caseMaxGpu 400)) (gpuOfLength 350)
     = mkVerdict true None.
Proof. repeat split; reflexivity. Qed.

(** C6, as stated, fails: the reason of the refusal names the maximum but
    not the length of the GPU. *)
Lemma gpu_reason_omits_actual_length :
  ~ (forall currentStep buildState product caseC mx len,
       step_category currentStep = "GPU" ->
       buildState !! "case" = Some caseC ->
       attr max_gpu_length_mm (BuilderView.technical_specs caseC) = Some mx ->
       attr length_mm (ComponentSelector.technical_specs product) = Some len ->
       (len > mx)%Z ->
       exists r,
         checkCompatibility currentStep buildState product
         = mkVerdict false (Some r)
         /\ includes r (Number_toString mx) = true
         /\ includes r (Number_toString len) = true).
Proof.
  intros H.
  destruct (H gpuStep (buildWithCase (caseMaxGpu 300)) (gpuOfLength 350)
              (caseMaxGpu 300) 300%Z 350%Z)
    as (r & Hv & _ & Hlen); try reflexivity.
  assert (E : checkCompatibility gpuStep (buildWithCase (caseMaxGpu 300))
                                 (gpuOfLength 350)
              = mkVerdict false (Some "GPU too long (max 300mm)"))
    by reflexivity.
  rewrite E in Hv. injection Hv as <-. discriminate Hlen.
Qed.

(** C6 (amended). At the GPU step, with a case in the build, when the case
    declares [max_gpu_length_mm] and the candidate declares [length_mm],
    both whole numbers of millimetres that a number holds exactly and
    neither of them zero: if the length exceeds the maximum the verdict is
    [{ compatible: false }] with the reason "GPU too long (max <max>mm)",
    which states the maximum only; otherwise the verdict is
    [{ compatible: true }] without a reason. *)
Theorem gpu_length_verdict (currentStep : BuildStep) (buildState : BuildState)
    (product : ComponentSelector.Product) (caseC : SelectedComponent)
    (mx len : Z) :
  step_category currentStep = "GPU" ->
  buildState !! "case" = Some caseC ->
  attr max_gpu_length_mm (BuilderView.technical_specs caseC) = Some mx ->
  attr length_mm (ComponentSelector.technical_specs product) = Some len ->
  isSafeInteger mx -> isSafeInteger len ->
  mx <> 0%Z -> len <> 0%Z ->
  checkCompatibility currentStep buildState product
  = if (len >? mx)%Z
    then mkVerdict false
           (Some (String.append "GPU too long (max "
                    (String.append (Number_toString mx) "mm)")))
    else mkVerdict true None.
Proof.
  intros Hc Hcase Hmx Hlen _ _ Hmx0 Hlen0.
  rewrite checkCompatibility_gpu by exact Hc.
  unfold checkGpuLength. rewrite Hcase, Hc, Hmx, Hlen. simpl.
  destruct (Z.eqb_spec mx 0) as [E|_]; [contradiction|].
  destruct (Z.eqb_spec len 0) as [E|_]; [contradiction|].
  simpl. destruct (len >? mx)%Z; reflexivity.
Qed.

Lemma gpu_length_verdict_witness :
  checkCompatibility gpuStep (buildWithCase (caseMaxGpu 300)) (gpuOfLength 350)
  = if (350 >? 300)%Z
    then mkVerdict false
           (Some (String.append "GPU too long (max "
                    (String.append (Number_toString 300) "mm)")))
    else mkVerdict true None.
Proof.
  apply (gpu_length_verdict gpuStep (buildWithCase (caseMaxGpu 300))
           (gpuOfLength 350) (caseMaxGpu 300) 300%Z 350%Z);
    try reflexivity; try discriminate; unfold isSafeInteger; lia.
Defined.

End ResolverFacts.

(** ** The placement composer *)

Module ComposerFacts.
Import AnchorStore BuilderView BuilderCanvas.
Local Open Scope R_scope.

(** Each edge writes one key and leaves the others alone. *)
Lemma placeMotherboard_other (c m : option SelectedComponent)
    (t : gmap string ComponentTransform) (key : string) :
  key <> "motherboard" -> placeMotherboard c m t !! key = t !! key.
Proof.
  intros Hk. unfold placeMotherboard.
  repeat case_match; try reflexivity; apply lookup_insert_ne; congruence.
Qed.

Lemma placeCpu_other (m p : option SelectedComponent)
    (t : gmap string ComponentTransform) (key : string) :
  key <> "cpu" -> placeCpu m p t !! key = t !! key.
Proof.
  intros Hk. unfold placeCpu.
  repeat case_match; try reflexivity; apply lookup_insert_ne; congruence.
Qed.

Lemma placeCooler_other (p k : option SelectedComponent)
    (t : gmap string ComponentTransform) (key : string) :
  key <> "cpu_cooler" -> placeCooler p k t !! key = t !! key.
Proof.
  intros Hk. unfold placeCooler.
  repeat case_match; try reflexivity; apply lookup_insert_ne; congruence.
Qed.

Lemma placeGpu_other (m g : option SelectedComponent)
    (t : gmap string ComponentTransform) (key : string) :
  key <> "gpu" -> placeGpu m g t !! key = t !! key.
Proof.
  intros Hk. unfold placeGpu.
  repeat case_match; try reflexivity; apply lookup_insert_ne; congruence.
Qed.

Lemma placePsu_other (c p : option SelectedComponent)
    (t : gmap string ComponentTransform) (key : string) :
  key <> "psu" -> placePsu c p t !! key = t !! key.
Proof.
  intros Hk. unfold placePsu.
  repeat case_match; try reflexivity; apply lookup_insert_ne; congruence.
Qed.

Lemma placeStorage_other (c m s : option SelectedComponent)
    (t : gmap string ComponentTransform) (key : string) :
  key <> "storage" -> placeStorage c m s t !! key = t !! key.
Proof.
  intros Hk. unfold placeStorage.
  repeat case_match; try reflexivity; apply lookup_insert_ne; congruence.
Qed.

(** The map before any edge is applied. *)
Definition rootTransforms : gmap string ComponentTransform :=
  <["case" := mkTransform (THREE.mkVector3 0 0 0) (THREE.mkEuler 0 0 0)]> ∅.

(** What [componentTransforms] holds under "motherboard", "cpu" and "psu". *)
Lemma componentTransforms_motherboard (sel : list StepComponent) :
  componentTransforms sel !! "motherboard"
  = placeMotherboard (findStep "case" sel) (findStep "motherboard" sel)
                     rootTransforms !! "motherboard".
Proof.
  unfold componentTransforms.
  rewrite placeStorage_other, placePsu_other, placeGpu_other,
    placeCooler_other, placeCpu_other by discriminate.
  reflexivity.
Qed.

Lemma componentTransforms_cpu (sel : list StepComponent) :
  componentTransforms sel !! "cpu"
  = placeCpu (findStep "motherboard" sel) (findStep "cpu" sel)
      (placeMotherboard (findStep "case" sel) (findStep "motherboard" sel)
                        rootTransforms) !! "cpu".
Proof.
  unfold componentTransforms.
  rewrite placeStorage_other, placePsu_other, placeGpu_other,
    placeCooler_other by discriminate.
  reflexivity.
Qed.

Lemma componentTransforms_psu (sel : list StepComponent) :
  exists t,
    componentTransforms sel !! "psu"
    = placePsu (findStep "case" sel) (findStep "psu" sel) t !! "psu".
Proof.
  unfold componentTransforms. eexists.
  rewrite placeStorage_other by discriminate. reflexivity.
Qed.


(** An anchor as the API returns it, with the catalogue defaults of its
    type. *)
Definition apiAnchor (t : AnchorType) (l : string) (p r : Wire.XYZ)
  : ApiAnchor :=
  mkApiAnchor t l p r (info_direction (ANCHOR_TYPE_INFO t))
              (defaultAxis (ANCHOR_TYPE_INFO t))
              (defaultCompatible (ANCHOR_TYPE_INFO t)).

(** A selected part that carries only anchors (and a quantity). *)
Definition partWith (i cat : string) (points : list ApiAnchor)
    (q : option nat) : SelectedComponent :=
  mkSelected i i cat 0 None (Some points) None q.

(** The P1 fixture. *)
Definition p1_case : SelectedComponent :=
  partWith "case-1" "CASE"
    [apiAnchor mobo_mount_area "Motherboard Mount Area 1"
               (Wire.mkXYZ 0 5 0) (Wire.mkXYZ 0 0 0)] None.

Definition p1_mobo : SelectedComponent :=
  partWith "mobo-1" "MOTHERBOARD"
    [apiAnchor mobo_backplate "Motherboard Backplate 1"
               (Wire.mkXYZ 0 0 0) (Wire.mkXYZ 0 0 0);
     apiAnchor cpu_socket "CPU Socket 1"
               (Wire.mkXYZ 2 0 0) (Wire.mkXYZ 0 0 0)] None.

Definition p1_cpu : SelectedComponent :=
  partWith "cpu-1" "CPU"
    [apiAnchor cpu_bottom "CPU Contact 1"
               (Wire.mkXYZ 0 0 0) (Wire.mkXYZ 0 0 0)] None.

Definition p1_selection : list StepComponent :=
  [mkStepComponent "case" p1_case;
   mkStepComponent "motherboard" p1_mobo;
   mkStepComponent "cpu" p1_cpu].

(** C1. When the selection has a case, a motherboard and a CPU, the case's
    [mobo_mount_area] anchor is at (0,5,0) with zero rotation, the
    motherboard's [mobo_backplate] is at (0,0,0) and its [cpu_socket] at
    (2,0,0), and the CPU's [cpu_bottom] is at (0,0,0), the composer places
    the CPU at (0.2, 0.5, 0). *)
Theorem cpu_world_position_p1 (sel : list StepComponent)
    (caseC moboC cpuC : SelectedComponent)
    (mountArea backplate socket cpuBottom : Anchor) :
  findStep "case" sel = Some caseC ->
  findStep "motherboard" sel = Some moboC ->
  findStep "cpu" sel = Some cpuC ->
  findType mobo_mount_area (convertApiAnchors (anchor_points caseC))
  = Some mountArea ->
  AnchorStore.position mountArea = (0, 5, 0) ->
  AnchorStore.rotation mountArea = (0, 0, 0) ->
  findType mobo_backplate (convertApiAnchors (anchor_points moboC))
  = Some backplate ->
  AnchorStore.position backplate = (0, 0, 0) ->
  findType cpu_socket (convertApiAnchors (anchor_points moboC)) = Some socket ->
  AnchorStore.position socket = (2, 0, 0) ->
  findType cpu_bottom (convertApiAnchors (anchor_points cpuC)) = Some cpuBottom ->
  AnchorStore.position cpuBottom = (0, 0, 0) ->
  position <$> componentTransforms sel !! "cpu"
  = Some (THREE.mkVector3 0.2 0.5 0).
Proof.
  intros Hcase Hmobo Hcpu Hmount Hmp Hmr Hback Hbp Hsock Hsp Hbot Hcp.
  rewrite componentTransforms_cpu, Hcase, Hmobo, Hcpu.
  unfold placeCpu, placeMotherboard.
  rewrite Hmount, Hback, Hsock, Hbot. cbv zeta.
  rewrite lookup_insert_eq. unfold transformOr. rewrite lookup_insert_eq.
  cbn [default position rotation fmap option_fmap option_map].
  rewrite Hmp, Hmr, Hbp, Hsp, Hcp.
  rewrite !THREE_facts.applyEuler_about_x
    by (unfold scaled, at0, at1, at2, SCALE_FACTOR; simpl; lra).
  f_equal. apply THREE_facts.Vector3_eq;
    unfold scaled, at0, at1, at2, SCALE_FACTOR; simpl; lra.
Qed.

Lemma cpu_world_position_p1_witness :
  position <$> componentTransforms p1_selection !! "cpu"
  = Some (THREE.mkVector3 0.2 0.5 0).
Proof.
  apply (cpu_world_position_p1 p1_selection p1_case p1_mobo p1_cpu
           (convertApiAnchor (apiAnchor mobo_mount_area "Motherboard Mount Area 1"
                                (Wire.mkXYZ 0 5 0) (Wire.mkXYZ 0 0 0)))
           (convertApiAnchor (apiAnchor mobo_backplate "Motherboard Backplate 1"
                                (Wire.mkXYZ 0 0 0) (Wire.mkXYZ 0 0 0)))
           (convertApiAnchor (apiAnchor cpu_socket "CPU Socket 1"
                                (Wire.mkXYZ 2 0 0) (Wire.mkXYZ 0 0 0)))
           (convertApiAnchor (apiAnchor cpu_bottom "CPU Contact 1"
                                (Wire.mkXYZ 0 0 0) (Wire.mkXYZ 0 0 0))));
    reflexivity.
Defined.

(** C4. When the selection has a case and a PSU and no anchor of the case
    is a [psu_bay], the composer places the PSU at position (0,-2,0) with
    rotation (0,0,0): the entry is always there, and the PSU edge yields it
    whatever the transforms composed before it. *)
Theorem psu_fallback (sel : list StepComponent)
    (caseC psuC : SelectedComponent) :
  findStep "case" sel = Some caseC ->
  findStep "psu" sel = Some psuC ->
  findType psu_bay (convertApiAnchors (anchor_points caseC)) = None ->
  componentTransforms sel !! "psu"
  = Some (mkTransform (THREE.mkVector3 0 (-2) 0) (THREE.mkEuler 0 0 0))
  /\ forall t : gmap string ComponentTransform,
       placePsu (Some caseC) (Some psuC) t !! "psu"
       = Some (mkTransform (THREE.mkVector3 0 (-2) 0) (THREE.mkEuler 0 0 0)).
Proof.
  intros Hcase Hpsu Hbay.
  assert (Hp : forall t : gmap string ComponentTransform,
             placePsu (Some caseC) (Some psuC) t !! "psu"
             = Some (mkTransform (THREE.mkVector3 0 (-2) 0)
                                 (THREE.mkEuler 0 0 0))).
  { intros t. unfold placePsu. rewrite Hbay. apply lookup_insert_eq. }
  split; [|exact Hp].
  destruct (componentTransforms_psu sel) as [t ->].
  rewrite Hcase, Hpsu. apply Hp.
Qed.

(** P7: the P1 case has no [psu_bay]; a PSU is added to the selection. *)
Definition p7_psu : SelectedComponent :=
  partWith "psu-1" "PSU"
    [apiAnchor psu_mount "PSU Mount 1" (Wire.mkXYZ 1 2 3) (Wire.mkXYZ 0 0 0)]
    None.

Definition p7_selection : list StepComponent :=
  p1_selection ++ [mkStepComponent "psu" p7_psu].

Lemma psu_fallback_witness :
  componentTransforms p7_selection !! "psu"
  = Some (mkTransform (THREE.mkVector3 0 (-2) 0) (THREE.mkEuler 0 0 0))
  /\ forall t : gmap string ComponentTransform,
       placePsu (Some p1_case) (Some p7_psu) t !! "psu"
       = Some (mkTransform (THREE.mkVector3 0 (-2) 0) (THREE.mkEuler 0 0 0)).
Proof.
  apply (psu_fallback p7_selection p1_case p7_psu); reflexivity.
Defined.


(** The transform of the motherboard that the later edges read. *)
Lemma motherboard_transform_stable (sel : list StepComponent)
    (p k : option SelectedComponent) :
  let t1 := placeMotherboard (findStep "case" sel) (findStep "motherboard" sel)
                             rootTransforms in
  transformOr t1 "motherboard" = transformOr (componentTransforms sel) "motherboard"
  /\ transformOr (placeCooler p k
                    (placeCpu (findStep "motherboard" sel) (findStep "cpu" sel) t1))
                 "motherboard"
     = transformOr (componentTransforms sel) "motherboard".
Proof.
  unfold transformOr. rewrite componentTransforms_motherboard.
  rewrite placeCooler_other, placeCpu_other by discriminate. auto.
Qed.

(** The CPU edge: the CPU gets the motherboard's world rotation as it is;
    the rotation of the [cpu_socket] anchor is not read. *)
Lemma cpu_rotation_is_parent_rotation (sel : list StepComponent)
    (moboC cpuC : SelectedComponent) (socket : Anchor) :
  findStep "motherboard" sel = Some moboC ->
  findStep "cpu" sel = Some cpuC ->
  findType cpu_socket (convertApiAnchors (anchor_points moboC)) = Some socket ->
  rotation <$> componentTransforms sel !! "cpu"
  = Some (rotation (transformOr (componentTransforms sel) "motherboard")).
Proof.
  intros Hmobo Hcpu Hsock.
  rewrite componentTransforms_cpu.
  destruct (motherboard_transform_stable sel None None) as [<- _].
  rewrite Hmobo, Hcpu. unfold placeCpu. rewrite Hsock. cbv zeta.
  rewrite lookup_insert_eq. reflexivity.
Qed.

(** The GPU edge, a sibling of the CPU edge: the GPU gets the motherboard's
    world rotation plus the rotation of the [pcie_x16] anchor. *)
Lemma gpu_rotation_adds_anchor_rotation (sel : list StepComponent)
    (moboC gpuC : SelectedComponent) (pcie : Anchor) :
  findStep "motherboard" sel = Some moboC ->
  findStep "gpu" sel = Some gpuC ->
  findType pcie_x16 (convertApiAnchors (anchor_points moboC)) = Some pcie ->
  rotation <$> componentTransforms sel !! "gpu"
  = Some (eulerPlus (rotation (transformOr (componentTransforms sel) "motherboard"))
                    (AnchorStore.rotation pcie)).
Proof.
  intros Hmobo Hgpu Hpcie.
  destruct (motherboard_transform_stable sel (findStep "cpu" sel)
              (findStep "cpu_cooler" sel)) as [_ <-].
  unfold componentTransforms.
  rewrite placeStorage_other, placePsu_other by discriminate.
  rewrite Hmobo, Hgpu. unfold placeGpu. rewrite Hpcie. cbv zeta.
  rewrite lookup_insert_eq. reflexivity.
Qed.

(** The P1 fixture with the [cpu_socket] anchor turned by one radian about
    its second axis. *)
Definition c2_mobo : SelectedComponent :=
  partWith "mobo-1" "MOTHERBOARD"
    [apiAnchor mobo_backplate "Motherboard Backplate 1"
               (Wire.mkXYZ 0 0 0) (Wire.mkXYZ 0 0 0);
     apiAnchor cpu_socket "CPU Socket 1"
               (Wire.mkXYZ 2 0 0) (Wire.mkXYZ 0 1 0)] None.

Definition c2_selection : list StepComponent :=
  [mkStepComponent "case" p1_case;
   mkStepComponent "motherboard" c2_mobo;
   mkStepComponent "cpu" p1_cpu].

(** C2 at its failing input. On the CPU edge the composed rotation of the
    child is the motherboard's world rotation, (0 + PI/2, 0, 0): the
    [cpu_socket] anchor is found, its rotation (0, 1, 0) is not added, and
    the result differs from parent rotation plus anchor rotation. *)
Theorem cpu_edge_drops_anchor_rotation :
  findType cpu_socket (convertApiAnchors (anchor_points c2_mobo))
  = Some (convertApiAnchor (apiAnchor cpu_socket "CPU Socket 1"
                              (Wire.mkXYZ 2 0 0) (Wire.mkXYZ 0 1 0)))
  /\ rotation <$> componentTransforms c2_selection !! "motherboard"
     = Some (THREE.mkEuler (0 + PI / 2) 0 0)
  /\ rotation <$> componentTransforms c2_selection !! "cpu"
     = Some (THREE.mkEuler (0 + PI / 2) 0 0)
  /\ THREE.mkEuler (0 + PI / 2) 0 0
     <> eulerPlus (THREE.mkEuler (0 + PI / 2) 0 0) (0, 1, 0).
Proof.
  assert (Hm : componentTransforms c2_selection !! "motherboard"
               = Some (mkTransform
                         (THREE.sub (scaled (0, 5, 0)) (scaled (0, 0, 0)))
                         (THREE.mkEuler (0 + PI / 2) 0 0))).
  { rewrite componentTransforms_motherboard. reflexivity. }
  split; [reflexivity|]. split; [rewrite Hm; reflexivity|]. split.
  - rewrite (cpu_rotation_is_parent_rotation c2_selection c2_mobo p1_cpu
               (convertApiAnchor (apiAnchor cpu_socket "CPU Socket 1"
                                    (Wire.mkXYZ 2 0 0) (Wire.mkXYZ 0 1 0))))
      by reflexivity.
    unfold transformOr. rewrite Hm. reflexivity.
  - unfold eulerPlus, at0, at1, at2. simpl. intros E.
    apply (f_equal THREE.ey) in E. simpl in E. lra.
Qed.


(** *** RAM replication *)

(** The labels of the P2 fixture. *)
Definition slotLabels : list string :=
  ["RAM Slot 1"; "RAM Slot 2"; "RAM Slot 3"; "RAM Slot 4"].

(** What the proofs use of the host's collation: it orders the four labels
    by their digit. *)
Definition ordersSlotLabels (localeCompare : string -> string -> Z) : Prop :=
  forall (i j : nat) (a b : string),
    slotLabels !! i = Some a -> slotLabels !! j = Some b -> (i < j)%nat ->
    (localeCompare a b < 0)%Z /\ (0 < localeCompare b a)%Z.

(** A collation that has the property: comparison by code units. *)
Definition codeUnitCompare (a b : string) : Z :=
  match String.compare a b with
  | Lt => (-1)%Z
  | Eq => 0%Z
  | Gt => 1%Z
  end.

Lemma codeUnitCompare_orders : ordersSlotLabels codeUnitCompare.
Proof.
  intros i j a b Hi Hj Hlt.
  destruct i as [|[|[|[|i]]]]; simpl in Hi; try discriminate Hi;
    destruct j as [|[|[|[|j]]]]; simpl in Hj; try discriminate Hj;
    try lia; injection Hi as <-; injection Hj as <-;
    vm_compute; split; reflexivity.
Qed.

(** Where a point given in the motherboard's frame (in cm) lands. *)
Definition placeLocal (moboTransform : ComponentTransform) (p : Triple)
  : THREE.Vector3 :=
  THREE.add (position moboTransform)
            (THREE.applyEuler (scaled p) (rotation moboTransform)).

Lemma slotTransform_position (localT : ComponentTransform) (a : Anchor) :
  position (slotTransform localT a) = placeLocal localT (AnchorStore.position a).
Proof. reflexivity. Qed.

(** The fallback loop puts module number [n] (from 0) where a slot at
    (15 + 3 n, 1, 0) cm would put it. *)
Lemma fallbackTransform_position (localT : ComponentTransform) (n : nat) :
  position (fallbackTransform localT n)
  = placeLocal localT (15 + 3 * INR n, 1, 0).
Proof.
  unfold fallbackTransform, placeLocal. simpl. f_equal. f_equal.
  apply THREE_facts.Vector3_eq;
    unfold scaled, at0, at1, at2, SCALE_FACTOR; simpl; lra.
Qed.

Section Replication.

Variable localeCompare : string -> string -> Z.
Hypothesis collation : ordersSlotLabels localeCompare.

Variables a1 a2 a3 a4 : Anchor.
Hypothesis label1 : AnchorStore.label a1 = "RAM Slot 1".
Hypothesis label2 : AnchorStore.label a2 = "RAM Slot 2".
Hypothesis label3 : AnchorStore.label a3 = "RAM Slot 3".
Hypothesis label4 : AnchorStore.label a4 = "RAM Slot 4".

Lemma leb_before (i j : nat) (a b : string) :
  slotLabels !! i = Some a -> slotLabels !! j = Some b -> (i < j)%nat ->
  (localeCompare a b <=? 0)%Z = true /\ (localeCompare b a <=? 0)%Z = false.
Proof.
  intros Hi Hj Hlt. destruct (collation i j a b Hi Hj Hlt) as [H1 H2].
  split; [apply Z.leb_le | apply Z.leb_gt]; lia.
Qed.

(** Sorting by label puts the four slots in the order of their digits,
    whatever their order in the anchor list. *)
Lemma sortByLabel_four (l : list Anchor) :
  Permutation l [a1; a2; a3; a4] ->
  sortByLabel localeCompare l = [a1; a2; a3; a4].
Proof.
  intros HP.
  destruct (leb_before 0 1 _ _ eq_refl eq_refl ltac:(lia)) as [E12 E21].
  destruct (leb_before 0 2 _ _ eq_refl eq_refl ltac:(lia)) as [E13 E31].
  destruct (leb_before 0 3 _ _ eq_refl eq_refl ltac:(lia)) as [E14 E41].
  destruct (leb_before 1 2 _ _ eq_refl eq_refl ltac:(lia)) as [E23 E32].
  destruct (leb_before 1 3 _ _ eq_refl eq_refl ltac:(lia)) as [E24 E42].
  destruct (leb_before 2 3 _ _ eq_refl eq_refl ltac:(lia)) as [E34 E43].
  symmetry in HP. apply permutations_Permutation in HP.
  cbn in HP.
  repeat (apply elem_of_cons in HP as [-> | HP]);
    try (apply elem_of_nil in HP; contradiction);
    unfold sortByLabel;
    repeat (cbn [fold_right insertByLabel];
            rewrite ?label1, ?label2, ?label3, ?label4,
              ?E12, ?E21, ?E13, ?E31, ?E14, ?E41,
              ?E23, ?E32, ?E24, ?E42, ?E34, ?E43);
    reflexivity.
Qed.

Variable transforms : gmap string ComponentTransform.
Variable moboC : SelectedComponent.
Variable points : list ApiAnchor.
Hypothesis has_points : anchor_points moboC = Some points.
Hypothesis four_slots :
  Permutation (List.filter (sameType ram_slot) (convertApiAnchors (Some points)))
              [a1; a2; a3; a4].

(** With four slots, three modules take the first three slots, six take the
    four slots and two fallback places. *)
Lemma getRamTransforms_four :
  let moboTransform := transformOr transforms "motherboard" in
  getRamTransforms localeCompare transforms (Some moboC) 3
  = [slotTransform moboTransform a1; slotTransform moboTransform a2;
     slotTransform moboTransform a3]
  /\ getRamTransforms localeCompare transforms (Some moboC) 6
     = [slotTransform moboTransform a1; slotTransform moboTransform a2;
        slotTransform moboTransform a3; slotTransform moboTransform a4;
        fallbackTransform moboTransform 4; fallbackTransform moboTransform 5].
Proof.
  unfold getRamTransforms. rewrite has_points.
  rewrite (sortByLabel_four _ four_slots). split; reflexivity.
Qed.

(** The six places are those of the four slots and of the points (27,1,0)
    and (30,1,0) of the motherboard's frame. *)
Lemma six_positions :
  let moboTransform := transformOr transforms "motherboard" in
  List.map position
    (getRamTransforms localeCompare transforms (Some moboC) 6)
  = placeLocal moboTransform
      <$> [AnchorStore.position a1; AnchorStore.position a2;
           AnchorStore.position a3; AnchorStore.position a4;
           (27, 1, 0); (30, 1, 0)].
Proof.
  intros moboTransform. rewrite (proj2 getRamTransforms_four).
  cbn [List.map fmap list_fmap].
  rewrite !slotTransform_position, !fallbackTransform_position.
  fold moboTransform.
  replace (15 + 3 * INR 4, 1, 0) with (27, 1, 0)
    by (simpl; repeat f_equal; lra).
  replace (15 + 3 * INR 5, 1, 0) with (30, 1, 0)
    by (simpl; repeat f_equal; lra).
  reflexivity.
Qed.

End Replication.

(** Mutual distinctness of a few points given by their coordinates. *)
Ltac distinct_triples :=
  repeat (apply NoDup_cons_2;
          [ rewrite ?elem_of_cons, elem_of_nil;
            intros H;
            repeat (destruct H as [H|H]);
            try contradiction;
            injection H; intros; lra | ]);
  apply NoDup_nil_2.

(** C3 (amended). For a selection whose motherboard has exactly four
    [ram_slot] anchors, labelled "RAM Slot 1" to "RAM Slot 4", under a
    collation that orders these labels by their digit: a RAM quantity of 3
    yields exactly the 3 transforms of slots 1 to 3, in that order; a
    quantity of 6 yields exactly 6 transforms, the 4 of the slots in label
    order followed by 2 synthesized ones, which lie at the offsets
    (1.5 + 4 * 0.3, 0.1, 0) and (1.5 + 5 * 0.3, 0.1, 0) turned by the
    motherboard's rotation and added to the motherboard's position, with
    the motherboard's rotation.  Nothing keeps a synthesized place apart
    from the place of a slot. *)
Theorem ram_replication (localeCompare : string -> string -> Z)
    (sel : list StepComponent) (moboC ram3 ram6 : SelectedComponent)
    (points : list ApiAnchor) (a1 a2 a3 a4 : Anchor) :
  ordersSlotLabels localeCompare ->
  findStep "motherboard" sel = Some moboC ->
  anchor_points moboC = Some points ->
  Permutation (List.filter (sameType ram_slot) (convertApiAnchors (Some points)))
              [a1; a2; a3; a4] ->
  AnchorStore.label a1 = "RAM Slot 1" ->
  AnchorStore.label a2 = "RAM Slot 2" ->
  AnchorStore.label a3 = "RAM Slot 3" ->
  AnchorStore.label a4 = "RAM Slot 4" ->
  quantity ram3 = Some 3%nat ->
  quantity ram6 = Some 6%nat ->
  let moboTransform := transformOr (componentTransforms sel) "motherboard" in
  let synthesized (offset : R) :=
    mkTransform
      (THREE.add (position moboTransform)
         (THREE.applyEuler (THREE.mkVector3 offset 0.1 0)
                           (rotation moboTransform)))
      (rotation moboTransform) in
  renderRamModules localeCompare sel ram3
  = [slotTransform moboTransform a1; slotTransform moboTransform a2;
     slotTransform moboTransform a3]
  /\ length (renderRamModules localeCompare sel ram3) = 3%nat
  /\ renderRamModules localeCompare sel ram6
     = [slotTransform moboTransform a1; slotTransform moboTransform a2;
        slotTransform moboTransform a3; slotTransform moboTransform a4;
        synthesized (1.5 + 4 * 0.3); synthesized (1.5 + 5 * 0.3)]
  /\ length (renderRamModules localeCompare sel ram6) = 6%nat.
Proof.
  intros Hord Hmobo Hpoints Hperm L1 L2 L3 L4 Hq3 Hq6 moboTransform synthesized.
  pose proof (getRamTransforms_four localeCompare Hord a1 a2 a3 a4 L1 L2 L3 L4
                (componentTransforms sel) moboC points Hpoints Hperm)
    as [H3 H6].
  cbv zeta in H3, H6. fold moboTransform in H3, H6.
  unfold renderRamModules. rewrite Hq3, Hq6, Hmobo, H3, H6.
  assert (E4 : fallbackTransform moboTransform 4 = synthesized (1.5 + 4 * 0.3))
    by (unfold fallbackTransform, synthesized; do 4 f_equal; simpl; lra).
  assert (E5 : fallbackTransform moboTransform 5 = synthesized (1.5 + 5 * 0.3))
    by (unfold fallbackTransform, synthesized; do 4 f_equal; simpl; lra).
  rewrite E4, E5. repeat split.
Qed.

(** A [ram_slot] anchor of the API. *)
Definition ramSlot (l : string) (px py pz : R) : ApiAnchor :=
  apiAnchor ram_slot l (Wire.mkXYZ px py pz) (Wire.mkXYZ 0 0 0).

(** The P2 fixture: the four slots, listed out of order among the other
    anchors of the motherboard. *)
Definition p2_mobo : SelectedComponent :=
  partWith "mobo-2" "MOTHERBOARD"
    [apiAnchor mobo_backplate "Motherboard Backplate 1"
               (Wire.mkXYZ 0 0 0) (Wire.mkXYZ 0 0 0);
     ramSlot "RAM Slot 2" 11 0 0;
     ramSlot "RAM Slot 1" 10 0 0;
     apiAnchor cpu_socket "CPU Socket 1" (Wire.mkXYZ 2 0 0) (Wire.mkXYZ 0 0 0);
     ramSlot "RAM Slot 4" 13 0 0;
     ramSlot "RAM Slot 3" 12 0 0] None.

Definition ramSticks (q : nat) : SelectedComponent :=
  partWith "ram-1" "RAM" [] (Some q).

Definition p2_selection (q : nat) : list StepComponent :=
  [mkStepComponent "case" p1_case;
   mkStepComponent "motherboard" p2_mobo;
   mkStepComponent "ram" (ramSticks q)].

Lemma ram_replication_witness :
  let moboTransform :=
    transformOr (componentTransforms (p2_selection 3)) "motherboard" in
  renderRamModules codeUnitCompare (p2_selection 3) (ramSticks 3)
  = [slotTransform moboTransform (convertApiAnchor (ramSlot "RAM Slot 1" 10 0 0));
     slotTransform moboTransform (convertApiAnchor (ramSlot "RAM Slot 2" 11 0 0));
     slotTransform moboTransform (convertApiAnchor (ramSlot "RAM Slot 3" 12 0 0))]
  /\ length (renderRamModules codeUnitCompare (p2_selection 3) (ramSticks 6))
     = 6%nat.
Proof.
  destruct (ram_replication codeUnitCompare (p2_selection 3) p2_mobo
              (ramSticks 3) (ramSticks 6)
              [apiAnchor mobo_backplate "Motherboard Backplate 1"
                         (Wire.mkXYZ 0 0 0) (Wire.mkXYZ 0 0 0);
               ramSlot "RAM Slot 2" 11 0 0;
               ramSlot "RAM Slot 1" 10 0 0;
               apiAnchor cpu_socket "CPU Socket 1"
                         (Wire.mkXYZ 2 0 0) (Wire.mkXYZ 0 0 0);
               ramSlot "RAM Slot 4" 13 0 0;
               ramSlot "RAM Slot 3" 12 0 0]
              (convertApiAnchor (ramSlot "RAM Slot 1" 10 0 0))
              (convertApiAnchor (ramSlot "RAM Slot 2" 11 0 0))
              (convertApiAnchor (ramSlot "RAM Slot 3" 12 0 0))
              (convertApiAnchor (ramSlot "RAM Slot 4" 13 0 0)))
    as (H3 & _ & _ & H6).
  - exact codeUnitCompare_orders.
  - reflexivity.
  - reflexivity.
  - change (Permutation
              [convertApiAnchor (ramSlot "RAM Slot 2" 11 0 0);
               convertApiAnchor (ramSlot "RAM Slot 1" 10 0 0);
               convertApiAnchor (ramSlot "RAM Slot 4" 13 0 0);
               convertApiAnchor (ramSlot "RAM Slot 3" 12 0 0)]
              [convertApiAnchor (ramSlot "RAM Slot 1" 10 0 0);
               convertApiAnchor (ramSlot "RAM Slot 2" 11 0 0);
               convertApiAnchor (ramSlot "RAM Slot 3" 12 0 0);
               convertApiAnchor (ramSlot "RAM Slot 4" 13 0 0)]).
    eapply perm_trans; [apply perm_swap|].
    do 2 apply perm_skip. apply perm_swap.
  - reflexivity.
  - reflexivity.
  - reflexivity.
  - reflexivity.
  - reflexivity.
  - reflexivity.
  - split; [exact H3|exact H6].
Defined.

(** A motherboard whose first slot lies at (27,1,0) of its frame. *)
Definition c3_mobo : SelectedComponent :=
  partWith "mobo-3" "MOTHERBOARD"
    [ramSlot "RAM Slot 1" 27 1 0; ramSlot "RAM Slot 2" 28 1 0;
     ramSlot "RAM Slot 3" 29 1 0; ramSlot "RAM Slot 4" 31 1 0] None.

Definition c3_selection : list StepComponent :=
  [mkStepComponent "case" p1_case;
   mkStepComponent "motherboard" c3_mobo;
   mkStepComponent "ram" (ramSticks 6)].

(** C3, as stated, fails: with four slots at mutually distinct positions,
    the first of them at (27,1,0), six modules are placed and the first
    synthesized place is the place of slot 1. *)
Lemma ram_fallback_collides_with_slot :
  NoDup [(27, 1, 0); (28, 1, 0); (29, 1, 0); (31, 1, 0)]
  /\ length (renderRamModules codeUnitCompare c3_selection (ramSticks 6)) = 6%nat
  /\ ~ NoDup (List.map position
                (renderRamModules codeUnitCompare c3_selection (ramSticks 6))).
Proof.
  assert (Hperm : Permutation
            (List.filter (sameType ram_slot)
               (convertApiAnchors
                  (Some [ramSlot "RAM Slot 1" 27 1 0; ramSlot "RAM Slot 2" 28 1 0;
                         ramSlot "RAM Slot 3" 29 1 0; ramSlot "RAM Slot 4" 31 1 0])))
            [convertApiAnchor (ramSlot "RAM Slot 1" 27 1 0);
             convertApiAnchor (ramSlot "RAM Slot 2" 28 1 0);
             convertApiAnchor (ramSlot "RAM Slot 3" 29 1 0);
             convertApiAnchor (ramSlot "RAM Slot 4" 31 1 0)])
    by apply Permutation_refl.
  pose proof (getRamTransforms_four codeUnitCompare codeUnitCompare_orders
                (convertApiAnchor (ramSlot "RAM Slot 1" 27 1 0))
                (convertApiAnchor (ramSlot "RAM Slot 2" 28 1 0))
                (convertApiAnchor (ramSlot "RAM Slot 3" 29 1 0))
                (convertApiAnchor (ramSlot "RAM Slot 4" 31 1 0))
                eq_refl eq_refl eq_refl eq_refl
                (componentTransforms c3_selection) c3_mobo _ eq_refl Hperm)
    as [_ H6].
  pose proof (six_positions codeUnitCompare codeUnitCompare_orders
                (convertApiAnchor (ramSlot "RAM Slot 1" 27 1 0))
                (convertApiAnchor (ramSlot "RAM Slot 2" 28 1 0))
                (convertApiAnchor (ramSlot "RAM Slot 3" 29 1 0))
                (convertApiAnchor (ramSlot "RAM Slot 4" 31 1 0))
                eq_refl eq_refl eq_refl eq_refl
                (componentTransforms c3_selection) c3_mobo _ eq_refl Hperm)
    as Hsix.
  cbv zeta in H6, Hsix.
  split; [distinct_triples|].
  change (renderRamModules codeUnitCompare c3_selection (ramSticks 6))
    with (getRamTransforms codeUnitCompare (componentTransforms c3_selection)
            (Some c3_mobo) 6).
  split; [rewrite H6; reflexivity|].
  rewrite Hsix. intros Hnd.
  apply NoDup_cons_1_1 in Hnd. apply Hnd.
  do 3 apply list_elem_of_further. apply list_elem_of_here.
Qed.

End ComposerFacts.

(** ** More on the anchor store *)

Module AnchorStoreMore.
Import AnchorStore.

(** The ids of the anchors of a store, in order. *)
Definition ids (state : AnchorState) : list string :=
  List.map id (anchors state).

Lemma find_hasId_app_l (l k : list Anchor) (i : string) (a : Anchor) :
  List.find (hasId i) l = Some a -> List.find (hasId i) (l ++ k) = Some a.
Proof.
  induction l as [|b l IH]; simpl; [discriminate|].
  destruct (hasId i b); [auto|exact IH].
Qed.

Lemma filter_remove_ids (l : list Anchor) (i : string) :
  List.map id (List.filter (fun a => negb (hasId i a)) l)
  = List.filter (fun j => negb (String.eqb j i)) (List.map id l).
Proof.
  induction l as [|b l IH]; simpl; [reflexivity|].
  unfold hasId at 1. destruct (String.eqb (id b) i); simpl; rewrite IH;
    reflexivity.
Qed.

Lemma NoDup_filter_bool {A : Type} (f : A -> bool) (l : list A) :
  NoDup l -> NoDup (List.filter f l).
Proof.
  intros H. eapply sublist_NoDup; [exact H|].
  apply AnchorStoreFacts.filter_sublist.
Qed.

Lemma NoDup_snoc (l : list string) (x : string) :
  NoDup l -> ~ In x l -> NoDup (l ++ [x]).
Proof.
  intros Hl Hx. apply NoDup_app. split; [exact Hl|]. split.
  - intros y Hy Hy'. apply list_elem_of_singleton in Hy'. subst y.
    apply Hx, list_elem_of_In. exact Hy.
  - apply NoDup_singleton.
Qed.

(** X1. Ids stay unique: if no two anchors share an id, this still holds
    after [addAnchor] and [duplicateAnchor] when [uuidv4()] returns an id
    that no anchor has, and after [updateAnchor] and [removeAnchor]
    always. *)
Theorem unique_ids_kept (state : AnchorState) :
  NoDup (ids state) ->
  (forall uuid t l,
     ~ In uuid (ids state) -> NoDup (ids (addAnchor uuid t l state)))
  /\ (forall uuid i,
        ~ In uuid (ids state) -> NoDup (ids (duplicateAnchor uuid i state)))
  /\ (forall i updates, NoDup (ids (updateAnchor i updates state)))
  /\ (forall i, NoDup (ids (removeAnchor i state))).
Proof.
  unfold ids. intros Hnd. split; [|split; [|split]].
  - intros uuid t l Hfresh. simpl. rewrite List.map_app. simpl.
    apply NoDup_snoc; assumption.
  - intros uuid i Hfresh. unfold duplicateAnchor.
    destruct (List.find (hasId i) (anchors state)); simpl; [|exact Hnd].
    rewrite List.map_app. simpl. apply NoDup_snoc; assumption.
  - intros i updates. simpl. rewrite AnchorStoreFacts.map_update_ids.
    exact Hnd.
  - intros i. simpl. rewrite filter_remove_ids.
    apply NoDup_filter_bool. exact Hnd.
Qed.

Lemma unique_ids_kept_witness :
  (forall uuid t l,
     ~ In uuid (ids AnchorStoreFacts.p3_state) ->
     NoDup (ids (addAnchor uuid t l AnchorStoreFacts.p3_state)))
  /\ (forall uuid i,
        ~ In uuid (ids AnchorStoreFacts.p3_state) ->
        NoDup (ids (duplicateAnchor uuid i AnchorStoreFacts.p3_state)))
  /\ (forall i updates,
        NoDup (ids (updateAnchor i updates AnchorStoreFacts.p3_state)))
  /\ (forall i, NoDup (ids (removeAnchor i AnchorStoreFacts.p3_state))).
Proof.
  apply (unique_ids_kept AnchorStoreFacts.p3_state).
  apply NoDup_singleton.
Defined.

(** The selection is none or the id of an anchor of the store. *)
Definition selectionValid (state : AnchorState) : Prop :=
  match selectedAnchorId state with
  | None => True
  | Some i => In i (ids state)
  end.

(** X2. The selection never dangles unless [selectAnchor] makes it: if the
    selection is none or names an anchor of the store, the same holds after
    [addAnchor], [duplicateAnchor], [updateAnchor], [removeAnchor],
    [setAnchors] and [clearAnchors]; after [selectAnchor(i)] it holds
    exactly when [i] is none or the id of an anchor. *)
Theorem selection_stays_valid (state : AnchorState) :
  selectionValid state ->
  (forall uuid t l, selectionValid (addAnchor uuid t l state))
  /\ (forall uuid i, selectionValid (duplicateAnchor uuid i state))
  /\ (forall i updates, selectionValid (updateAnchor i updates state))
  /\ (forall i, selectionValid (removeAnchor i state))
  /\ (forall l, selectionValid (setAnchors l state))
  /\ selectionValid (clearAnchors state)
  /\ (forall i,
        selectionValid (selectAnchor (Some i) state) <-> In i (ids state)).
Proof.
  unfold selectionValid, ids. intros Hv.
  split; [|split; [|split; [|split; [|split; [|split]]]]]; simpl; auto.
  - intros uuid i. unfold duplicateAnchor.
    destruct (List.find (hasId i) (anchors state)); simpl; [|exact Hv].
    rewrite List.map_app. apply in_or_app. right. simpl. auto.
  - intros i updates. rewrite AnchorStoreFacts.map_update_ids. exact Hv.
  - intros i. destruct (selectedAnchorId state) as [s|]; [|exact I].
    destruct (String.eqb_spec s i) as [E|E]; [exact I|].
    rewrite filter_remove_ids. apply filter_In. split; [exact Hv|].
    destruct (String.eqb_spec s i); [contradiction|reflexivity].
Qed.

(** Two anchors, the second one selected. *)
Definition x2_state : AnchorState :=
  duplicateAnchor "a-2" "a-1" AnchorStoreFacts.p3_state.

Lemma selection_stays_valid_witness :
  selectedAnchorId x2_state = Some "a-2"
  /\ selectionValid x2_state
  /\ selectionValid (duplicateAnchor "a-3" "a-2" x2_state)
  /\ selectionValid (removeAnchor "a-1" x2_state)
  /\ selectionValid (removeAnchor "a-2" x2_state)
  /\ (selectionValid (selectAnchor (Some "a-1") x2_state)
      <-> In "a-1" (ids x2_state)).
Proof.
  assert (Hv : selectionValid x2_state) by (right; left; reflexivity).
  destruct (selection_stays_valid x2_state Hv)
    as (_ & Hdup & _ & Hrem & _ & _ & Hsel).
  split; [reflexivity|]. split; [exact Hv|].
  split; [apply Hdup|]. split; [apply Hrem|]. split; [apply Hrem|].
  apply Hsel.
Defined.

(** X3. Adding or duplicating and then removing the new anchor undoes the
    change to the list: when [uuidv4()] returned an id that no anchor had,
    [removeAnchor] of that id after [addAnchor] or [duplicateAnchor] leaves
    the anchors the store had before. *)
Theorem remove_undoes_add (state : AnchorState) (uuid : string) :
  ~ In uuid (ids state) ->
  (forall t l, anchors (removeAnchor uuid (addAnchor uuid t l state))
               = anchors state)
  /\ (forall i, anchors (removeAnchor uuid (duplicateAnchor uuid i state))
                = anchors state).
Proof.
  unfold ids. intros Hfresh.
  assert (Hsnoc : forall a, id a = uuid ->
            List.filter (fun b => negb (hasId uuid b)) (anchors state ++ [a])
            = anchors state).
  { intros a Ha. rewrite List.filter_app.
    rewrite AnchorStoreFacts.filter_remove_absent by exact Hfresh.
    simpl. unfold hasId. rewrite Ha, String.eqb_refl. simpl.
    apply app_nil_r. }
  split.
  - intros t l. simpl. apply Hsnoc. reflexivity.
  - intros i. unfold duplicateAnchor.
    destruct (List.find (hasId i) (anchors state)); simpl.
    + apply Hsnoc. reflexivity.
    + apply AnchorStoreFacts.filter_remove_absent. exact Hfresh.
Qed.

Lemma remove_undoes_add_witness :
  (forall t l,
     anchors (removeAnchor "a-2" (addAnchor "a-2" t l AnchorStoreFacts.p3_state))
     = anchors AnchorStoreFacts.p3_state)
  /\ (forall i,
        anchors (removeAnchor "a-2"
                   (duplicateAnchor "a-2" i AnchorStoreFacts.p3_state))
        = anchors AnchorStoreFacts.p3_state).
Proof.
  apply (remove_undoes_add AnchorStoreFacts.p3_state "a-2").
  simpl. intros [H|[]]. discriminate H.
Defined.

Lemma spread_idem (a : Anchor) (u : AnchorUpdates) :
  spread (spread a u) u = spread a u.
Proof.
  unfold spread. simpl.
  destruct (u_label u), (u_position u), (u_rotation u), (u_direction u),
    (u_connectionAxis u), (u_compatibleWith u); reflexivity.
Qed.

(** The update that names no field. *)
Definition noUpdates : AnchorUpdates :=
  mkUpdates None None None None None None.

(** X4. [updateAnchor] edits in place: it never changes the number of
    anchors, nor the id or the type of any anchor; with no field to merge it
    changes nothing; and applying the same update twice is the same as
    applying it once. *)
Theorem updateAnchor_in_place (state : AnchorState) (i : string)
    (updates : AnchorUpdates) :
  length (anchors (updateAnchor i updates state)) = length (anchors state)
  /\ List.map id (anchors (updateAnchor i updates state))
     = List.map id (anchors state)
  /\ List.map type (anchors (updateAnchor i updates state))
     = List.map type (anchors state)
  /\ updateAnchor i noUpdates state = state
  /\ updateAnchor i updates (updateAnchor i updates state)
     = updateAnchor i updates state.
Proof.
  destruct state as [l sel]. unfold updateAnchor. simpl.
  split; [apply List.length_map|].
  split; [apply AnchorStoreFacts.map_update_ids|].
  split; [|split].
  - induction l as [|b l IH]; simpl; [reflexivity|].
    rewrite IH. destruct (hasId i b); reflexivity.
  - f_equal. induction l as [|b l IH]; simpl; [reflexivity|].
    rewrite IH. destruct (hasId i b); [destruct b|]; reflexivity.
  - f_equal. induction l as [|b l IH]; simpl; [reflexivity|].
    rewrite IH. f_equal. destruct (hasId i b) eqn:E.
    + change (hasId i (spread b updates)) with (hasId i b). rewrite E.
      apply spread_idem.
    + rewrite E. reflexivity.
Qed.

(** X5. [removeAnchor] removes every anchor with the id: afterwards no
    anchor has it and the selection is not it, and removing the same id
    again changes nothing. *)
Theorem removeAnchor_complete (state : AnchorState) (i : string) :
  ~ In i (ids (removeAnchor i state))
  /\ selectedAnchorId (removeAnchor i state) <> Some i
  /\ removeAnchor i (removeAnchor i state) = removeAnchor i state.
Proof.
  assert (Hgone : ~ In i (ids (removeAnchor i state))).
  { unfold ids. simpl. rewrite filter_remove_ids. intros H.
    apply filter_In in H. destruct H as [_ H].
    rewrite String.eqb_refl in H. discriminate H. }
  split; [exact Hgone|]. split.
  - simpl. destruct (selectedAnchorId state) as [s|]; [|discriminate].
    destruct (String.eqb_spec s i); [discriminate|congruence].
  - unfold removeAnchor at 1.
    rewrite AnchorStoreFacts.filter_remove_absent by exact Hgone.
    unfold removeAnchor. simpl. f_equal.
    destruct (selectedAnchorId state) as [s|]; [|reflexivity].
    destruct (String.eqb s i) eqn:E; [reflexivity|].
    rewrite E. reflexivity.
Qed.

(** X6. The catalogue is consistent: [defaultCompatible] is never empty,
    it is symmetric (a type lists another exactly when the other lists it),
    and it only joins an output to an input. *)
Theorem catalogue_consistent (t u : AnchorType) :
  defaultCompatible (ANCHOR_TYPE_INFO t) <> []
  /\ (In u (defaultCompatible (ANCHOR_TYPE_INFO t))
      <-> In t (defaultCompatible (ANCHOR_TYPE_INFO u)))
  /\ (In u (defaultCompatible (ANCHOR_TYPE_INFO t)) ->
      info_direction (ANCHOR_TYPE_INFO t) <> info_direction (ANCHOR_TYPE_INFO u)).
Proof.
  split; [destruct t; discriminate|]. split.
  - destruct t, u; simpl; split; intros H;
      (solve [auto]
       || (repeat (destruct H as [H|H]); try discriminate H; contradiction)).
  - destruct t, u; simpl; intros H;
      repeat (destruct H as [H|H]); try discriminate H; try contradiction;
      discriminate.
Qed.

End AnchorStoreMore.

(** ** Decimal rendering *)

Module NumberFacts.

(** No character of the string is a minus sign. *)
Fixpoint noDash (s : string) : Prop :=
  match s with
  | EmptyString => True
  | String c s' => c <> "-"%char /\ noDash s'
  end.

Lemma noDash_uint (d : Decimal.uint) : noDash (NilEmpty.string_of_uint d).
Proof. induction d; simpl; auto; split; auto; discriminate. Qed.

Lemma noDash_nat (n : nat) : noDash (Number_toString (Z.of_nat n)).
Proof.
  unfold Number_toString. destruct (Z.of_nat n) as [|p|p] eqn:E; simpl.
  - split; [discriminate|exact I].
  - pose proof (noDash_uint (Pos.to_uint p)) as H.
    destruct (Pos.to_uint p); simpl in *;
      [split; [discriminate|exact I] | tauto ..].
  - lia.
Qed.

(** Two strings without a minus sign that are followed by one are equal as
    soon as the whole strings are. *)
Lemma dash_split (s1 s2 t1 t2 : string) :
  noDash s1 -> noDash s2 ->
  String.append s1 (String "-" t1) = String.append s2 (String "-" t2) ->
  s1 = s2.
Proof.
  revert s2. induction s1 as [|c s1 IH]; intros [|d s2]; simpl.
  - reflexivity.
  - intros _ [Hd _] [= E _]. congruence.
  - intros [Hc _] _ [= E _]. congruence.
  - intros [_ H1] [_ H2] [= -> E]. f_equal. apply IH; assumption.
Qed.

(** The rendering tells integers apart. *)
Lemma Number_toString_inj (a b : Z) :
  Number_toString a = Number_toString b -> a = b.
Proof.
  unfold Number_toString. intros E.
  assert (Hn : forall z, Z.to_int z <> Decimal.Pos Decimal.Nil
                         /\ Z.to_int z <> Decimal.Neg Decimal.Nil).
  { intros [|p|p]; simpl; split; try discriminate; intros [= H];
      apply (DecimalPos.Unsigned.to_uint_nonnil _ H). }
  apply DecimalZ.to_int_inj.
  assert (Some (Z.to_int a) = Some (Z.to_int b)) as [= ->]; [|reflexivity].
  rewrite <- (NilZero.isi (Z.to_int a)) by apply Hn.
  rewrite <- (NilZero.isi (Z.to_int b)) by apply Hn.
  rewrite E. reflexivity.
Qed.

End NumberFacts.

(** ** More on the anchors of the product form *)

Module ProductFormMore.
Import AnchorStore ProductForm.

(** A persisted anchor that the form reads without falling back on a
    default: the label is not empty and the optional fields are there. *)
Definition complete (ap : BackendAnchorPoint) : Prop :=
  label ap <> ""
  /\ direction ap <> None
  /\ connection_axis ap <> None
  /\ compatible_types ap <> None.

Lemma toBackend_fromBackend (now : nat -> Z) (index : nat)
    (ap : BackendAnchorPoint) :
  complete ap -> toBackend (fromBackend now index ap) = ap.
Proof.
  destruct ap as [n l [px py pz] [rx ry rz] d c t].
  unfold complete; simpl. intros (Hl & Hd & Hc & Ht).
  unfold toBackend, fromBackend; simpl.
  destruct (String.eqb_spec l ""); [contradiction|].
  destruct d; [|contradiction]. destruct c; [|contradiction].
  destruct t; [|contradiction]. reflexivity.
Qed.

(** X7. Opening a product in the form and saving it without touching the
    anchors sends back the persisted anchors unchanged, provided every one
    of them has a label and its direction, connection axis and compatible
    types. *)
Theorem save_after_load (now : nat -> Z) (points : list BackendAnchorPoint) :
  Forall complete points ->
  serializeAnchors (parseAnchors now (Some points)) = points.
Proof.
  intros H. unfold serializeAnchors.
  transitivity (toBackend <$> imap (fromBackend now) points).
  { destruct points; reflexivity. }
  rewrite fmap_imap.
  transitivity (imap (fun _ ap => ap) points).
  - apply imap_ext. intros i ap Hi. simpl. apply toBackend_fromBackend.
    rewrite Forall_forall in H. apply H.
    eapply list_elem_of_lookup_2. exact Hi.
  - clear H. induction points as [|ap points IH]; [reflexivity|].
    rewrite imap_cons. f_equal. exact IH.
Qed.

(** A persisted CPU socket. *)
Definition persistedSocket : BackendAnchorPoint :=
  mkBackendAnchorPoint cpu_socket "CPU Socket 1"
    (Wire.mkXYZ 2 0 0) (Wire.mkXYZ 0 0 0)
    (Some output) (Some Y_NEG) (Some [cpu_bottom]).

Lemma save_after_load_witness :
  serializeAnchors (parseAnchors (fun _ => 7%Z) (Some [persistedSocket]))
  = [persistedSocket].
Proof.
  apply (save_after_load (fun _ => 7%Z) [persistedSocket]).
  constructor; [|constructor].
  unfold complete; simpl. repeat split; discriminate.
Defined.

Lemma anchorId_inj (i j : nat) (n m : Z) :
  anchorId i n = anchorId j m -> i = j.
Proof.
  unfold anchorId. simpl. intros [= E].
  apply NumberFacts.dash_split in E; try apply NumberFacts.noDash_nat.
  apply NumberFacts.Number_toString_inj in E. lia.
Qed.

Lemma parseAnchors_imap (now : nat -> Z)
    (points : option (list BackendAnchorPoint)) :
  parseAnchors now points = imap (fromBackend now) (default [] points).
Proof. destruct points as [[|ap l]|]; reflexivity. Qed.

(** X8. The form builds one anchor for each persisted anchor (none when the
    product has no [anchor_points]), and gives them pairwise different ids,
    even when [Date.now()] returns the same time for all of them. *)
Theorem parsed_ids_distinct (now : nat -> Z)
    (points : option (list BackendAnchorPoint)) :
  length (parseAnchors now points) = length (default [] points)
  /\ NoDup (List.map id (parseAnchors now points)).
Proof.
  rewrite parseAnchors_imap. split; [apply length_imap|].
  change (NoDup (id <$> imap (fromBackend now) (default [] points))).
  rewrite fmap_imap. apply NoDup_alt. intros i j x.
  rewrite !list_lookup_imap.
  destruct (default [] points !! i); [|discriminate].
  destruct (default [] points !! j); [|discriminate].
  intros E1 E2.
  assert (E : Some (anchorId i (now i)) = Some (anchorId j (now j)))
    by (etransitivity; [exact E1 | symmetry; exact E2]).
  apply (inj Some) in E. eapply anchorId_inj. exact E.
Qed.

End ProductFormMore.

(** ** Duplicating twice *)

Module AnchorStoreCompose.
Import AnchorStore.

(** The default label with the number [k]. *)
Definition numberedLabel (t : AnchorType) (k : nat) : string :=
  String.append (info_label (ANCHOR_TYPE_INFO t))
    (String.append " " (Number_toString (Z.of_nat k))).

Lemma getDefaultLabel_numbered (t : AnchorType) (l : list Anchor) :
  getDefaultLabel t l
  = numberedLabel t (length (List.filter (sameType t) l) + 1).
Proof. reflexivity. Qed.

Lemma append_inj_r (p s t : string) :
  String.append p s = String.append p t -> s = t.
Proof.
  induction p as [|c p IH]; simpl; [auto|]. intros [= E]. auto.
Qed.

Lemma numberedLabel_inj (t : AnchorType) (j k : nat) :
  numberedLabel t j = numberedLabel t k -> j = k.
Proof.
  unfold numberedLabel. intros E.
  apply append_inj_r, append_inj_r, NumberFacts.Number_toString_inj in E.
  lia.
Qed.

Lemma count_snoc_same (t : AnchorType) (l : list Anchor) (c : Anchor) :
  type c = t ->
  length (List.filter (sameType t) (l ++ [c]))
  = (length (List.filter (sameType t) l) + 1)%nat.
Proof.
  intros E. rewrite List.filter_app, List.length_app. simpl.
  unfold sameType at 2. rewrite bool_decide_eq_true_2 by exact E.
  reflexivity.
Qed.

(** The anchor that [duplicateAnchor] appends for a found [anchor]. *)
Definition cloneOf (uuid : string) (anchor : Anchor) (existing : list Anchor)
  : Anchor :=
  {| id := uuid;
     type := type anchor;
     label := getDefaultLabel (type anchor) existing;
     position := (at0 (position anchor) + 1, at1 (position anchor),
                  at2 (position anchor))%R;
     rotation := rotation anchor;
     direction := direction anchor;
     connectionAxis := connectionAxis anchor;
     compatibleWith := compatibleWith anchor |}.

Lemma duplicateAnchor_found (state : AnchorState) (X uuid : string)
    (anchor : Anchor) :
  List.find (hasId X) (anchors state) = Some anchor ->
  duplicateAnchor uuid X state
  = {| anchors := anchors state ++ [cloneOf uuid anchor (anchors state)];
       selectedAnchorId := Some uuid |}.
Proof. intros H. unfold duplicateAnchor. rewrite H. reflexivity. Qed.

(** X9. Duplicating the same anchor twice puts the two clones on top of
    each other: both are appended, in order, at the source position moved
    by +1 on the first axis, with the type, rotation, direction, connection
    axis and compatible types of the source; their ids are the two values
    [uuidv4()] returned and their labels are numbered n + 1 and n + 2, for
    n anchors of the type before, so the labels differ; nothing else tells
    the clones apart, and the second clone is the one selected. *)
Theorem duplicate_twice_overlaps (state : AnchorState) (X u1 u2 : string)
    (anchor : Anchor) :
  List.find (hasId X) (anchors state) = Some anchor ->
  exists c1 c2,
    anchors (duplicateAnchor u2 X (duplicateAnchor u1 X state))
    = anchors state ++ [c1; c2]
    /\ id c1 = u1 /\ id c2 = u2
    /\ position c1 = position c2
    /\ position c1
       = (at0 (position anchor) + 1, at1 (position anchor),
          at2 (position anchor))%R
    /\ label c1
       = numberedLabel (type anchor)
           (length (List.filter (sameType (type anchor)) (anchors state)) + 1)
    /\ label c2
       = numberedLabel (type anchor)
           (length (List.filter (sameType (type anchor)) (anchors state)) + 2)
    /\ label c1 <> label c2
    /\ (type c1 = type anchor /\ type c2 = type anchor)
    /\ (rotation c1 = rotation anchor /\ rotation c2 = rotation anchor)
    /\ (direction c1 = direction anchor /\ direction c2 = direction anchor)
    /\ (connectionAxis c1 = connectionAxis anchor
        /\ connectionAxis c2 = connectionAxis anchor)
    /\ (compatibleWith c1 = compatibleWith anchor
        /\ compatibleWith c2 = compatibleWith anchor)
    /\ c2 = {| id := u2; type := type c1; label := label c2;
               position := position c1; rotation := rotation c1;
               direction := direction c1;
               connectionAxis := connectionAxis c1;
               compatibleWith := compatibleWith c1 |}
    /\ selectedAnchorId (duplicateAnchor u2 X (duplicateAnchor u1 X state))
       = Some u2.
Proof.
  intros Hfind.
  rewrite (duplicateAnchor_found state X u1 anchor Hfind).
  rewrite (duplicateAnchor_found _ X u2 anchor)
    by (apply AnchorStoreMore.find_hasId_app_l; exact Hfind).
  cbn [anchors selectedAnchorId]. eexists. eexists.
  rewrite <- List.app_assoc. cbn [app].
  split; [reflexivity|]. unfold cloneOf.
  cbn [id position label type rotation direction connectionAxis
       compatibleWith].
  rewrite !getDefaultLabel_numbered.
  rewrite count_snoc_same by reflexivity.
  repeat split.
  - f_equal; lia.
  - intros E. apply numberedLabel_inj in E. lia.
Qed.

Lemma duplicate_twice_overlaps_witness :
  exists c1 c2,
    anchors (duplicateAnchor "a-3" "a-1"
               (duplicateAnchor "a-2" "a-1" AnchorStoreFacts.p3_state))
    = anchors AnchorStoreFacts.p3_state ++ [c1; c2]
    /\ id c1 = "a-2" /\ id c2 = "a-3"
    /\ position c1 = position c2
    /\ label c1 <> label c2
    /\ c2 = {| id := "a-3"; type := type c1; label := label c2;
               position := position c1; rotation := rotation c1;
               direction := direction c1;
               connectionAxis := connectionAxis c1;
               compatibleWith := compatibleWith c1 |}.
Proof.
  destruct (duplicate_twice_overlaps AnchorStoreFacts.p3_state
              "a-1" "a-2" "a-3" AnchorStoreFacts.p3_anchor eq_refl)
    as (c1 & c2 & H & Hi1 & Hi2 & Hp & _ & _ & _ & Hl & _ & _ & _ & _ & _
        & Hc & _).
  exists c1, c2. auto 10.
Defined.

End AnchorStoreCompose.

(** ** More on the placement composer *)

Module ComposerMore.
Import AnchorStore BuilderView BuilderCanvas ComposerFacts.
Local Open Scope R_scope.

Ltac key_cases :=
  split;
  [ intros Hkey; first [ left; split; eexists; reflexivity
                       | left; eexists; reflexivity
                       | right; exact Hkey ]
  | intros [Hkey|Hkey];
    first [ eexists; reflexivity
          | exact Hkey
          | destruct Hkey as [[? Hkey] [? Hkey']]; discriminate
          | destruct Hkey as [? Hkey]; discriminate ] ].

(** When an edge writes its key. *)
Lemma placeMotherboard_key (c m : option SelectedComponent)
    (t : gmap string ComponentTransform) :
  is_Some (placeMotherboard c m t !! "motherboard")
  <-> (is_Some c /\ is_Some m) \/ is_Some (t !! "motherboard").
Proof.
  unfold placeMotherboard.
  destruct c, m; repeat case_match; rewrite ?lookup_insert_eq;
    key_cases.
Qed.

Lemma placeCpu_key (m p : option SelectedComponent)
    (t : gmap string ComponentTransform) :
  is_Some (placeCpu m p t !! "cpu")
  <-> (is_Some m /\ is_Some p) \/ is_Some (t !! "cpu").
Proof.
  unfold placeCpu.
  destruct m, p; repeat case_match; rewrite ?lookup_insert_eq;
    key_cases.
Qed.

Lemma placeCooler_key (p k : option SelectedComponent)
    (t : gmap string ComponentTransform) :
  is_Some (placeCooler p k t !! "cpu_cooler")
  <-> (is_Some p /\ is_Some k) \/ is_Some (t !! "cpu_cooler").
Proof.
  unfold placeCooler.
  destruct p, k; repeat case_match; rewrite ?lookup_insert_eq;
    key_cases.
Qed.

Lemma placeGpu_key (m g : option SelectedComponent)
    (t : gmap string ComponentTransform) :
  is_Some (placeGpu m g t !! "gpu")
  <-> (is_Some m /\ is_Some g) \/ is_Some (t !! "gpu").
Proof.
  unfold placeGpu.
  destruct m, g; repeat case_match; rewrite ?lookup_insert_eq;
    key_cases.
Qed.

Lemma placePsu_key (c p : option SelectedComponent)
    (t : gmap string ComponentTransform) :
  is_Some (placePsu c p t !! "psu")
  <-> (is_Some c /\ is_Some p) \/ is_Some (t !! "psu").
Proof.
  unfold placePsu.
  destruct c, p; repeat case_match; rewrite ?lookup_insert_eq;
    key_cases.
Qed.

Lemma placeStorage_key (c m s : option SelectedComponent)
    (t : gmap string ComponentTransform) :
  is_Some (placeStorage c m s t !! "storage")
  <-> is_Some s \/ is_Some (t !! "storage").
Proof.
  unfold placeStorage.
  destruct s; repeat case_match; rewrite ?lookup_insert_eq;
    key_cases.
Qed.

Lemma rootTransforms_lookup (key : string) :
  key <> "case" -> rootTransforms !! key = None.
Proof.
  intros H. unfold rootTransforms.
  rewrite lookup_insert_ne by congruence. apply lookup_empty.
Qed.

Lemma not_is_Some_None {A : Type} (P : Prop) :
  P \/ is_Some (@None A) <-> P.
Proof. split; [intros [H|[? H]]; [exact H|discriminate H] | auto]. Qed.

(** X10. Which parts the composer places.  The case is always placed, at
    the origin without rotation, even when no case is selected.  The
    motherboard and the PSU are placed exactly when they are selected
    together with a case, the CPU and the GPU exactly when selected together
    with a motherboard, the cooler exactly when selected together with a
    CPU, and the storage whenever it is selected.  No other key is ever
    written. *)
Theorem placed_parts (sel : list StepComponent) :
  componentTransforms sel !! "case"
  = Some (mkTransform (THREE.mkVector3 0 0 0) (THREE.mkEuler 0 0 0))
  /\ (is_Some (componentTransforms sel !! "motherboard")
      <-> is_Some (findStep "case" sel) /\ is_Some (findStep "motherboard" sel))
  /\ (is_Some (componentTransforms sel !! "cpu")
      <-> is_Some (findStep "motherboard" sel) /\ is_Some (findStep "cpu" sel))
  /\ (is_Some (componentTransforms sel !! "cpu_cooler")
      <-> is_Some (findStep "cpu" sel) /\ is_Some (findStep "cpu_cooler" sel))
  /\ (is_Some (componentTransforms sel !! "gpu")
      <-> is_Some (findStep "motherboard" sel) /\ is_Some (findStep "gpu" sel))
  /\ (is_Some (componentTransforms sel !! "psu")
      <-> is_Some (findStep "case" sel) /\ is_Some (findStep "psu" sel))
  /\ (is_Some (componentTransforms sel !! "storage")
      <-> is_Some (findStep "storage" sel))
  /\ (forall key,
        is_Some (componentTransforms sel !! key) ->
        In key ["case"; "motherboard"; "cpu"; "cpu_cooler"; "gpu"; "psu";
                "storage"]).
Proof.
  unfold componentTransforms. fold rootTransforms.
  split; [|split; [|split; [|split; [|split; [|split; [|split]]]]]].
  - rewrite placeStorage_other, placePsu_other, placeGpu_other,
      placeCooler_other, placeCpu_other, placeMotherboard_other by discriminate.
    apply lookup_insert_eq.
  - rewrite placeStorage_other, placePsu_other, placeGpu_other,
      placeCooler_other, placeCpu_other by discriminate.
    rewrite placeMotherboard_key, rootTransforms_lookup by discriminate.
    apply not_is_Some_None.
  - rewrite placeStorage_other, placePsu_other, placeGpu_other,
      placeCooler_other by discriminate.
    rewrite placeCpu_key, placeMotherboard_other, rootTransforms_lookup
      by discriminate.
    apply not_is_Some_None.
  - rewrite placeStorage_other, placePsu_other, placeGpu_other by discriminate.
    rewrite placeCooler_key, placeCpu_other, placeMotherboard_other,
      rootTransforms_lookup by discriminate.
    apply not_is_Some_None.
  - rewrite placeStorage_other, placePsu_other by discriminate.
    rewrite placeGpu_key, placeCooler_other, placeCpu_other,
      placeMotherboard_other, rootTransforms_lookup by discriminate.
    apply not_is_Some_None.
  - rewrite placeStorage_other by discriminate.
    rewrite placePsu_key, placeGpu_other, placeCooler_other, placeCpu_other,
      placeMotherboard_other, rootTransforms_lookup by discriminate.
    apply not_is_Some_None.
  - rewrite placeStorage_key, placePsu_other, placeGpu_other,
      placeCooler_other, placeCpu_other, placeMotherboard_other,
      rootTransforms_lookup by discriminate.
    apply not_is_Some_None.
  - intros key Hkey. simpl.
    destruct (decide (key = "case")); [auto|].
    destruct (decide (key = "motherboard")); [auto|].
    destruct (decide (key = "cpu")); [auto|].
    destruct (decide (key = "cpu_cooler")); [auto|].
    destruct (decide (key = "gpu")); [auto 6|].
    destruct (decide (key = "psu")); [auto 7|].
    destruct (decide (key = "storage")); [auto 8|].
    exfalso.
    rewrite placeStorage_other, placePsu_other, placeGpu_other,
      placeCooler_other, placeCpu_other, placeMotherboard_other,
      rootTransforms_lookup in Hkey by assumption.
    destruct Hkey as [? Hkey]. discriminate Hkey.
Qed.

(** Skip the edges that do not write the key that is read. *)
Ltac skip_edges :=
  repeat first
    [ rewrite placeStorage_other by discriminate
    | rewrite placePsu_other by discriminate
    | rewrite placeGpu_other by discriminate
    | rewrite placeCooler_other by discriminate
    | rewrite placeCpu_other by discriminate
    | rewrite placeMotherboard_other by discriminate ].

(** Where an edge puts a child that is to meet the point [target] of the
    scene: at the target, moved back by the offset of the child's own
    anchor turned by [turn] when the child has that anchor. *)
Definition seatAt (target : THREE.Vector3) (childAnchor : option Anchor)
    (turn : THREE.Euler) : THREE.Vector3 :=
  match childAnchor with
  | Some childAnchor =>
      THREE.sub target
        (THREE.applyEuler (scaled (AnchorStore.position childAnchor)) turn)
  | None => target
  end.

(** X11. The CPU is placed from its socket: when the motherboard has a
    [cpu_socket] anchor, the CPU takes the rotation the motherboard ends up
    with and goes to the socket's point in the motherboard's final
    transform, moved back by the offset of the CPU's [cpu_bottom] anchor
    (when it has one) turned like the motherboard. *)
Theorem cpu_placed_from_socket (sel : list StepComponent)
    (moboC cpuC : SelectedComponent) (socket : Anchor) :
  findStep "motherboard" sel = Some moboC ->
  findStep "cpu" sel = Some cpuC ->
  findType cpu_socket (convertApiAnchors (anchor_points moboC)) = Some socket ->
  let moboTransform := transformOr (componentTransforms sel) "motherboard" in
  componentTransforms sel !! "cpu"
  = Some (mkTransform
            (seatAt (placeLocal moboTransform (AnchorStore.position socket))
                    (findType cpu_bottom
                       (convertApiAnchors (anchor_points cpuC)))
                    (rotation moboTransform))
            (rotation moboTransform)).
Proof.
  intros Hmobo Hcpu Hsock moboTransform. unfold moboTransform.
  destruct (motherboard_transform_stable sel None None) as [<- _].
  rewrite componentTransforms_cpu, Hmobo, Hcpu.
  unfold placeCpu. rewrite Hsock. cbv zeta.
  rewrite lookup_insert_eq. unfold seatAt, placeLocal.
  destruct (findType cpu_bottom (convertApiAnchors (anchor_points cpuC)));
    reflexivity.
Qed.

Lemma cpu_placed_from_socket_witness :
  let moboTransform :=
    transformOr (componentTransforms p1_selection) "motherboard" in
  componentTransforms p1_selection !! "cpu"
  = Some (mkTransform
            (seatAt (placeLocal moboTransform (2, 0, 0))
                    (findType cpu_bottom
                       (convertApiAnchors (anchor_points p1_cpu)))
                    (rotation moboTransform))
            (rotation moboTransform)).
Proof.
  apply (cpu_placed_from_socket p1_selection p1_mobo p1_cpu
           (convertApiAnchor (apiAnchor cpu_socket "CPU Socket 1"
                                (Wire.mkXYZ 2 0 0) (Wire.mkXYZ 0 0 0))));
    reflexivity.
Defined.

Lemma cpu_transform_stable (sel : list StepComponent) :
  transformOr
    (placeCpu (findStep "motherboard" sel) (findStep "cpu" sel)
       (placeMotherboard (findStep "case" sel) (findStep "motherboard" sel)
                         rootTransforms))
    "cpu"
  = transformOr (componentTransforms sel) "cpu".
Proof.
  unfold transformOr, componentTransforms. fold rootTransforms.
  skip_edges. reflexivity.
Qed.

(** X12. The cooler is placed from the CPU's plate: when the CPU has a
    [cooler_plate] anchor, the cooler's rotation is the rotation the CPU
    ends up with plus the plate's, component by component, and the cooler
    goes to the plate's point in the CPU's final transform, moved back by
    the offset of the cooler's [cooler_base] anchor (when it has one) turned
    by the cooler's own rotation. *)
Theorem cooler_placed_from_plate (sel : list StepComponent)
    (cpuC coolerC : SelectedComponent) (coolerPlate : Anchor) :
  findStep "cpu" sel = Some cpuC ->
  findStep "cpu_cooler" sel = Some coolerC ->
  findType cooler_plate (convertApiAnchors (anchor_points cpuC))
  = Some coolerPlate ->
  let cpuTransform := transformOr (componentTransforms sel) "cpu" in
  let coolerRotation :=
    eulerPlus (rotation cpuTransform) (AnchorStore.rotation coolerPlate) in
  componentTransforms sel !! "cpu_cooler"
  = Some (mkTransform
            (seatAt (placeLocal cpuTransform (AnchorStore.position coolerPlate))
                    (findType cooler_base
                       (convertApiAnchors (anchor_points coolerC)))
                    coolerRotation)
            coolerRotation).
Proof.
  intros Hcpu Hcooler Hplate cpuTransform coolerRotation.
  unfold coolerRotation, cpuTransform.
  rewrite <- cpu_transform_stable.
  unfold componentTransforms. fold rootTransforms. skip_edges.
  rewrite Hcpu, Hcooler. unfold placeCooler. rewrite Hplate. cbv zeta.
  rewrite lookup_insert_eq. unfold seatAt, placeLocal.
  destruct (findType cooler_base (convertApiAnchors (anchor_points coolerC)));
    reflexivity.
Qed.

(** A CPU with a plate turned by a quarter turn, and a cooler. *)
Definition x12_cpu : SelectedComponent :=
  partWith "cpu-2" "CPU"
    [apiAnchor cpu_bottom "CPU Contact 1" (Wire.mkXYZ 0 0 0) (Wire.mkXYZ 0 0 0);
     apiAnchor cooler_plate "Cooler Plate 1"
               (Wire.mkXYZ 0 1 0) (Wire.mkXYZ 0 (PI / 2) 0)] None.

Definition x12_cooler : SelectedComponent :=
  partWith "cooler-1" "CPU_COOLER"
    [apiAnchor cooler_base "Cooler Base 1" (Wire.mkXYZ 0 (-3) 0)
               (Wire.mkXYZ 0 0 0)] None.

Definition x12_selection : list StepComponent :=
  [mkStepComponent "case" p1_case;
   mkStepComponent "motherboard" p1_mobo;
   mkStepComponent "cpu" x12_cpu;
   mkStepComponent "cpu_cooler" x12_cooler].

Lemma cooler_placed_from_plate_witness :
  let cpuTransform := transformOr (componentTransforms x12_selection) "cpu" in
  let coolerRotation := eulerPlus (rotation cpuTransform) (0, PI / 2, 0) in
  componentTransforms x12_selection !! "cpu_cooler"
  = Some (mkTransform
            (seatAt (placeLocal cpuTransform (0, 1, 0))
                    (findType cooler_base
                       (convertApiAnchors (anchor_points x12_cooler)))
                    coolerRotation)
            coolerRotation).
Proof.
  apply (cooler_placed_from_plate x12_selection x12_cpu x12_cooler
           (convertApiAnchor (apiAnchor cooler_plate "Cooler Plate 1"
                                (Wire.mkXYZ 0 1 0) (Wire.mkXYZ 0 (PI / 2) 0))));
    reflexivity.
Defined.

(** X13. The GPU is placed from the PCIe slot: when the motherboard has a
    [pcie_x16] anchor, the GPU's rotation is the rotation the motherboard
    ends up with plus the slot's, component by component, and the GPU goes
    to the slot's point in the motherboard's final transform, moved back by
    the offset of the GPU's [pcie_edge] anchor (when it has one) turned like
    the motherboard, not by the GPU's own rotation as on the cooler edge. *)
Theorem gpu_placed_from_slot (sel : list StepComponent)
    (moboC gpuC : SelectedComponent) (pcie : Anchor) :
  findStep "motherboard" sel = Some moboC ->
  findStep "gpu" sel = Some gpuC ->
  findType pcie_x16 (convertApiAnchors (anchor_points moboC)) = Some pcie ->
  let moboTransform := transformOr (componentTransforms sel) "motherboard" in
  componentTransforms sel !! "gpu"
  = Some (mkTransform
            (seatAt (placeLocal moboTransform (AnchorStore.position pcie))
                    (findType pcie_edge
                       (convertApiAnchors (anchor_points gpuC)))
                    (rotation moboTransform))
            (eulerPlus (rotation moboTransform) (AnchorStore.rotation pcie))).
Proof.
  intros Hmobo Hgpu Hpcie moboTransform. unfold moboTransform.
  destruct (motherboard_transform_stable sel (findStep "cpu" sel)
              (findStep "cpu_cooler" sel)) as [_ <-].
  unfold componentTransforms. fold rootTransforms. skip_edges.
  rewrite Hmobo, Hgpu. unfold placeGpu. rewrite Hpcie. cbv zeta.
  rewrite lookup_insert_eq. unfold seatAt, placeLocal.
  destruct (findType pcie_edge (convertApiAnchors (anchor_points gpuC)));
    reflexivity.
Qed.

(** A motherboard with a turned PCIe slot and an M.2 slot, a GPU and an M.2
    drive. *)
Definition x13_mobo : SelectedComponent :=
  partWith "mobo-4" "MOTHERBOARD"
    [apiAnchor pcie_x16 "PCIe x16 Slot 1"
               (Wire.mkXYZ 5 0 8) (Wire.mkXYZ 0 (PI / 2) 0);
     apiAnchor m2_slot "M.2 Slot 1" (Wire.mkXYZ 3 0 6) (Wire.mkXYZ 0 0 0)] None.

Definition x13_gpu : SelectedComponent :=
  partWith "gpu-1" "GPU"
    [apiAnchor pcie_edge "PCIe Edge 1" (Wire.mkXYZ 0 (-2) 4) (Wire.mkXYZ 0 0 0)]
    None.

Definition x13_storage : SelectedComponent :=
  partWith "ssd-1" "STORAGE"
    [apiAnchor m2_edge "M.2 Edge 1" (Wire.mkXYZ 1 0 0) (Wire.mkXYZ 0 0 0)] None.

Definition x13_selection : list StepComponent :=
  [mkStepComponent "case" p1_case;
   mkStepComponent "motherboard" x13_mobo;
   mkStepComponent "gpu" x13_gpu;
   mkStepComponent "storage" x13_storage].

Lemma gpu_placed_from_slot_witness :
  let moboTransform :=
    transformOr (componentTransforms x13_selection) "motherboard" in
  componentTransforms x13_selection !! "gpu"
  = Some (mkTransform
            (seatAt (placeLocal moboTransform (5, 0, 8))
                    (findType pcie_edge
                       (convertApiAnchors (anchor_points x13_gpu)))
                    (rotation moboTransform))
            (eulerPlus (rotation moboTransform) (0, PI / 2, 0))).
Proof.
  apply (gpu_placed_from_slot x13_selection x13_mobo x13_gpu
           (convertApiAnchor (apiAnchor pcie_x16 "PCIe x16 Slot 1"
                                (Wire.mkXYZ 5 0 8) (Wire.mkXYZ 0 (PI / 2) 0))));
    reflexivity.
Defined.

Lemma motherboard_transform_last (sel : list StepComponent) :
  transformOr
    (placePsu (findStep "case" sel) (findStep "psu" sel)
       (placeGpu (findStep "motherboard" sel) (findStep "gpu" sel)
          (placeCooler (findStep "cpu" sel) (findStep "cpu_cooler" sel)
             (placeCpu (findStep "motherboard" sel) (findStep "cpu" sel)
                (placeMotherboard (findStep "case" sel)
                   (findStep "motherboard" sel) rootTransforms)))))
    "motherboard"
  = transformOr (componentTransforms sel) "motherboard".
Proof.
  unfold transformOr, componentTransforms. fold rootTransforms.
  skip_edges. reflexivity.
Qed.

(** X14. An M.2 drive is placed from the motherboard's slot, whatever
    drive bays the case has: when the motherboard has an [m2_slot] anchor,
    the storage takes the rotation the motherboard ends up with and goes to
    the slot's point in the motherboard's final transform, moved back by the
    offset of the storage's [m2_edge] anchor (when it has one) turned like
    the motherboard. *)
Theorem storage_placed_from_m2_slot (sel : list StepComponent)
    (moboC storageC : SelectedComponent) (m2Slot : Anchor) :
  findStep "motherboard" sel = Some moboC ->
  findStep "storage" sel = Some storageC ->
  findType m2_slot (convertApiAnchors (anchor_points moboC)) = Some m2Slot ->
  let moboTransform := transformOr (componentTransforms sel) "motherboard" in
  componentTransforms sel !! "storage"
  = Some (mkTransform
            (seatAt (placeLocal moboTransform (AnchorStore.position m2Slot))
                    (findType m2_edge
                       (convertApiAnchors (anchor_points storageC)))
                    (rotation moboTransform))
            (rotation moboTransform)).
Proof.
  intros Hmobo Hstorage Hslot moboTransform. unfold moboTransform.
  rewrite <- motherboard_transform_last.
  unfold componentTransforms. fold rootTransforms.
  rewrite Hmobo, Hstorage. unfold placeStorage. rewrite Hslot. cbv zeta.
  rewrite lookup_insert_eq. unfold seatAt, placeLocal.
  destruct (findType m2_edge (convertApiAnchors (anchor_points storageC)));
    reflexivity.
Qed.

Lemma storage_placed_from_m2_slot_witness :
  let moboTransform :=
    transformOr (componentTransforms x13_selection) "motherboard" in
  componentTransforms x13_selection !! "storage"
  = Some (mkTransform
            (seatAt (placeLocal moboTransform (3, 0, 6))
                    (findType m2_edge
                       (convertApiAnchors (anchor_points x13_storage)))
                    (rotation moboTransform))
            (rotation moboTransform)).
Proof.
  apply (storage_placed_from_m2_slot x13_selection x13_mobo x13_storage
           (convertApiAnchor (apiAnchor m2_slot "M.2 Slot 1"
                                (Wire.mkXYZ 3 0 6) (Wire.mkXYZ 0 0 0))));
    reflexivity.
Defined.

(** The anchors of an optional part. *)
Definition anchorsOf (c : option SelectedComponent) : list Anchor :=
  match c with
  | Some c => convertApiAnchors (anchor_points c)
  | None => []
  end.

(** X15. Without an M.2 slot the storage is placed in the case's frame,
    not the motherboard's: when no motherboard is selected or it has no
    [m2_slot] anchor, the storage goes to the first anchor of the case that
    is a 2.5 or a 3.5 inch drive bay, at the bay's scaled position with the
    bay's rotation, and to (-2,0,0) without rotation when there is no case
    or no such bay. *)
Theorem storage_without_m2_slot (sel : list StepComponent)
    (storageC : SelectedComponent) :
  findStep "storage" sel = Some storageC ->
  findType m2_slot (anchorsOf (findStep "motherboard" sel)) = None ->
  componentTransforms sel !! "storage"
  = Some
      match List.find (fun a => sameType drive_bay_25 a || sameType drive_bay_35 a)
                      (anchorsOf (findStep "case" sel)) with
      | Some driveBay =>
          mkTransform (scaled (AnchorStore.position driveBay))
                      (eulerOf (AnchorStore.rotation driveBay))
      | None => mkTransform (THREE.mkVector3 (-2) 0 0) (THREE.mkEuler 0 0 0)
      end.
Proof.
  intros Hstorage Hm2. unfold componentTransforms. fold rootTransforms.
  rewrite Hstorage. unfold placeStorage.
  unfold anchorsOf in Hm2 |- *.
  destruct (findStep "motherboard" sel) as [moboC|].
  - rewrite Hm2. destruct (findStep "case" sel) as [caseC|];
      case_match; apply lookup_insert_eq.
  - replace (findType m2_slot []) with (@None Anchor) by reflexivity.
    destruct (findStep "case" sel) as [caseC|];
      case_match; apply lookup_insert_eq.
Qed.

(** A case with a 3.5 inch bay before a 2.5 inch bay, and a SATA drive. *)
Definition x15_case : SelectedComponent :=
  partWith "case-2" "CASE"
    [apiAnchor drive_bay_35 "3.5 Drive Bay 1" (Wire.mkXYZ 10 2 0)
               (Wire.mkXYZ 0 0 0);
     apiAnchor drive_bay_25 "2.5 Drive Bay 1" (Wire.mkXYZ 12 2 0)
               (Wire.mkXYZ 0 0 0)] None.

Definition x15_selection : list StepComponent :=
  [mkStepComponent "case" x15_case;
   mkStepComponent "motherboard" p1_mobo;
   mkStepComponent "storage" x13_storage].

Lemma storage_without_m2_slot_witness :
  componentTransforms x15_selection !! "storage"
  = Some (mkTransform (scaled (10, 2, 0)) (eulerOf (0, 0, 0))).
Proof.
  apply (storage_without_m2_slot x15_selection x13_storage); reflexivity.
Defined.

(** X16. The fallbacks of the other edges.  When the parent lacks the
    anchor of the edge, the motherboard goes to (0,1,0), the CPU to
    (0,1.5,0) and the GPU to (0,0,2), each without rotation and wherever the
    parent is; only the cooler falls back relative to its parent, half a
    unit above the CPU's place with the CPU's rotation. *)
Theorem missing_anchor_fallbacks (sel : list StepComponent) :
  (forall caseC moboC,
     findStep "case" sel = Some caseC ->
     findStep "motherboard" sel = Some moboC ->
     findType mobo_mount_area (convertApiAnchors (anchor_points caseC)) = None ->
     componentTransforms sel !! "motherboard"
     = Some (mkTransform (THREE.mkVector3 0 1 0) (THREE.mkEuler 0 0 0)))
  /\ (forall moboC cpuC,
        findStep "motherboard" sel = Some moboC ->
        findStep "cpu" sel = Some cpuC ->
        findType cpu_socket (convertApiAnchors (anchor_points moboC)) = None ->
        componentTransforms sel !! "cpu"
        = Some (mkTransform (THREE.mkVector3 0 1.5 0) (THREE.mkEuler 0 0 0)))
  /\ (forall moboC gpuC,
        findStep "motherboard" sel = Some moboC ->
        findStep "gpu" sel = Some gpuC ->
        findType pcie_x16 (convertApiAnchors (anchor_points moboC)) = None ->
        componentTransforms sel !! "gpu"
        = Some (mkTransform (THREE.mkVector3 0 0 2) (THREE.mkEuler 0 0 0)))
  /\ (forall cpuC coolerC,
        findStep "cpu" sel = Some cpuC ->
        findStep "cpu_cooler" sel = Some coolerC ->
        findType cooler_plate (convertApiAnchors (anchor_points cpuC)) = None ->
        let cpuTransform := transformOr (componentTransforms sel) "cpu" in
        componentTransforms sel !! "cpu_cooler"
        = Some (mkTransform
                  (THREE.mkVector3 (THREE.x (position cpuTransform))
                                   (THREE.y (position cpuTransform) + 0.5)
                                   (THREE.z (position cpuTransform)))
                  (rotation cpuTransform))).
Proof.
  split; [|split; [|split]].
  - intros caseC moboC Hcase Hmobo Hnone.
    rewrite componentTransforms_motherboard, Hcase, Hmobo.
    unfold placeMotherboard. rewrite Hnone. apply lookup_insert_eq.
  - intros moboC cpuC Hmobo Hcpu Hnone.
    rewrite componentTransforms_cpu, Hmobo, Hcpu.
    unfold placeCpu. rewrite Hnone. apply lookup_insert_eq.
  - intros moboC gpuC Hmobo Hgpu Hnone.
    unfold componentTransforms. fold rootTransforms. skip_edges.
    rewrite Hmobo, Hgpu. unfold placeGpu. rewrite Hnone.
    apply lookup_insert_eq.
  - intros cpuC coolerC Hcpu Hcooler Hnone cpuTransform.
    unfold cpuTransform. rewrite <- cpu_transform_stable.
    unfold componentTransforms. fold rootTransforms. skip_edges.
    rewrite Hcpu, Hcooler. unfold placeCooler. rewrite Hnone.
    cbv zeta. apply lookup_insert_eq.
Qed.

(** The P1 selection with a GPU: the P1 motherboard has no PCIe slot. *)
Definition x16_selection : list StepComponent :=
  p1_selection ++ [mkStepComponent "gpu" x13_gpu].

Lemma missing_anchor_fallbacks_witness :
  componentTransforms x16_selection !! "gpu"
  = Some (mkTransform (THREE.mkVector3 0 0 2) (THREE.mkEuler 0 0 0)).
Proof.
  apply (proj1 (proj2 (proj2 (missing_anchor_fallbacks x16_selection)))
           p1_mobo x13_gpu);
    reflexivity.
Defined.

Lemma find_stepId_perm (key : string) (l l' : list StepComponent) :
  NoDup (List.map stepId l) -> Permutation l l' ->
  List.find (fun c => String.eqb (stepId c) key) l
  = List.find (fun c => String.eqb (stepId c) key) l'.
Proof.
  intros Hnd Hp. induction Hp as [|x l l' Hp IH|x y l|l l' l'' Hp1 IH1 Hp2 IH2].
  - reflexivity.
  - simpl. apply NoDup_cons_1_2 in Hnd. rewrite IH by exact Hnd. reflexivity.
  - simpl. destruct (String.eqb_spec (stepId x) key) as [Ex|Ex];
      destruct (String.eqb_spec (stepId y) key) as [Ey|Ey]; try reflexivity.
    exfalso. simpl in Hnd. apply NoDup_cons_1_1 in Hnd. apply Hnd.
    rewrite Ey, <- Ex. apply list_elem_of_here.
  - rewrite IH1 by exact Hnd. apply IH2.
    assert (Hmap : List.map stepId l ≡ₚ List.map stepId l')
      by (apply Permutation_map; exact Hp1).
    rewrite <- Hmap. exact Hnd.
Qed.

(** X17. The order of the selection does not matter: for a selection in
    which no two components have the same step id (the entries of a build
    state), listing the components in another order gives the same
    transforms and the same RAM modules. *)
Theorem order_does_not_matter (sel sel' : list StepComponent) :
  NoDup (List.map stepId sel) ->
  Permutation sel sel' ->
  componentTransforms sel = componentTransforms sel'
  /\ forall localeCompare ram,
       renderRamModules localeCompare sel ram
       = renderRamModules localeCompare sel' ram.
Proof.
  intros Hnd Hp.
  assert (Hfind : forall key, findStep key sel = findStep key sel').
  { intros key. unfold findStep.
    rewrite (find_stepId_perm key sel sel' Hnd Hp). reflexivity. }
  assert (E : componentTransforms sel = componentTransforms sel').
  { unfold componentTransforms. rewrite !Hfind. reflexivity. }
  split; [exact E|]. intros localeCompare ram.
  unfold renderRamModules. rewrite E, Hfind. reflexivity.
Qed.

Lemma order_does_not_matter_witness :
  componentTransforms p1_selection = componentTransforms (rev p1_selection).
Proof.
  apply (order_does_not_matter p1_selection (rev p1_selection)).
  - simpl. repeat (apply NoDup_cons_2;
                   [rewrite ?elem_of_cons, elem_of_nil; intros H;
                    repeat (destruct H as [H|H]); try discriminate H;
                    contradiction|]).
    apply NoDup_nil_2.
  - apply Permutation_rev.
Defined.

(** *** RAM modules in general *)

Lemma fallbackLoop_seq (n : nat) (moboTransform : ComponentTransform)
    (acc : list ComponentTransform) :
  fallbackLoop n moboTransform acc
  = acc ++ List.map (fallbackTransform moboTransform) (seq (length acc) n).
Proof.
  revert acc. induction n as [|n IH]; intros acc; simpl.
  - symmetry. apply app_nil_r.
  - rewrite IH, List.length_app, <- List.app_assoc. simpl.
    replace (length acc + 1)%nat with (S (length acc)) by lia. reflexivity.
Qed.

Section AnyCollation.

Variable localeCompare : string -> string -> Z.

Lemma insertByLabel_perm (a : Anchor) (l : list Anchor) :
  Permutation (insertByLabel localeCompare a l) (a :: l).
Proof.
  induction l as [|b l IH]; simpl; [reflexivity|].
  destruct (localeCompare (AnchorStore.label a) (AnchorStore.label b) <=? 0)%Z;
    [reflexivity|].
  rewrite IH. apply perm_swap.
Qed.

Lemma sortByLabel_perm (l : list Anchor) :
  Permutation (sortByLabel localeCompare l) l.
Proof.
  induction l as [|a l IH]; simpl; [reflexivity|].
  rewrite insertByLabel_perm, IH. reflexivity.
Qed.

(** The slots [getRamTransforms] works with, sorted. *)
Definition ramSlotsOf (moboComponent : option SelectedComponent)
  : list Anchor :=
  sortByLabel localeCompare
    (List.filter (sameType ram_slot) (anchorsOf moboComponent)).

Lemma getRamTransforms_closed_form
    (transforms : gmap string ComponentTransform)
    (moboComponent : option SelectedComponent) (q : nat) :
  let moboTransform := transformOr transforms "motherboard" in
  let slots := ramSlotsOf moboComponent in
  let n := Nat.min q (length slots) in
  getRamTransforms localeCompare transforms moboComponent q
  = List.map (slotTransform moboTransform) (firstn n slots)
    ++ List.map (fallbackTransform moboTransform) (seq n (q - n)).
Proof.
  intros moboTransform slots n. unfold getRamTransforms.
  rewrite fallbackLoop_seq. fold moboTransform.
  assert (E : match moboComponent with
              | Some moboC =>
                  match anchor_points moboC with
                  | Some points =>
                      List.map (slotTransform moboTransform)
                        (firstn
                           (Nat.min q
                              (length
                                 (sortByLabel localeCompare
                                    (List.filter (sameType ram_slot)
                                       (convertApiAnchors (Some points))))))
                           (sortByLabel localeCompare
                              (List.filter (sameType ram_slot)
                                 (convertApiAnchors (Some points)))))
                  | None => []
                  end
              | None => []
              end
              = List.map (slotTransform moboTransform) (firstn n slots)).
  { unfold n, slots, ramSlotsOf, anchorsOf.
    destruct moboComponent as [moboC|];
      [destruct (anchor_points moboC)|]; try reflexivity;
      simpl; rewrite List.firstn_nil; reflexivity. }
  rewrite E. f_equal.
  assert (Hlen : length (List.map (slotTransform moboTransform) (firstn n slots))
                 = n).
  { rewrite List.length_map, List.length_firstn. unfold n. lia. }
  rewrite Hlen. reflexivity.
Qed.

(** X18. [getRamTransforms] always returns as many transforms as modules
    are asked for: the first min(quantity, slots) are those of the slots in
    sorted order, the others are the synthesized places numbered from the
    number of slots used; every one has the motherboard's rotation, and the
    slots used are the motherboard's [ram_slot] anchors and no others. *)
Theorem ram_modules_in_general
    (transforms : gmap string ComponentTransform)
    (moboComponent : option SelectedComponent) (q : nat) :
  let moboTransform := transformOr transforms "motherboard" in
  let slots := ramSlotsOf moboComponent in
  let n := Nat.min q (length slots) in
  let result := getRamTransforms localeCompare transforms moboComponent q in
  length result = q
  /\ (forall k, (k < n)%nat ->
        result !! k = slotTransform moboTransform <$> slots !! k)
  /\ (forall k, (n <= k < q)%nat ->
        result !! k = Some (fallbackTransform moboTransform k))
  /\ Forall (fun t => rotation t = rotation moboTransform) result
  /\ Permutation slots
       (List.filter (sameType ram_slot) (anchorsOf moboComponent)).
Proof.
  intros moboTransform slots n result.
  assert (E : result
              = List.map (slotTransform moboTransform) (firstn n slots)
                ++ List.map (fallbackTransform moboTransform) (seq n (q - n)))
    by apply getRamTransforms_closed_form.
  assert (Hn : length (List.map (slotTransform moboTransform) (firstn n slots))
               = n).
  { rewrite List.length_map, List.length_firstn. unfold n. lia. }
  rewrite E. split; [|split; [|split; [|split]]].
  - rewrite List.length_app, Hn, List.length_map, List.length_seq.
    unfold n. lia.
  - intros k Hk. rewrite lookup_app_l by (rewrite Hn; exact Hk).
    change (List.map (slotTransform moboTransform) (firstn n slots))
      with (slotTransform moboTransform <$> take n slots).
    rewrite list_lookup_fmap, lookup_take_lt by exact Hk. reflexivity.
  - intros k Hk. rewrite lookup_app_r by (rewrite Hn; lia). rewrite Hn.
    change (List.map (fallbackTransform moboTransform) (seq n (q - n)))
      with (fallbackTransform moboTransform <$> seq n (q - n)).
    rewrite list_lookup_fmap, lookup_seq_lt by lia.
    simpl. f_equal. f_equal. lia.
  - apply Forall_app. split; apply Forall_forall; intros t Ht;
      apply list_elem_of_In, in_map_iff in Ht; destruct Ht as (x & <- & _);
      reflexivity.
  - apply sortByLabel_perm.
Qed.

End AnyCollation.

End ComposerMore.

(** ** More on the compatibility resolver *)

Module ResolverMore.
Import BuilderView ComponentSelector.








(** The categories that [checkCompatibility] looks at. *)
Definition checkedCategories : list string :=
  ["MOTHERBOARD"; "CPU"; "RAM"; "GPU"; "CPU_COOLER"].

Lemma eqb_not_in (c d : string) (l : list string) :
  ~ In c l -> In d l -> String.eqb c d = false.
Proof.
  intros Hc Hd. destruct (String.eqb_spec c d); [subst; contradiction|].
  reflexivity.
Qed.

(** X22. Nothing to compare with, nothing refused: every product is
    compatible when the build has neither a case nor a motherboard, and at
    every step whose category is not one of MOTHERBOARD, CPU, RAM, GPU and
    CPU_COOLER (so cases, power supplies and drives are never flagged). *)
Theorem nothing_to_compare (currentStep : BuildStep) (buildState : BuildState)
    (product : Product) :
  (buildState !! "case" = None /\ buildState !! "motherboard" = None)
  \/ ~ In (step_category currentStep) checkedCategories ->
  checkCompatibility currentStep buildState product = mkVerdict true None.
Proof.
  intros [[Hc Hm]|Hcat].
  - unfold checkCompatibility, checkFormFactor, checkSocket, checkRamType,
      checkGpuLength, checkCoolerHeight.
    rewrite Hc, Hm. reflexivity.
  - unfold checkCompatibility, checkFormFactor, checkSocket, checkRamType,
      checkGpuLength, checkCoolerHeight.
    rewrite !(eqb_not_in _ _ checkedCategories Hcat) by (simpl; auto 6).
    destruct (buildState !! "case"), (buildState !! "motherboard");
      reflexivity.
Qed.

Lemma nothing_to_compare_witness :
  checkCompatibility (mkStep "psu" "PSU" "PSU" true)
    (ResolverFacts.buildWithCase (ResolverFacts.caseMaxGpu 300))
    (ResolverFacts.gpuOfLength 350)
  = mkVerdict true None.
Proof.
  apply (nothing_to_compare (mkStep "psu" "PSU" "PSU" true)).
  right. simpl. intros H. repeat (destruct H as [H|H]); try discriminate H.
  contradiction.
Defined.

(** At the motherboard step only the form factor check can return. *)
Lemma checkCompatibility_motherboard (currentStep : BuildStep)
    (buildState : BuildState) (product : Product) :
  step_category currentStep = "MOTHERBOARD" ->
  checkCompatibility currentStep buildState product
  = orElse (checkFormFactor currentStep buildState product)
           (mkVerdict true None).
Proof.
  intros Hc. unfold checkCompatibility.
  unfold checkSocket, checkRamType, checkGpuLength, checkCoolerHeight.
  rewrite !(ResolverFacts.category_eqb _ _ Hc). simpl.
  destruct (buildState !! "case"), (buildState !! "motherboard"); reflexivity.
Qed.

(** X23. The form factor gate: at the motherboard step, with a case that
    declares [supported_motherboards] and a candidate that declares a
    non-empty [form_factor], the candidate is compatible exactly when its
    form factor is in the list, and otherwise the reason is "Case doesn't
    support <form factor>"; a case with an empty list refuses every such
    candidate. *)
Theorem form_factor_gate (currentStep : BuildStep) (buildState : BuildState)
    (product : Product) (caseC : SelectedComponent) (supported : list string)
    (ff : string) :
  step_category currentStep = "MOTHERBOARD" ->
  buildState !! "case" = Some caseC ->
  attr supported_motherboards (BuilderView.technical_specs caseC)
  = Some supported ->
  attr form_factor (technical_specs product) = Some ff ->
  ff <> "" ->
  (In ff supported ->
   checkCompatibility currentStep buildState product = mkVerdict true None)
  /\ (~ In ff supported ->
      checkCompatibility currentStep buildState product
      = mkVerdict false (Some (String.append "Case doesn't support " ff))).
Proof.
  intros Hc Hcase Hsup Hff Hne.
  rewrite checkCompatibility_motherboard by exact Hc.
  unfold checkFormFactor. rewrite Hcase, Hc, Hsup, Hff. simpl.
  destruct (String.eqb_spec ff ""); [contradiction|]. simpl.
  destruct (existsb (String.eqb ff) supported) eqn:E.
  - split; [reflexivity|]. intros Hnot. exfalso. apply Hnot.
    apply existsb_exists in E. destruct E as (x & Hx & Ex).
    apply String.eqb_eq in Ex. subst. exact Hx.
  - split; [|reflexivity]. intros Hin. exfalso.
    assert (existsb (String.eqb ff) supported = true) as E'
      by (apply existsb_exists; exists ff; split;
          [exact Hin|apply String.eqb_refl]).
    congruence.
Qed.

(** A case for ATX and mATX boards, an ITX board. *)
Definition atxCase : SelectedComponent :=
  ResolverFacts.selectedWith "CASE"
    (Some (mkSpecs None None None None (Some ["ATX"; "mATX"]) None None None
                   None)).

Definition itxBoard : Product :=
  ResolverFacts.candidateWith "MOTHERBOARD"
    (Some (mkSpecs None (Some "ITX") None None None None None None None)).

Lemma form_factor_gate_witness :
  checkCompatibility (mkStep "motherboard" "Motherboard" "MOTHERBOARD" true)
    (ResolverFacts.buildWithCase atxCase) itxBoard
  = mkVerdict false (Some "Case doesn't support ITX").
Proof.
  apply (form_factor_gate (mkStep "motherboard" "Motherboard" "MOTHERBOARD" true)
           (ResolverFacts.buildWithCase atxCase) itxBoard atxCase
           ["ATX"; "mATX"] "ITX");
    try reflexivity; try discriminate.
  simpl. intros H. repeat (destruct H as [H|H]); try discriminate H.
  contradiction.
Defined.

Lemma checkCompatibility_cooler (currentStep : BuildStep)
    (buildState : BuildState) (product : Product) :
  step_category currentStep = "CPU_COOLER" ->
  checkCompatibility currentStep buildState product
  = orElse (checkCoolerHeight currentStep buildState product)
           (mkVerdict true None).
Proof.
  intros Hc. unfold checkCompatibility.
  unfold checkFormFactor, checkSocket, checkRamType, checkGpuLength.
  rewrite !(ResolverFacts.category_eqb _ _ Hc). simpl.
  destruct (buildState !! "case"), (buildState !! "motherboard"); reflexivity.
Qed.

Lemma checkCompatibility_ram (currentStep : BuildStep)
    (buildState : BuildState) (product : Product) :
  step_category currentStep = "RAM" ->
  checkCompatibility currentStep buildState product
  = orElse (checkRamType currentStep buildState product)
           (mkVerdict true None).
Proof.
  intros Hc. unfold checkCompatibility.
  unfold checkFormFactor, checkSocket, checkGpuLength, checkCoolerHeight.
  rewrite !(ResolverFacts.category_eqb _ _ Hc). simpl.
  destruct (buildState !! "case"), (buildState !! "motherboard");
    simpl; try reflexivity;
    destruct (checkRamType currentStep buildState product); reflexivity.
Qed.

(** A part of size [len] does not pass under a maximum [mx]: both numbers
    are declared, neither is zero, and the size is the larger. *)
Definition tooLarge (mx len : option Z) : Prop :=
  exists m l, mx = Some m /\ len = Some l
              /\ m <> 0%Z /\ l <> 0%Z /\ (l > m)%Z.

Lemma size_check (mx len : option Z) :
  match mx, len with
  | Some m, Some l => truthyNum (Some m) && truthyNum (Some l) && (l >? m)%Z
  | _, _ => false
  end = true
  <-> tooLarge mx len.
Proof.
  unfold tooLarge. destruct mx as [m|], len as [l|]; simpl;
    try (split; [discriminate | intros (? & ? & ? & ? & _); discriminate]).
  destruct (Z.eqb_spec m 0), (Z.eqb_spec l 0), (Z.gtb_spec l m); simpl;
    split; try discriminate; try (intros (? & ? & [= <-] & [= <-] & ? & ? & ?);
                                  (contradiction || lia)).
  intros _. exists m, l. repeat split; auto; lia.
Qed.

(** X24. The two size gates: with a case in the build, a GPU is refused
    exactly when the case declares [max_gpu_length_mm], the GPU declares
    [length_mm], neither is 0 and the length is the larger; a cooler is
    refused exactly when the same holds of [max_cpu_cooler_height_mm] and
    [height_mm].  A maximum of 0 therefore refuses nothing. *)
Theorem size_gates (currentStep : BuildStep) (buildState : BuildState)
    (product : Product) (caseC : SelectedComponent) :
  buildState !! "case" = Some caseC ->
  (step_category currentStep = "GPU" ->
   (compatible (checkCompatibility currentStep buildState product) = false
    <-> tooLarge (attr max_gpu_length_mm (BuilderView.technical_specs caseC))
                 (attr length_mm (technical_specs product))))
  /\ (step_category currentStep = "CPU_COOLER" ->
      (compatible (checkCompatibility currentStep buildState product) = false
       <-> tooLarge
             (attr max_cpu_cooler_height_mm (BuilderView.technical_specs caseC))
             (attr height_mm (technical_specs product)))).
Proof.
  intros Hcase. split; intros Hc.
  - rewrite ResolverFacts.checkCompatibility_gpu by exact Hc.
    unfold checkGpuLength. rewrite Hcase, Hc. cbn [String.eqb Ascii.eqb Bool.eqb].
    rewrite <- size_check.
    destruct (attr max_gpu_length_mm (BuilderView.technical_specs caseC))
      as [m|],
      (attr length_mm (technical_specs product)) as [l|];
      try (split; intros H; discriminate H).
    destruct (truthyNum (Some m) && truthyNum (Some l) && (l >? m)%Z);
      split; intros H; (reflexivity || discriminate H).
  - rewrite checkCompatibility_cooler by exact Hc.
    unfold checkCoolerHeight. rewrite Hcase, Hc.
    cbn [String.eqb Ascii.eqb Bool.eqb].
    rewrite <- size_check.
    destruct (attr max_cpu_cooler_height_mm (BuilderView.technical_specs caseC))
      as [m|],
      (attr height_mm (technical_specs product)) as [l|];
      try (split; intros H; discriminate H).
    destruct (truthyNum (Some m) && truthyNum (Some l) && (l >? m)%Z);
      split; intros H; (reflexivity || discriminate H).
Qed.

(** A GPU against a case whose maximum is entered as 0. *)
Lemma size_gates_witness :
  compatible
    (checkCompatibility ResolverFacts.gpuStep
       (ResolverFacts.buildWithCase (ResolverFacts.caseMaxGpu 0))
       (ResolverFacts.gpuOfLength 350))
  = false
  <-> tooLarge (Some 0%Z) (Some 350%Z).
Proof.
  apply (proj1 (size_gates ResolverFacts.gpuStep
                  (ResolverFacts.buildWithCase (ResolverFacts.caseMaxGpu 0))
                  (ResolverFacts.gpuOfLength 350)
                  (ResolverFacts.caseMaxGpu 0) eq_refl)).
  reflexivity.
Defined.

(** X25. The memory type gate: at the RAM step a module is refused exactly
    when the build has a motherboard that declares a non-empty [ram_type],
    the module declares a non-empty [type], and the two differ; the reason
    is then "RAM type mismatch (needs <ram_type>)". *)
Theorem ram_type_gate (currentStep : BuildStep) (buildState : BuildState)
    (product : Product) :
  step_category currentStep = "RAM" ->
  (compatible (checkCompatibility currentStep buildState product) = false
   <-> exists moboC mt rt,
         buildState !! "motherboard" = Some moboC
         /\ attr ram_type (BuilderView.technical_specs moboC) = Some mt
         /\ attr type (technical_specs product) = Some rt
         /\ mt <> "" /\ rt <> "" /\ mt <> rt)
  /\ (forall moboC mt,
        compatible (checkCompatibility currentStep buildState product) = false ->
        buildState !! "motherboard" = Some moboC ->
        attr ram_type (BuilderView.technical_specs moboC) = Some mt ->
        reason (checkCompatibility currentStep buildState product)
        = Some (String.append "RAM type mismatch (needs "
                  (String.append mt ")"))).
Proof.
  intros Hc. rewrite checkCompatibility_ram by exact Hc.
  unfold checkRamType. rewrite Hc. cbn [String.eqb Ascii.eqb Bool.eqb].
  destruct (buildState !! "motherboard") as [moboC|].
  2:{ split; [split|]; cbn.
      - intros H; discriminate H.
      - intros (? & ? & ? & H & _). discriminate H.
      - intros ? ? H; discriminate H. }
  destruct (attr ram_type (BuilderView.technical_specs moboC)) as [mt|] eqn:Emt.
  2:{ split; [split|]; cbn.
      - intros H; discriminate H.
      - intros (? & ? & ? & [= <-] & H & _). congruence.
      - intros ? ? H; discriminate H. }
  destruct (attr type (technical_specs product)) as [rt|] eqn:Ert.
  2:{ split; [split|]; cbn.
      - intros H; discriminate H.
      - intros (? & ? & ? & _ & _ & H & _). congruence.
      - intros ? ? H; discriminate H. }
  unfold truthyStr.
  destruct (String.eqb_spec mt "") as [Em|Em],
    (String.eqb_spec rt "") as [Er|Er],
    (String.eqb_spec mt rt) as [E|E]; cbn;
    (split; [split|]);
    try (intros H; discriminate H);
    try (intros ? ? H; discriminate H);
    try (intros (? & ? & ? & [= <-] & H1 & H2 & ? & ? & ?); congruence).
  - intros _. exists moboC, mt, rt. repeat split; auto.
  - intros moboC' mt' _ [= <-] H. congruence.
Qed.

(** A DDR5 board and a DDR4 module. *)
Definition ddr5Board : SelectedComponent :=
  ResolverFacts.selectedWith "MOTHERBOARD"
    (Some (mkSpecs None None (Some "DDR5") None None None None None None)).

Definition ddr4Module : Product :=
  ResolverFacts.candidateWith "RAM"
    (Some (mkSpecs None None None (Some "DDR4") None None None None None)).

Lemma ram_type_gate_witness :
  reason (checkCompatibility (mkStep "ram" "RAM" "RAM" true)
            (<["motherboard" := ddr5Board]> ∅) ddr4Module)
  = Some "RAM type mismatch (needs DDR5)".
Proof.
  apply (proj2 (ram_type_gate (mkStep "ram" "RAM" "RAM" true)
                  (<["motherboard" := ddr5Board]> ∅) ddr4Module eq_refl)
           ddr5Board "DDR5");
    reflexivity.
Defined.

End ResolverMore.

(** ** The backend filter, the case panels, the session and the model URL *)

Module HandlersMore.
Import Handlers.

Lemma Filter_is_filter (parent : Product) (candidates : list Product) :
  FilterBySocketCompatibility parent candidates
  = List.filter (keeps parent) candidates.
Proof.
  induction candidates as [|c l IH]; simpl; [reflexivity|].
  rewrite IH. reflexivity.
Qed.

(** The candidate declares no socket, or one that is not a string. *)
Definition noStringSocket (c : Product) : bool :=
  match TechnicalSpecs c !! "socket" with
  | Some (GoString _) => false
  | _ => true
  end.

(** X26. [FilterBySocketCompatibility] only drops candidates: the result
    is a subsequence of the candidates, each candidate is judged on its own
    (the filter of a concatenation is the concatenation of the filters) and
    filtering again changes nothing.  A candidate whose category is a
    compatible type of some anchor of the parent is kept whatever socket it
    declares, and a parent whose anchors list no compatible type keeps
    exactly the candidates without a string socket. *)
Theorem filter_only_drops (parent : Product) (candidates : list Product) :
  sublist (FilterBySocketCompatibility parent candidates) candidates
  /\ (forall more,
        FilterBySocketCompatibility parent (candidates ++ more)
        = FilterBySocketCompatibility parent candidates
          ++ FilterBySocketCompatibility parent more)
  /\ FilterBySocketCompatibility parent
       (FilterBySocketCompatibility parent candidates)
     = FilterBySocketCompatibility parent candidates
  /\ (forall c anchor,
        In c candidates -> In anchor (AnchorPoints parent) ->
        In (Category c) (CompatibleTypes anchor) ->
        In c (FilterBySocketCompatibility parent candidates))
  /\ (Forall (fun anchor => CompatibleTypes anchor = []) (AnchorPoints parent) ->
      FilterBySocketCompatibility parent candidates
      = List.filter noStringSocket candidates).
Proof.
  rewrite !Filter_is_filter.
  split; [apply AnchorStoreFacts.filter_sublist|].
  split; [intros more; rewrite !Filter_is_filter; apply List.filter_app|].
  split.
  { induction candidates as [|c l IH]; simpl; [reflexivity|].
    destruct (keeps parent c) eqn:E; simpl; rewrite ?E, IH; reflexivity. }
  split.
  - intros c anchor Hc Ha Hcat. apply filter_In. split; [exact Hc|].
    unfold keeps. destruct (TechnicalSpecs c !! "socket") as [[]|];
      try reflexivity.
    unfold anyCompatible. apply existsb_exists. exists anchor.
    split; [exact Ha|]. apply existsb_exists. exists (Category c).
    split; [exact Hcat|]. rewrite String.eqb_refl. apply orb_true_r.
  - intros Hnone. apply List.filter_ext. intros c.
    unfold keeps, noStringSocket.
    destruct (TechnicalSpecs c !! "socket") as [[]|]; try reflexivity.
    unfold anyCompatible. induction Hnone as [|a l Ha _ IH]; simpl;
      [reflexivity|].
    rewrite Ha. simpl. exact IH.
Qed.

End HandlersMore.

Module CasePanelsFacts.
Import CasePanels.

Lemma assign_lookup (key k : string) (v : bool) (obj : gmap string bool) :
  obj !! "__proto__" = None ->
  assign key v obj !! "__proto__" = None
  /\ assign key v obj !! k
     = if bool_decide (k = key /\ key <> "__proto__") then Some v
       else obj !! k.
Proof.
  intros Hp. unfold assign.
  destruct (String.eqb_spec key "__proto__") as [->|Hkey].
  - rewrite Hp. split; [exact Hp|].
    rewrite bool_decide_eq_false_2 by (intros [_ H]; congruence).
    reflexivity.
  - assert (E : match obj !! key with
                | Some _ => <[key := v]> obj
                | None => <[key := v]> obj
                end = <[key := v]> obj) by (destruct (obj !! key); reflexivity).
    rewrite E. split.
    + rewrite lookup_insert_ne by exact Hkey. exact Hp.
    + destruct (decide (k = key)) as [->|Hne].
      * rewrite lookup_insert_eq, bool_decide_eq_true_2 by auto. reflexivity.
      * rewrite lookup_insert_ne by congruence.
        rewrite bool_decide_eq_false_2 by (intros [H _]; contradiction).
        reflexivity.
Qed.

Lemma fold_assign_lookup (v : bool) (keys : list string)
    (m : gmap string bool) (k : string) :
  m !! "__proto__" = None ->
  List.fold_left (fun updated key => assign key v updated) keys m !! k
  = if bool_decide (k ∈ keys /\ k <> "__proto__") then Some v else m !! k.
Proof.
  revert m. induction keys as [|j keys IH]; intros m Hp; cbn [List.fold_left].
  - rewrite bool_decide_eq_false_2; [reflexivity|].
    intros [H _]. apply elem_of_nil in H. exact H.
  - destruct (assign_lookup j k v m Hp) as [Hp' Hk].
    rewrite IH by exact Hp'. rewrite Hk.
    destruct (decide (k ∈ keys /\ k <> "__proto__")) as [[Hin Hne]|Hout].
    + rewrite !bool_decide_eq_true_2; [reflexivity| |]; split; auto.
      apply list_elem_of_further. exact Hin.
    + rewrite (bool_decide_eq_false_2 _ Hout).
      destruct (decide (k = j /\ j <> "__proto__")) as [[-> Hne]|Hnj].
      * rewrite !bool_decide_eq_true_2; [reflexivity| |]; split; auto.
        apply list_elem_of_here.
      * rewrite (bool_decide_eq_false_2 _ Hnj).
        rewrite bool_decide_eq_false_2; [reflexivity|].
        intros [Hin Hne]. apply elem_of_cons in Hin as [->|Hin]; tauto.
Qed.

(** X27. The panel's switches.  [showAll] and [hideAll] keep the parts that
    are listed and set every one of them to shown, respectively hidden,
    except that a listed part named [__proto__] is dropped.  [togglePart]
    changes one part only; it flips a listed part, and toggling a listed
    part twice gives the map back; a part that is not listed is added as
    shown, unless its name is one that every object inherits, in which case
    it is added as hidden. *)
Theorem panel_switches (prev : gmap string bool) (k : string) :
  showAll prev !! k
  = (if String.eqb k "__proto__" then None
     else (fun _ => true) <$> prev !! k)
  /\ hideAll prev !! k
     = (if String.eqb k "__proto__" then None
        else (fun _ => false) <$> prev !! k)
  /\ (forall j, j <> k -> togglePart k prev !! j = prev !! j)
  /\ (forall b, prev !! k = Some b -> togglePart k prev !! k = Some (negb b))
  /\ (prev !! k = None ->
      togglePart k prev !! k
      = Some (negb (bool_decide (k ∈ Object_prototype_names))))
  /\ (is_Some (prev !! k) -> togglePart k (togglePart k prev) = prev).
Proof.
  assert (Hall : forall v,
            setAll v prev !! k
            = if String.eqb k "__proto__" then None
              else (fun _ => v) <$> prev !! k).
  { intros v. unfold setAll.
    rewrite fold_assign_lookup by apply lookup_empty. rewrite lookup_empty.
    destruct (String.eqb_spec k "__proto__") as [->|Hk].
    - rewrite bool_decide_eq_false_2 by (intros [_ H]; congruence).
      reflexivity.
    - destruct (prev !! k) as [b|] eqn:E; simpl.
      + rewrite bool_decide_eq_true_2; [reflexivity|]. split; [|exact Hk].
        apply list_elem_of_fmap. exists (k, b). split; [reflexivity|].
        apply elem_of_map_to_list. exact E.
      + rewrite bool_decide_eq_false_2; [reflexivity|].
        intros [H _]. apply list_elem_of_fmap in H.
        destruct H as ([j b] & -> & H).
        apply elem_of_map_to_list in H. simpl in E. congruence. }
  split; [apply Hall|]. split; [apply Hall|].
  unfold togglePart, truthyAt. split; [|split; [|split]].
  - intros j Hj. apply lookup_insert_ne. congruence.
  - intros b Hb. rewrite lookup_insert_eq, Hb. reflexivity.
  - intros Hn. rewrite lookup_insert_eq, Hn. reflexivity.
  - intros [b Hb]. rewrite lookup_insert_eq, insert_insert_eq, Hb.
    rewrite negb_involutive. apply insert_id. exact Hb.
Qed.

End CasePanelsFacts.

Module SessionFacts.
Import BuilderView BuilderSession.

(** An event the view can produce: a click on a step gives an index of
    [BUILD_STEPS]. *)
Definition possible (e : StepEvent) : Prop :=
  match e with
  | GoTo index => (index < length BUILD_STEPS)%nat
  | _ => True
  end.

Lemma stepTo_in_bounds (i : nat) (e : StepEvent) :
  (i < length BUILD_STEPS)%nat -> possible e ->
  (stepTo i e < length BUILD_STEPS)%nat.
Proof.
  intros Hi He. destruct e; simpl in *.
  - unfold handleNext. simpl. destruct (Nat.ltb_spec i 7); lia.
  - unfold handlePrevious. destruct (Nat.ltb_spec 0 i); lia.
  - exact He.
  - lia.
Qed.

(** X28. The current step always exists: starting at step 0, after any
    sequence of Next, Previous, clicks on a step, and loads or restarts of a
    build, the step index is below the number of build steps, so
    [BUILD_STEPS[currentStepIndex]] is a step; Next at the last step and
    Previous at the first one change nothing. *)
Theorem current_step_exists (events : list StepEvent) :
  Forall possible events ->
  let index := List.fold_left stepTo events 0%nat in
  (index < length BUILD_STEPS)%nat
  /\ is_Some (BUILD_STEPS !! index)
  /\ handleNext (length BUILD_STEPS - 1) = (length BUILD_STEPS - 1)%nat
  /\ handlePrevious 0 = 0%nat.
Proof.
  intros Hev index.
  assert (Hb : (index < length BUILD_STEPS)%nat).
  { unfold index. clear index.
    assert (H0 : (0 < length BUILD_STEPS)%nat) by (simpl; lia).
    revert H0. generalize 0%nat.
    induction Hev as [|e events He _ IH]; intros i Hi; simpl; [exact Hi|].
    apply IH. apply stepTo_in_bounds; assumption. }
  split; [exact Hb|]. split; [apply lookup_lt_is_Some; exact Hb|].
  split; reflexivity.
Qed.

Lemma current_step_exists_witness :
  (List.fold_left stepTo [Next; Next; GoTo 7; Next; Previous; Restart; Previous]
                  0%nat
   < length BUILD_STEPS)%nat.
Proof.
  apply (current_step_exists
           [Next; Next; GoTo 7; Next; Previous; Restart; Previous]).
  repeat constructor.
Defined.








End SessionFacts.

Module ModelProxyFacts.
Import ModelProxy.

(** X30. Proxying a model URL twice is proxying it once: a missing or
    empty URL gives the empty string, a URL under /api/ (or on localhost) is
    left as it is, a blob-storage URL is wrapped into a URL under /api/, and
    any other URL is left as it is; in each case the result is a fixed point
    of [getProxiedModelUrl], whatever [encodeURIComponent] does. *)
Theorem proxy_once (encodeURIComponent : string -> string)
    (url : option string) :
  getProxiedModelUrl encodeURIComponent
    (Some (getProxiedModelUrl encodeURIComponent url))
  = getProxiedModelUrl encodeURIComponent url
  /\ (forall u, url = Some u -> String.prefix "/api/" u = true ->
        getProxiedModelUrl encodeURIComponent url = u)
  /\ (forall u, url = Some u ->
        String.prefix "/api/"
          (getProxiedModelUrl encodeURIComponent url) = false ->
        getProxiedModelUrl encodeURIComponent url = u).
Proof.
  split; [|split].
  - destruct url as [u|]; [|reflexivity]. unfold getProxiedModelUrl.
    destruct (String.eqb u "") eqn:E0; [reflexivity|].
    destruct (String.prefix "/api/" u || String.prefix "http://localhost" u
              || String.prefix "http://127.0.0.1" u) eqn:E1.
    + rewrite E0, E1. reflexivity.
    + destruct (includes u "blob.core.windows.net") eqn:E2.
      * reflexivity.
      * rewrite E0, E1, E2. reflexivity.
  - intros u -> Hp. unfold getProxiedModelUrl.
    destruct (String.eqb_spec u ""); [subst; discriminate Hp|].
    rewrite Hp. reflexivity.
  - intros u -> Hp. unfold getProxiedModelUrl in *.
    destruct (String.eqb_spec u ""); [subst; reflexivity|].
    destruct (String.prefix "/api/" u || String.prefix "http://localhost" u
              || String.prefix "http://127.0.0.1" u); [reflexivity|].
    destruct (includes u "blob.core.windows.net"); [|reflexivity].
    discriminate Hp.
Qed.

End ModelProxyFacts.
